(** * Generic array reductions (numpy/core/src/multiarray/reduction.c)

    A shallow embedding of the reduction engine: the layout of reduction
    results, the two ways of seeding a reduction that has no identity,
    the orchestration in [PyArray_ReduceWrapper] and the element counter
    [PyArray_CountReduceItems].

    Conventions.
    - [npy_intp] is modelled by [Z].  NumPy refuses to create an array
      whose non-zero dimensions multiply (with the element size) beyond
      the range of [npy_intp], so the products computed by the code on
      array shapes never leave that range.
    - A [char *] is a [pointer]: a block (one allocation) and a byte
      offset inside it.  Every element, whatever its size, is one [Z]
      stored at the address of its first byte.
    - Collaborators whose code lives in other files (the iterator, the
      assignment routines, the mask reducer) are either parameters of a
      section or small reference models whose comment starts with
      "Modelled from the spec:". *)

From stdpp Require Import base numbers list sorting sets.

Local Open Scope Z_scope.

(** ** Memory *)

Record pointer := Ptr { block : nat; offset : Z }.

#[global] Instance pointer_eq_dec : EqDecision pointer.
Proof. solve_decision. Defined.

Definition ptr_add (p : pointer) (n : Z) : pointer :=
  Ptr (block p) (offset p + n).

Infix "+ₚ" := ptr_add (at level 50, left associativity).

(** [contents] gives the value stored at every address; blocks numbered
    [nextblock] and above have not been handed out yet. *)
Record heap := Heap { contents : pointer -> Z; nextblock : nat }.

Definition load (h : heap) (p : pointer) : Z := contents h p.

Definition store (h : heap) (p : pointer) (v : Z) : heap :=
  Heap (fun q => if decide (q = p) then v else contents h q) (nextblock h).

(** A fresh block; its contents are whatever the heap held there. *)
Definition alloc (h : heap) : nat * heap :=
  (nextblock h, Heap (contents h) (S (nextblock h))).

(** ** Arrays *)

Record PyArray_Descr := Descr { elsize : Z; has_fields : bool }.

Inductive mask_type_num := NPY_BOOL | NPY_MASK.

#[global] Instance mask_type_num_eq_dec : EqDecision mask_type_num.
Proof. solve_decision. Defined.

Record MaskNA := Mask {
  maskna_dtype : mask_type_num;
  maskna_data : pointer;
  maskna_strides : list Z
}.

Record PyArrayObject := Array {
  dimensions : list Z;
  strides : list Z;
  data : pointer;
  descr : PyArray_Descr;
  maskna : option MaskNA
}.

Definition PyArray_NDIM (a : PyArrayObject) : nat := length (dimensions a).
Definition PyArray_DIMS (a : PyArrayObject) : list Z := dimensions a.
Definition PyArray_SHAPE (a : PyArrayObject) : list Z := dimensions a.
Definition PyArray_STRIDES (a : PyArrayObject) : list Z := strides a.
Definition PyArray_DATA (a : PyArrayObject) : pointer := data a.
Definition PyArray_DTYPE (a : PyArrayObject) : PyArray_Descr := descr a.
Definition PyArray_HASFIELDS (a : PyArrayObject) : bool := has_fields (descr a).
Definition PyArray_HASMASKNA (a : PyArrayObject) : bool :=
  match maskna a with Some _ => true | None => false end.

(** The mask fields of an array; a NULL pointer and no strides when the
    array has no mask. *)
Definition PyArray_MASKNA_DATA (a : PyArrayObject) : pointer :=
  match maskna a with Some m => maskna_data m | None => Ptr 0 0 end.
Definition PyArray_MASKNA_STRIDES (a : PyArrayObject) : list Z :=
  match maskna a with Some m => maskna_strides m | None => [] end.
Definition PyArray_MASKNA_DTYPE (a : PyArrayObject) : mask_type_num :=
  match maskna a with Some m => maskna_dtype m | None => NPY_BOOL end.

(** Assignment to the [maskna_data] field. *)
Definition set_maskna_data (m : option MaskNA) (p : pointer) : option MaskNA :=
  match m with
  | Some m => Some (Mask (maskna_dtype m) p (maskna_strides m))
  | None => None
  end.

(** PyArray_MultiplyList *)
Definition PyArray_MultiplyList (l : list Z) : Z := foldr Z.mul 1 l.

Definition PyArray_SIZE (a : PyArrayObject) : Z :=
  PyArray_MultiplyList (dimensions a).

(** [a[i]] for a C array modelled by a list; a read past the end of the
    list gives [false], respectively 0. *)
Definition flag_at (axis_flags : list bool) (idim : nat) : bool :=
  default false (axis_flags !! idim).

Definition intp_at (l : list Z) (idim : nat) : Z := default 0 (l !! idim).

(** NpyMaskValue_IsExposed: the lowest bit of a mask value. *)
Definition NpyMaskValue_IsExposed (m : Z) : bool :=
  negb (Z.land m 1 =? 0).

(** ** ShapeBuilder: [allocate_reduce_result] *)

(** The order used by the stride sort: larger magnitude first. *)
Definition stride_before (strides : list Z) (i j : nat) : Prop :=
  Z.abs (intp_at strides j) <= Z.abs (intp_at strides i).

#[global] Instance stride_before_dec strides i j :
  Decision (stride_before strides i j).
Proof. unfold stride_before. apply _. Defined.

(** Modelled from the spec: PyArray_CreateSortedStridePerm, whose code is
    not part of this file.  It sorts all axes by the magnitude of the
    operand's strides; the entry at the last position is the axis of
    smallest stride.  Only the [perm] field of the sort items is kept. *)
Definition PyArray_CreateSortedStridePerm
    (ndim : nat) (shape strides : list Z) : list nat :=
  merge_sort (stride_before strides) (seq 0 ndim).

(** The loop [for (idim = ndim-1; idim >= 0; --idim)] of
    [allocate_reduce_result], run over the entries
    [strideperm[ndim-1], ..., strideperm[0]]. *)
Fixpoint build_strides_shape (perm_down : list nat) (axis_flags : list bool)
    (stride : Z) (strides shape : list Z) : list Z * list Z :=
  match perm_down with
  | [] => (strides, shape)
  | i_perm :: rest =>
      if flag_at axis_flags i_perm then
        build_strides_shape rest axis_flags stride
          (<[i_perm := 0]> strides) (<[i_perm := 1]> shape)
      else
        build_strides_shape rest axis_flags (stride * intp_at shape i_perm)
          (<[i_perm := stride]> strides) shape
  end.

(** Modelled from the spec: PyArray_NewFromDescr called with a NULL data
    pointer allocates a buffer for an array of the given shape and
    strides; the new array has no NA mask. *)
Definition PyArray_NewFromDescr (h : heap) (dtype : PyArray_Descr)
    (shape strides : list Z) : PyArrayObject * heap :=
  let '(b, h') := alloc h in
  (Array shape strides (Ptr b 0) dtype None, h').

Definition allocate_reduce_result (h : heap) (arr : PyArrayObject)
    (axis_flags : list bool) (dtype : option PyArray_Descr) (subok : bool)
    : PyArrayObject * heap :=
  let ndim := PyArray_NDIM arr in
  let dtype := match dtype with Some d => d | None => PyArray_DTYPE arr end in
  let strideperm :=
    PyArray_CreateSortedStridePerm ndim (PyArray_SHAPE arr) (PyArray_STRIDES arr) in
  let '(strides, shape) :=
    build_strides_shape (reverse strideperm) axis_flags (elsize dtype)
      (replicate ndim 0) (PyArray_DIMS arr) in
  PyArray_NewFromDescr h dtype shape strides.

(** ** Errors, events and the execution monad *)

(** One constructor per place where the code sets a Python exception. *)
Inductive PyErr :=
| ValueError_wrong_ndim_keepdims
| ValueError_reduction_dim_not_one
| ValueError_not_enough_dims
| ValueError_too_many_dims
| ValueError_needs_namask
| ValueError_not_reorderable
| ValueError_all_inputs_NA
| ValueError_zero_size
| ValueError_fully_NA
| RuntimeError_where_mask
| RuntimeError_multi_NA
| ValueError_assign_NA
| RuntimeError_no_unmasked_loop
| RuntimeError_no_masked_loop
| RuntimeError_field_NA
| RuntimeError_multi_NA_count
| Error_in_collaborator.

#[global] Instance PyErr_eq_dec : EqDecision PyErr.
Proof. solve_decision. Defined.

(** The error taxonomy of the specification. *)
Inductive spec_error :=
| ConfigurationError | ShapeError | MaskSupportError | EmptyReductionError
| AllMissingError | UnimplementedError | InternalFailure.

Definition classify (e : PyErr) : spec_error :=
  match e with
  | ValueError_wrong_ndim_keepdims | ValueError_reduction_dim_not_one
  | ValueError_not_enough_dims | ValueError_too_many_dims => ShapeError
  | ValueError_needs_namask | ValueError_assign_NA => MaskSupportError
  | ValueError_not_reorderable | RuntimeError_where_mask
  | RuntimeError_multi_NA | RuntimeError_no_unmasked_loop
  | RuntimeError_no_masked_loop => ConfigurationError
  | ValueError_zero_size => EmptyReductionError
  | ValueError_all_inputs_NA | ValueError_fully_NA => AllMissingError
  | RuntimeError_field_NA | RuntimeError_multi_NA_count => UnimplementedError
  | Error_in_collaborator => InternalFailure
  end.

Inductive loop_kind := Unmasked | MaskedLoop | AdvancedMasked.

(** The work a call has done so far, oldest first. *)
Inductive event :=
| Ev_allocate_result
| Ev_conform_result
| Ev_allocate_mask
| Ev_reduce_mask
| Ev_assign_identity
| Ev_copy_first
| Ev_seed_scattered
| Ev_inner_loop (k : loop_kind).

#[global] Instance loop_kind_eq_dec : EqDecision loop_kind.
Proof. solve_decision. Defined.

#[global] Instance event_eq_dec : EqDecision event.
Proof. solve_decision. Defined.

Record state := State { st_heap : heap; st_trace : list event }.

(** A call returns a value, fails with an exception, or never returns. *)
Inductive outcome (A : Type) :=
| Ok (a : A)
| Raise (e : PyErr)
| Hangs.
Arguments Ok {A} a.
Arguments Raise {A} e.
Arguments Hangs {A}.

Definition M (A : Type) : Type := state -> outcome A * state.

Definition ret {A} (a : A) : M A := fun s => (Ok a, s).

Definition raise {A} (e : PyErr) : M A := fun s => (Raise e, s).

Definition bind {A B} (c : M A) (k : A -> M B) : M B :=
  fun s =>
    match c s with
    | (Ok a, s') => k a s'
    | (Raise e, s') => (Raise e, s')
    | (Hangs, s') => (Hangs, s')
    end.

Notation "x <- c ;; k" := (bind c (fun x => k))
  (at level 100, c at next level, right associativity).
Notation "c ;;; k" := (bind c (fun _ => k))
  (at level 100, right associativity).

Definition log (e : event) : M unit :=
  fun s => (Ok tt, State (st_heap s) (st_trace s ++ [e])).

Definition get_heap : M heap := fun s => (Ok (st_heap s), s).

Definition put_heap (h : heap) : M unit :=
  fun s => (Ok tt, State h (st_trace s)).

(** A heap operation that cannot fail. *)
Definition with_heap {A} (f : heap -> A * heap) : M A :=
  fun s => let '(a, h') := f (st_heap s) in (Ok a, State h' (st_trace s)).

(** A collaborator that either updates the heap or fails. *)
Definition call (f : heap -> option heap) : M unit :=
  fun s =>
    match f (st_heap s) with
    | Some h' => (Ok tt, State h' (st_trace s))
    | None => (Raise Error_in_collaborator, s)
    end.

(** ** Index vectors *)

(** All index vectors of an array of the given shape, last axis fastest. *)
Fixpoint coords (shape : list Z) : list (list Z) :=
  match shape with
  | [] => [[]]
  | n :: rest => c ← seqZ 0 n; (c ::.) <$> coords rest
  end.

(** Byte offset of the element at [idx]. *)
Fixpoint index_offset (idx strides : list Z) : Z :=
  match idx, strides with
  | i :: idx', s :: strides' => i * s + index_offset idx' strides'
  | _, _ => 0
  end.

(** Strides of a C-contiguous array. *)
Fixpoint c_strides (shape : list Z) (itemsize : Z) : list Z :=
  match shape with
  | [] => []
  | _ :: rest => (itemsize * PyArray_MultiplyList rest) :: c_strides rest itemsize
  end.

Definition element_ptr (a : PyArrayObject) (idx : list Z) : pointer :=
  data a +ₚ index_offset idx (strides a).

Definition mask_ptr (m : MaskNA) (idx : list Z) : pointer :=
  maskna_data m +ₚ index_offset idx (maskna_strides m).

(** ** Collaborators on whole arrays *)

(** PyArray_View(a, NULL, &PyArray_Type): a new array object over the
    same data and the same mask; its shape and strides are its own. *)
Definition PyArray_View (a : PyArrayObject) : PyArrayObject := a.

(** Modelled from the spec: PyArray_AllocateMaskNA(arr, 1, 0, 1) gives
    [arr] a boolean mask of its own: a copy of the mask it was viewing,
    or an all-exposed mask when it had none. *)
Definition PyArray_AllocateMaskNA (h : heap) (arr : PyArrayObject)
    : PyArrayObject * heap :=
  let '(b, h1) := alloc h in
  let own := Mask NPY_BOOL (Ptr b 0) (c_strides (dimensions arr) 1) in
  let fill (hh : heap) (idx : list Z) : heap :=
    store hh (mask_ptr own idx)
      match maskna arr with
      | Some m => load h (mask_ptr m idx)
      | None => 1
      end in
  (Array (dimensions arr) (strides arr) (data arr) (descr arr) (Some own),
   foldl fill h1 (coords (dimensions arr))).

(** Modelled from the spec: PyArray_AssignMaskNA(arr, 1, ...) exposes
    every element of an array that has a mask. *)
Definition PyArray_AssignMaskNA_exposed (h : heap) (arr : PyArrayObject) : heap :=
  match maskna arr with
  | Some m => foldl (fun hh idx => store hh (mask_ptr m idx) 1) h
                (coords (dimensions arr))
  | None => h
  end.

(** Modelled from the spec: PyArray_AssignZero(arr, NULL, 0, NULL). *)
Definition PyArray_AssignZero (h : heap) (arr : PyArrayObject) : heap :=
  foldl (fun hh idx => store hh (element_ptr arr idx) 0) h
    (coords (dimensions arr)).

(** Modelled from the spec: PyArray_ContainsNA(arr, NULL, NULL): does
    the array hold a hidden element? *)
Definition PyArray_ContainsNA (h : heap) (arr : PyArrayObject) : bool :=
  match maskna arr with
  | Some m =>
      existsb (fun idx => negb (NpyMaskValue_IsExposed (load h (mask_ptr m idx))))
        (coords (dimensions arr))
  | None => false
  end.

(** Modelled from the spec: PyArray_RemoveAxesInPlace drops the flagged
    axes from the shape, the strides and the mask strides. *)
Fixpoint remove_axes {A} (flags : list bool) (l : list A) : list A :=
  match l, flags with
  | x :: l', f :: flags' =>
      if f then remove_axes flags' l' else x :: remove_axes flags' l'
  | _, _ => l
  end.

Definition PyArray_RemoveAxesInPlace (a : PyArrayObject) (flags : list bool)
    : PyArrayObject :=
  Array (remove_axes flags (dimensions a)) (remove_axes flags (strides a))
    (data a) (descr a)
    match maskna a with
    | Some m => Some (Mask (maskna_dtype m) (maskna_data m)
                        (remove_axes flags (maskna_strides m)))
    | None => None
    end.

(** ** OutputConformer: [conform_reduce_result] *)

(** The validation loop of the [keepdims] case. *)
Fixpoint conform_check_keepdims (idims : list nat) (axis_flags : list bool)
    (shape_out : list Z) : outcome unit :=
  match idims with
  | [] => Ok tt
  | idim :: rest =>
      if flag_at axis_flags idim && negb (intp_at shape_out idim =? 1)
      then Raise ValueError_reduction_dim_not_one
      else conform_check_keepdims rest axis_flags shape_out
  end.

(** "Construct the strides and shape": entries are produced for
    idim = 0, 1, ... in turn; [idim_out] walks over the axes of [out]. *)
Fixpoint conform_build (idims : list nat) (axis_flags : list bool)
    (strides_out shape_out : list Z) (ndim_out idim_out : nat)
    : outcome (list Z * list Z * nat) :=
  match idims with
  | [] => Ok ([], [], idim_out)
  | idim :: rest =>
      if flag_at axis_flags idim then
        match conform_build rest axis_flags strides_out shape_out ndim_out idim_out with
        | Ok (strides, shape, n) => Ok (0 :: strides, 1 :: shape, n)
        | Raise e => Raise e
        | Hangs => Hangs
        end
      else if decide (ndim_out ≤ idim_out)%nat then
        Raise ValueError_not_enough_dims
      else
        match conform_build rest axis_flags strides_out shape_out ndim_out (S idim_out) with
        | Ok (strides, shape, n) =>
            Ok (intp_at strides_out idim_out :: strides,
                intp_at shape_out idim_out :: shape, n)
        | Raise e => Raise e
        | Hangs => Hangs
        end
  end.

(** "Take a view of the mask if it exists": the same interleaving, on
    the mask strides and without the bound check. *)
Fixpoint conform_mask_strides (idims : list nat) (axis_flags : list bool)
    (strides_out : list Z) (idim_out : nat) : list Z :=
  match idims with
  | [] => []
  | idim :: rest =>
      if flag_at axis_flags idim then
        0 :: conform_mask_strides rest axis_flags strides_out idim_out
      else
        intp_at strides_out idim_out
          :: conform_mask_strides rest axis_flags strides_out (S idim_out)
  end.

Definition conform_reduce_result (ndim : nat) (axis_flags : list bool)
    (out : PyArrayObject) (keepdims : bool) : outcome PyArrayObject :=
  let ndim_out := PyArray_NDIM out in
  if keepdims then
    if negb (PyArray_NDIM out =? ndim)%nat then
      Raise ValueError_wrong_ndim_keepdims
    else
      match conform_check_keepdims (seq 0 ndim) axis_flags (PyArray_DIMS out) with
      | Ok _ => Ok out
      | Raise e => Raise e
      | Hangs => Hangs
      end
  else
    match conform_build (seq 0 ndim) axis_flags
            (PyArray_STRIDES out) (PyArray_DIMS out) ndim_out 0 with
    | Raise e => Raise e
    | Hangs => Hangs
    | Ok (strides, shape, idim_out) =>
        if negb (idim_out =? ndim_out)%nat then Raise ValueError_too_many_dims
        else
          Ok (Array shape strides (PyArray_DATA out) (PyArray_DTYPE out)
                match maskna out with
                | Some m =>
                    Some (Mask (maskna_dtype m) (maskna_data m)
                            (conform_mask_strides (seq 0 ndim) axis_flags
                               (maskna_strides m) 0))
                | None => None
                end)
    end.

(** ** ResultFactory: [PyArray_CreateReduceResult] *)

Definition lift_outcome {A} (o : outcome A) : M A := fun s => (o, s).

Definition PyArray_CreateReduceResult (operand : PyArrayObject)
    (out : option PyArrayObject) (dtype : option PyArray_Descr)
    (axis_flags : list bool) (need_namask keepdims subok : bool)
    : M PyArrayObject :=
  match out with
  | None =>
      result <- with_heap (fun h => allocate_reduce_result h operand axis_flags dtype subok);;
      log Ev_allocate_result;;;
      if need_namask then
        result <- with_heap (fun h => PyArray_AllocateMaskNA h result);;
        log Ev_allocate_mask;;;
        ret result
      else ret result
  | Some out =>
      if need_namask && negb (PyArray_HASMASKNA out) then
        raise ValueError_needs_namask
      else
        result <- lift_outcome
          (conform_reduce_result (PyArray_NDIM operand) axis_flags out keepdims);;
        log Ev_conform_result;;;
        ret result
  end.

(** ** [check_nonreorderable_axes] *)

Fixpoint check_nonreorderable_loop (idims : list nat) (axis_flags : list bool)
    (single_axis : bool) : Z :=
  match idims with
  | [] => 0
  | idim :: rest =>
      if flag_at axis_flags idim then
        if single_axis then -1
        else check_nonreorderable_loop rest axis_flags true
      else check_nonreorderable_loop rest axis_flags single_axis
  end.

Definition check_nonreorderable_axes (ndim : nat) (axis_flags : list bool) : Z :=
  check_nonreorderable_loop (seq 0 ndim) axis_flags false.

(** ** ScatteredSeeder: [initialize_reduce_result_noidentity_skipna] *)

(** What one step of the iterator hands to the loop: the data pointers
    and strides of the operand (0), the result (1), the flag array (2)
    and the operand's mask (3), and the length of the inner run. *)
Record inner_chunk := Chunk {
  dataptr0 : pointer; dataptr1 : pointer; dataptr2 : pointer; dataptr3 : pointer;
  strideptr0 : Z; strideptr1 : Z; strideptr2 : Z; strideptr3 : Z;
  countptr : Z
}.

Definition NpyIter_GetIterSize (chunks : list inner_chunk) : Z :=
  foldr (fun c n => countptr c + n) 0 chunks.

(** Modelled from the spec: the DataTransfer collaborator copies [N]
    elements from [src] to [dst] with the given strides. *)
Fixpoint stransfer_loop (N : nat) (h : heap) (dst : pointer) (dst_stride : Z)
    (src : pointer) (src_stride : Z) : heap :=
  match N with
  | O => h
  | S n =>
      stransfer_loop n (store h dst (load h src))
        (dst +ₚ dst_stride) dst_stride (src +ₚ src_stride) src_stride
  end.

Definition stransfer (h : heap) (dst : pointer) (dst_stride : Z)
    (src : pointer) (src_stride : Z) (N : Z) : heap :=
  stransfer_loop (Z.to_nat N) h dst dst_stride src src_stride.

(** The loop state after an inner run: the heap, the countdown and
    whether [goto finish_loop] was taken. *)
Definition seed_state : Type := heap * Z * bool.

(** "If the result stride is 0, copy at most one value": the [for] loop
    over [i], with [n] iterations left. *)
Fixpoint seed_one_value (n : nat) (i : Z) (h : heap)
    (op_d res_d init_d op_namask_d : pointer) (op_s init_s op_namask_s : Z)
    (initialized_countdown : Z) : seed_state :=
  match n with
  | O => (h, initialized_countdown, false)
  | S n' =>
      if (load h init_d =? 0) && NpyMaskValue_IsExposed (load h op_namask_d) then
        let h := store h init_d 1 in
        let h := stransfer h res_d 0 (op_d +ₚ i * op_s) op_s 1 in
        let initialized_countdown := initialized_countdown - 1 in
        (h, initialized_countdown, initialized_countdown =? 0)
      else
        seed_one_value n' (i + 1) h op_d res_d
          (init_d +ₚ init_s) (op_namask_d +ₚ op_namask_s)
          op_s init_s op_namask_s initialized_countdown
  end.

(** "Skip values that are initialized or masked": returns [subcount]
    and the advanced flag and mask pointers. *)
Fixpoint skip_run (n : nat) (subcount count : Z) (h : heap)
    (init_d op_namask_d : pointer) (init_s op_namask_s : Z)
    : Z * pointer * pointer :=
  match n with
  | O => (subcount, init_d, op_namask_d)
  | S n' =>
      if (subcount <? count) &&
         ((load h init_d =? 1) || negb (NpyMaskValue_IsExposed (load h op_namask_d)))
      then skip_run n' (subcount + 1) count h
             (init_d +ₚ init_s) (op_namask_d +ₚ op_namask_s) init_s op_namask_s
      else (subcount, init_d, op_namask_d)
  end.

(** "Transfer values that are uninitialized and exposed": marks the
    flags of the run and returns its length. *)
Fixpoint mark_run (n : nat) (subcount count : Z) (h : heap)
    (init_d op_namask_d : pointer) (init_s op_namask_s : Z)
    : Z * heap * pointer * pointer :=
  match n with
  | O => (subcount, h, init_d, op_namask_d)
  | S n' =>
      if (subcount <? count) &&
         ((load h init_d =? 0) && NpyMaskValue_IsExposed (load h op_namask_d))
      then mark_run n' (subcount + 1) count (store h init_d 1)
             (init_d +ₚ init_s) (op_namask_d +ₚ op_namask_s) init_s op_namask_s
      else (subcount, h, init_d, op_namask_d)
  end.

(** "Otherwise process the data in runs as large as possible": the
    [do ... while (count > 0)] loop.  [None] when the fuel runs out. *)
Fixpoint seed_runs (fuel : nat) (h : heap)
    (op_d res_d init_d op_namask_d : pointer)
    (op_s res_s init_s op_namask_s : Z)
    (count initialized_countdown : Z) : option seed_state :=
  match fuel with
  | O => None
  | S fuel' =>
      let '(subcount, init_d, op_namask_d) :=
        skip_run (Z.to_nat count) 0 count h init_d op_namask_d init_s op_namask_s in
      let op_d := op_d +ₚ subcount * op_s in
      let res_d := res_d +ₚ subcount * res_s in
      let count := count - subcount in
      let '(subcount, h, init_d, op_namask_d) :=
        mark_run (Z.to_nat count) 0 count h init_d op_namask_d init_s op_namask_s in
      let h := stransfer h res_d res_s op_d op_s subcount in
      let op_d := op_d +ₚ subcount * op_s in
      let res_d := res_d +ₚ subcount * res_s in
      let count := count - subcount in
      let initialized_countdown := initialized_countdown - subcount in
      if initialized_countdown =? 0 then Some (h, initialized_countdown, true)
      else if 0 <? count then
        seed_runs fuel' h op_d res_d init_d op_namask_d
          op_s res_s init_s op_namask_s count initialized_countdown
      else Some (h, initialized_countdown, false)
  end.

(** The body of the outer [do ... while (iternext(iter))] loop.  A pass
    of [seed_runs] that leaves [count] unchanged repeats for ever, so
    [count + 1] passes are enough whenever the loop ends. *)
Definition seed_chunk (c : inner_chunk) (h : heap) (initialized_countdown : Z)
    : option seed_state :=
  let count := countptr c in
  if strideptr1 c =? 0 then
    Some (seed_one_value (Z.to_nat count) 0 h
            (dataptr0 c) (dataptr1 c) (dataptr2 c) (dataptr3 c)
            (strideptr0 c) (strideptr2 c) (strideptr3 c) initialized_countdown)
  else
    seed_runs (S (Z.to_nat count)) h
      (dataptr0 c) (dataptr1 c) (dataptr2 c) (dataptr3 c)
      (strideptr0 c) (strideptr1 c) (strideptr2 c) (strideptr3 c)
      count initialized_countdown.

Fixpoint seed_chunks (chunks : list inner_chunk) (h : heap)
    (initialized_countdown : Z) : option (heap * Z) :=
  match chunks with
  | [] => Some (h, initialized_countdown)
  | c :: rest =>
      match seed_chunk c h initialized_countdown with
      | None => None
      | Some (h', countdown', finished) =>
          if finished then Some (h', countdown')
          else seed_chunks rest h' countdown'
      end
  end.

(** Modelled from the spec: PyArray_NewLikeArray(result, NPY_KEEPORDER,
    bool_dtype, 0) allocates a one-byte-per-cell array of the shape of
    [result]. *)
Definition PyArray_NewLikeArray_bool (h : heap) (result : PyArrayObject)
    : PyArrayObject * heap :=
  PyArray_NewFromDescr h (Descr 1 false) (dimensions result)
    (c_strides (dimensions result) 1).

(** ** The engine, over its collaborators *)

Inductive maskna_use := NPY_ITER_USE_MASKNA | NPY_ITER_IGNORE_MASKNA.

Definition strip_mask (a : PyArrayObject) : PyArrayObject :=
  Array (dimensions a) (strides a) (data a) (descr a) None.

(** An operand as the iterator sees it: with NPY_ITER_IGNORE_MASKNA the
    mask of the operand is not looked at. *)
Definition iter_operand (a : PyArrayObject) (u : maskna_use) : PyArrayObject :=
  match u with
  | NPY_ITER_USE_MASKNA => a
  | NPY_ITER_IGNORE_MASKNA => strip_mask a
  end.

(** What a call returns: the caller's own output object, or the array the
    call allocated. *)
Inductive returned :=
| Return_out (out : PyArrayObject)
| Return_new (result : PyArrayObject).

Section Engine.

(** The iterator of the seeding pass, over (operand view, result, flag
    array): the inner runs in iteration order. *)
Variable NpyIter_MultiNew :
  PyArrayObject -> PyArrayObject -> PyArrayObject -> option (list inner_chunk).

(** PyArray_AssignArray(dst, src, NULL, NPY_UNSAFE_CASTING, 1, NULL) *)
Variable PyArray_AssignArray :
  heap -> PyArrayObject -> PyArrayObject -> option heap.

(** PyArray_ReduceMaskNAArray(operand, result, NULL, NULL) *)
Variable PyArray_ReduceMaskNAArray :
  heap -> PyArrayObject -> PyArrayObject -> option heap.

(** The iterator of the main loop, over (result, remainder view). *)
Variable NpyIter : Type.
Variable NpyIter_AdvancedNew :
  PyArrayObject -> PyArrayObject ->
  PyArray_Descr -> PyArray_Descr -> nat -> Z -> option NpyIter.
Variable NpyIter_GetIterSize_main : NpyIter -> Z.

(** An inner loop function: (iter, skip_first_count) on the heap. *)
Definition PyArray_ReduceLoopFunc : Type := NpyIter -> Z -> heap -> option heap.

(** assign_identity(result, preservena, data) *)
Definition PyArray_AssignReduceIdentityFunc : Type :=
  PyArrayObject -> bool -> heap -> option heap.

Definition initialize_reduce_result_noidentity_skipna
    (operand result : PyArrayObject) (axis_flags : list bool)
    : M PyArrayObject :=
  (* a view of operand which owns its own mask *)
  operand <- with_heap (fun h => PyArray_AllocateMaskNA h (PyArray_View operand));;
  (* the flag array, all zero *)
  initialized <- with_heap (fun h => PyArray_NewLikeArray_bool h result);;
  with_heap (fun h => (tt, PyArray_AssignZero h initialized));;;
  match NpyIter_MultiNew operand result initialized with
  | None => raise Error_in_collaborator
  | Some iter =>
      let initialized_countdown := PyArray_SIZE result in
      h <- get_heap;;
      match
        (if negb (NpyIter_GetIterSize iter =? 0)
         then seed_chunks iter h initialized_countdown
         else Some (h, initialized_countdown))
      with
      | None => fun s => (Hangs, s)
      | Some (h, initialized_countdown) =>
          put_heap h;;;
          log Ev_seed_scattered;;;
          if negb (initialized_countdown =? 0) then
            raise ValueError_all_inputs_NA
          else
            (if PyArray_HASMASKNA result
             then with_heap (fun h => (tt, PyArray_AssignMaskNA_exposed h result))
             else ret tt);;;
            ret operand
      end
  end.

(** "Shrink the array from the start until we find an exposed element" *)
Fixpoint shrink_from_start (n : nat) (h : heap) (shape0 : Z)
    (data maskna_data : pointer) (stride0 maskna_stride0 : Z)
    : Z * pointer * pointer :=
  match n with
  | O => (shape0, data, maskna_data)
  | S n' =>
      if (0 <? shape0) && negb (NpyMaskValue_IsExposed (load h maskna_data))
      then shrink_from_start n' h (shape0 - 1)
             (data +ₚ stride0) (maskna_data +ₚ maskna_stride0)
             stride0 maskna_stride0
      else (shape0, data, maskna_data)
  end.

(** "Adjust the shape to only look at the first element along any of
    the reduction axes", counting the reduction axes. *)
Fixpoint first_along_axes (idims : list nat) (axis_flags : list bool)
    (shape : list Z) (nreduce_axes : Z) : list Z * Z :=
  match idims with
  | [] => (shape, nreduce_axes)
  | idim :: rest =>
      if flag_at axis_flags idim
      then first_along_axes rest axis_flags (<[idim := 1]> shape) (nreduce_axes + 1)
      else first_along_axes rest axis_flags shape nreduce_axes
  end.

(** The two loops of the one-axis case: drop the first element of the
    reduction axis from the shape and advance a data pointer. *)
Fixpoint drop_first (idims : list nat) (axis_flags : list bool)
    (shape shape_orig strides : list Z) (data : pointer) : list Z * pointer :=
  match idims with
  | [] => (shape, data)
  | idim :: rest =>
      if flag_at axis_flags idim
      then drop_first rest axis_flags
             (<[idim := intp_at shape_orig idim - 1]> shape) shape_orig strides
             (data +ₚ intp_at strides idim)
      else drop_first rest axis_flags shape shape_orig strides data
  end.

Fixpoint advance_mask (idims : list nat) (axis_flags : list bool)
    (strides : list Z) (maskna_data : pointer) : pointer :=
  match idims with
  | [] => maskna_data
  | idim :: rest =>
      if flag_at axis_flags idim
      then advance_mask rest axis_flags strides (maskna_data +ₚ intp_at strides idim)
      else advance_mask rest axis_flags strides maskna_data
  end.

Fixpoint make_empty (idims : list nat) (shape : list Z) : list Z :=
  match idims with
  | [] => shape
  | idim :: rest => make_empty rest (<[idim := 0]> shape)
  end.

Definition with_shape (a : PyArrayObject) (shape : list Z) : PyArrayObject :=
  Array shape (strides a) (data a) (descr a) (maskna a).

(** "Now copy the subarray of the first element along each reduction
    axis, then return a view to the rest": the part of
    [PyArray_InitializeReduceResult] shared by the unmasked case and
    the one-dimensional skipna case.  Returns the remainder view and
    the value left in [*out_skip_first_count]. *)
Definition copy_first_and_shrink (result operand op_view : PyArrayObject)
    (axis_flags : list bool) (ndim : nat) : M (PyArrayObject * Z) :=
  let shape_orig := PyArray_SHAPE op_view in
  let '(shape, nreduce_axes) :=
    first_along_axes (seq 0 ndim) axis_flags shape_orig 0 in
  call (fun h => PyArray_AssignArray h result (with_shape op_view shape));;;
  log Ev_copy_first;;;
  if nreduce_axes =? 1 then
    let '(shape, data) :=
      drop_first (seq 0 ndim) axis_flags shape shape_orig
        (PyArray_STRIDES op_view) (PyArray_DATA op_view) in
    ret (Array shape (strides op_view) data (descr op_view)
           (if PyArray_HASMASKNA op_view
            then set_maskna_data (maskna op_view)
                   (advance_mask (seq 0 ndim) axis_flags
                      (PyArray_MASKNA_STRIDES op_view) (PyArray_MASKNA_DATA op_view))
            else maskna op_view), 0)
  else if nreduce_axes =? 0 then
    ret (with_shape op_view (make_empty (seq 0 ndim) shape), 0)
  else
    ret (operand, PyArray_SIZE result).

Definition PyArray_InitializeReduceResult (result operand : PyArrayObject)
    (axis_flags : list bool) (reorderable skipna : bool)
    : M (PyArrayObject * Z) :=
  let ndim := PyArray_NDIM operand in
  if negb reorderable && (check_nonreorderable_axes ndim axis_flags <? 0) then
    raise ValueError_not_reorderable
  else if negb skipna || negb (PyArray_HASMASKNA operand) then
    if PyArray_SIZE operand =? 0 then raise ValueError_zero_size
    else
      copy_first_and_shrink result operand (PyArray_View operand) axis_flags ndim
  else if (ndim =? 1)%nat then
    let op_view := PyArray_View operand in
    h <- get_heap;;
    let shape0 := intp_at (PyArray_DIMS op_view) 0 in
    let '(shape0, data, maskna_data) :=
      shrink_from_start (Z.to_nat shape0) h shape0
        (PyArray_DATA op_view) (PyArray_MASKNA_DATA op_view)
        (intp_at (PyArray_STRIDES op_view) 0)
        (intp_at (PyArray_MASKNA_STRIDES op_view) 0) in
    if shape0 =? 0 then raise ValueError_fully_NA
    else
      copy_first_and_shrink result operand
        (Array (<[0%nat := shape0]> (dimensions op_view)) (strides op_view)
           data (descr op_view) (set_maskna_data (maskna op_view) maskna_data))
        axis_flags ndim
  else
    v <- initialize_reduce_result_noidentity_skipna operand result axis_flags;;
    ret (v, 0).

(** ** ReductionOrchestrator: [PyArray_ReduceWrapper] *)

(** The mask flags added to op_flags[0] (result) and op_flags[1]
    (remainder view). *)
Definition mask_flags (use_maskna skipna advanced : bool)
    : maskna_use * maskna_use :=
  if use_maskna then
    if skipna then (NPY_ITER_IGNORE_MASKNA, NPY_ITER_USE_MASKNA)
    else
      (NPY_ITER_USE_MASKNA,
       if negb advanced then NPY_ITER_IGNORE_MASKNA else NPY_ITER_USE_MASKNA)
  else (NPY_ITER_IGNORE_MASKNA, NPY_ITER_IGNORE_MASKNA).

Definition is_null {A} (o : option A) : bool :=
  match o with Some _ => false | None => true end.

(** The choice among the three inner loops. *)
Definition run_inner_loop (use_maskna skipna : bool)
    (loop masked_loop advanced_masked_loop : option PyArray_ReduceLoopFunc)
    (iter : NpyIter) (skip_first_count : Z) : M unit :=
  if negb use_maskna then
    match loop with
    | None => raise RuntimeError_no_unmasked_loop
    | Some loop =>
        call (loop iter skip_first_count);;; log (Ev_inner_loop Unmasked)
    end
  else if negb skipna && negb (is_null advanced_masked_loop) then
    match advanced_masked_loop with
    | Some advanced_masked_loop =>
        call (advanced_masked_loop iter skip_first_count);;;
        log (Ev_inner_loop AdvancedMasked)
    | None => ret tt
    end
  else
    match masked_loop with
    | None => raise RuntimeError_no_masked_loop
    | Some masked_loop =>
        call (masked_loop iter skip_first_count);;; log (Ev_inner_loop MaskedLoop)
    end.

(** The label [finish]. *)
Definition finish (out : option PyArrayObject) (result : PyArrayObject)
    (axis_flags : list bool) (keepdims : bool) : M returned :=
  match out with
  | None =>
      if negb keepdims
      then ret (Return_new (PyArray_RemoveAxesInPlace result axis_flags))
      else ret (Return_new result)
  | Some out => ret (Return_out out)
  end.

(** "Initialize the result to the reduction unit if possible, otherwise
    copy the initial values and get a view to the rest."  [None] stands
    for the jump to [finish] taken when the remainder view is empty. *)
Definition initialize_values (operand result : PyArrayObject)
    (axis_flags : list bool) (reorderable skipna : bool)
    (assign_identity : option PyArray_AssignReduceIdentityFunc)
    : M (option (PyArrayObject * Z)) :=
  match assign_identity with
  | Some assign_identity =>
      if negb reorderable &&
         (check_nonreorderable_axes (PyArray_NDIM operand) axis_flags <? 0)
      then raise ValueError_not_reorderable
      else
        call (assign_identity result (negb skipna));;;
        log Ev_assign_identity;;;
        ret (Some (operand, 0))
  | None =>
      r <- PyArray_InitializeReduceResult result operand axis_flags
             reorderable skipna;;
      let '(op_view, skip_first_count) := r in
      if PyArray_SIZE op_view =? 0 then ret None
      else ret (Some (op_view, skip_first_count))
  end.

(** The wrapper from "This either conforms 'out' to the ndim of
    'operand', or allocates a new array" on, once [use_maskna] has been
    settled. *)
Definition reduce_with (use_maskna : bool)
    (operand : PyArrayObject) (out : option PyArrayObject)
    (operand_dtype result_dtype : PyArray_Descr) (casting : nat)
    (axis_flags : list bool) (reorderable skipna keepdims subok : bool)
    (assign_identity : option PyArray_AssignReduceIdentityFunc)
    (loop masked_loop advanced_masked_loop : option PyArray_ReduceLoopFunc)
    (buffersize : Z) : M returned :=
  result <- PyArray_CreateReduceResult operand out (Some result_dtype)
              axis_flags (negb skipna && use_maskna) keepdims subok;;
  short_circuit <-
    (if use_maskna && negb skipna then
       call (fun h => PyArray_ReduceMaskNAArray h operand result);;;
       log Ev_reduce_mask;;;
       h <- get_heap;;
       ret (is_null advanced_masked_loop && (PyArray_SIZE result =? 1) &&
            negb (NpyMaskValue_IsExposed (load h (PyArray_MASKNA_DATA result))))
     else ret false);;
  if short_circuit : bool then finish out result axis_flags keepdims
  else
    init <- initialize_values operand result axis_flags reorderable skipna
              assign_identity;;
    match init with
    | None => finish out result axis_flags keepdims
    | Some (op_view, skip_first_count) =>
        let '(flag0, flag1) :=
          mask_flags use_maskna skipna (negb (is_null advanced_masked_loop)) in
        match NpyIter_AdvancedNew (iter_operand result flag0)
                (iter_operand op_view flag1)
                result_dtype operand_dtype casting buffersize with
        | None => raise Error_in_collaborator
        | Some iter =>
            (if negb (NpyIter_GetIterSize_main iter =? 0)
             then run_inner_loop use_maskna skipna
                    loop masked_loop advanced_masked_loop iter skip_first_count
             else ret tt);;;
            finish out result axis_flags keepdims
        end
    end.

Definition PyArray_ReduceWrapper
    (operand : PyArrayObject) (out wheremask : option PyArrayObject)
    (operand_dtype result_dtype : PyArray_Descr) (casting : nat)
    (axis_flags : list bool) (reorderable skipna : bool)
    (skipwhichna : option (list bool)) (keepdims subok : bool)
    (assign_identity : option PyArray_AssignReduceIdentityFunc)
    (loop masked_loop advanced_masked_loop : option PyArray_ReduceLoopFunc)
    (buffersize : Z) : M returned :=
  if negb (is_null wheremask) then raise RuntimeError_where_mask
  else if negb (is_null skipwhichna) then raise RuntimeError_multi_NA
  else
    let use_maskna := PyArray_HASMASKNA operand in
    use_maskna <-
      (if use_maskna && negb skipna && negb (is_null out) &&
          negb (match out with Some o => PyArray_HASMASKNA o | None => false end)
       then
         h <- get_heap;;
         if PyArray_ContainsNA h operand then raise ValueError_assign_NA
         else ret false
       else ret use_maskna);;
    reduce_with use_maskna operand out operand_dtype result_dtype casting
      axis_flags reorderable skipna keepdims subok
      assign_identity loop masked_loop advanced_masked_loop buffersize.

End Engine.

(** ** ElementCounter: [PyArray_CountReduceItems] *)

(** What the counter returns: a NumPy scalar, or an array of counts. *)
Inductive counted :=
| Count_scalar (count : Z)
| Count_array (result : PyArrayObject).

(** "The product of the reduction dimensions" *)
Fixpoint count_product (idims : list nat) (axis_flags : list bool)
    (shape : list Z) (count : Z) : Z :=
  match idims with
  | [] => count
  | idim :: rest =>
      if flag_at axis_flags idim
      then count_product rest axis_flags shape (count * intp_at shape idim)
      else count_product rest axis_flags shape count
  end.

(** "Set all the reduction strides to 0 in result" *)
Fixpoint zero_reduction_strides (idims : list nat) (axis_flags : list bool)
    (strides : list Z) : list Z :=
  match idims with
  | [] => strides
  | idim :: rest =>
      if flag_at axis_flags idim
      then zero_reduction_strides rest axis_flags (<[idim := 0]> strides)
      else zero_reduction_strides rest axis_flags strides
  end.

(** Modelled from the spec: PyArray_PrepareTwoRawArrayIter hands back a
    matched-stride description of the two arrays in which axis 0 is the
    innermost one: one axis of length 1 for a 0-dimensional array, one
    axis of length 0 when some dimension is 0, otherwise the axes from
    last to first. *)
Definition PyArray_PrepareTwoRawArrayIter (shape stridesA stridesB : list Z)
    : list Z * list Z * list Z :=
  match shape with
  | [] => ([1], [0], [0])
  | _ =>
      if existsb (Z.eqb 0) shape then ([0], [0], [0])
      else (reverse shape, reverse stridesA, reverse stridesB)
  end.

(** The inner loop of the counting pass:
    [*(npy_intp * )result_d += *operand_d] along axis 0. *)
Fixpoint count_inner (n : nat) (h : heap) (operand_d result_d : pointer)
    (operand_stride result_stride : Z) : heap :=
  match n with
  | O => h
  | S n' =>
      count_inner n' (store h result_d (load h result_d + load h operand_d))
        (operand_d +ₚ operand_stride) (result_d +ₚ result_stride)
        operand_stride result_stride
  end.

(** The coordinates taken by the outer axes 1, 2, ... of a raw
    iteration, axis 1 fastest. *)
Fixpoint raw_coords (shape_it : list Z) : list (list Z) :=
  match shape_it with
  | [] => [[]]
  | n :: rest => outer ← raw_coords rest; (λ c, c :: outer) <$> seqZ 0 n
  end.

(** Modelled from the spec: NPY_RAW_ITER_START ... NPY_RAW_ITER_TWO_NEXT
    run the body once for every coordinate of the outer axes, with both
    data pointers moved to that coordinate. *)
Definition count_pass (h : heap) (shape_it : list Z)
    (operand_data : pointer) (operand_strides_it : list Z)
    (result_data : pointer) (result_strides_it : list Z) : heap :=
  foldl
    (fun hh coord =>
       count_inner (Z.to_nat (intp_at shape_it 0)) hh
         (operand_data +ₚ index_offset coord (tail operand_strides_it))
         (result_data +ₚ index_offset coord (tail result_strides_it))
         (intp_at operand_strides_it 0) (intp_at result_strides_it 0))
    h (raw_coords (tail shape_it)).

(** PyArray_DescrFromType(NPY_INTP) *)
Definition NPY_INTP_descr : PyArray_Descr := Descr 8 false.

(** Modelled from the spec: PyArray_Return, called at the end of
    PyArray_CountReduceItems, is not part of this file.  It hands a
    0-dimensional array back as a NumPy scalar holding its single entry,
    and every other array as it is. *)
Definition PyArray_Return (h : heap) (result : PyArrayObject) : counted :=
  if (PyArray_NDIM result =? 0)%nat
  then Count_scalar (load h (PyArray_DATA result))
  else Count_array result.

Definition PyArray_CountReduceItems (operand : PyArrayObject)
    (axis_flags : list bool) (skipna keepdims : bool) : M counted :=
  let ndim := PyArray_NDIM operand in
  if negb skipna || negb (PyArray_HASMASKNA operand) then
    ret (Count_scalar
           (count_product (seq 0 ndim) axis_flags (PyArray_SHAPE operand) 1))
  else if PyArray_HASFIELDS operand then raise RuntimeError_field_NA
  else if negb (bool_decide (PyArray_MASKNA_DTYPE operand = NPY_BOOL)) then
    raise RuntimeError_multi_NA_count
  else
    result <- PyArray_CreateReduceResult operand None (Some NPY_INTP_descr)
                axis_flags false keepdims false;;
    with_heap (fun h => (tt, PyArray_AssignZero h result));;;
    let result :=
      Array (dimensions result)
        (zero_reduction_strides (seq 0 ndim) axis_flags (strides result))
        (data result) (descr result) (maskna result) in
    let '(shape_it, operand_strides_it, result_strides_it) :=
      PyArray_PrepareTwoRawArrayIter (PyArray_SHAPE operand)
        (PyArray_MASKNA_STRIDES operand) (PyArray_STRIDES result) in
    with_heap (fun h =>
      (tt, count_pass h shape_it
             (PyArray_MASKNA_DATA operand) operand_strides_it
             (PyArray_DATA result) result_strides_it));;;
    (* "Remove the reduction axes and return the result" *)
    let result :=
      if negb keepdims then PyArray_RemoveAxesInPlace result axis_flags
      else result in
    h <- get_heap;;
    ret (PyArray_Return h result).

(** ** Reference collaborators

    Small executable stand-ins for the collaborators the engine takes as
    parameters; they are used to run the engine on concrete arrays. *)

(** An axis of length 1 is broadcast: the iterator gives it stride 0. *)
Definition broadcast_strides (dims strides : list Z) : list Z :=
  zip_with (fun d s => if d =? 1 then 0 else s) dims strides.

(** Modelled from the spec: the iterator of the seeding pass, for
    operands laid out in C order.  It walks the operand's index vectors
    with the last axis as the inner run and hands out one chunk for each
    coordinate of the other axes; the result and the flag array are
    broadcast along the axes on which they have length 1. *)
Definition NpyIter_MultiNew_reference
    (operand result initialized : PyArrayObject) : option (list inner_chunk) :=
  let shape := dimensions operand in
  let ndim := length shape in
  if negb (length (dimensions result) =? ndim)%nat then None
  else
    let res_strides := broadcast_strides (dimensions result) (strides result) in
    let init_strides :=
      broadcast_strides (dimensions initialized) (strides initialized) in
    let inner (l : list Z) : Z := default 0 (last l) in
    Some
      ((fun idx =>
          Chunk (data operand +ₚ index_offset idx (strides operand))
                (data result +ₚ index_offset idx res_strides)
                (data initialized +ₚ index_offset idx init_strides)
                (PyArray_MASKNA_DATA operand
                   +ₚ index_offset idx (PyArray_MASKNA_STRIDES operand))
                (inner (strides operand)) (inner res_strides)
                (inner init_strides) (inner (PyArray_MASKNA_STRIDES operand))
                (default 1 (last shape)))
         <$> coords (take (ndim - 1) shape)).

(** The index in [src] that is copied to the cell [idx] of [dst]. *)
Definition broadcast_index (src_dims idx : list Z) : list Z :=
  zip_with (fun d i => if d =? 1 then 0 else i) src_dims idx.

(** Modelled from the spec: PyArray_AssignArray with [preservena] set.
    Every cell of [dst] receives the (broadcast) element of [src], except
    that a hidden cell of [dst] is left alone and no validity bit is
    written; the copy is refused when the numbers of dimensions differ or
    when [src] holds a hidden element that [dst] cannot represent. *)
Definition PyArray_AssignArray_reference (h : heap) (dst src : PyArrayObject)
    : option heap :=
  if negb (length (dimensions src) =? length (dimensions dst))%nat then None
  else if PyArray_ContainsNA h src && negb (PyArray_HASMASKNA dst) then None
  else
    Some
      (foldl
         (fun hh idx =>
            if match maskna dst with
               | Some m => NpyMaskValue_IsExposed (load h (mask_ptr m idx))
               | None => true
               end
            then store hh (element_ptr dst idx)
                   (load h (element_ptr src (broadcast_index (dimensions src) idx)))
            else hh)
         h (coords (dimensions dst))).

(** Modelled from the spec: the mask reducer makes a cell of the result
    exposed iff some operand element that maps to the cell is exposed. *)
Definition PyArray_ReduceMaskNAArray_reference (h : heap)
    (operand result : PyArrayObject) : option heap :=
  match maskna operand, maskna result with
  | Some mo, Some mr =>
      let rstrides := broadcast_strides (dimensions result) (maskna_strides mr) in
      let cell idx := maskna_data mr +ₚ index_offset idx rstrides in
      let h1 :=
        foldl (fun hh idx => store hh (cell idx) 0) h (coords (dimensions operand)) in
      Some
        (foldl
           (fun hh idx =>
              store hh (cell idx)
                (Z.lor (load hh (cell idx)) (Z.land (load h (mask_ptr mo idx)) 1)))
           h1 (coords (dimensions operand)))
  | _, _ => None
  end.

(** The reference iterator of the main loop only records its two
    operands; its size is the number of elements of the remainder. *)
Definition NpyIter_reference : Type := PyArrayObject * PyArrayObject.

Definition NpyIter_AdvancedNew_reference (result op_view : PyArrayObject)
    (result_dtype operand_dtype : PyArray_Descr) (casting : nat) (buffersize : Z)
    : option NpyIter_reference :=
  Some (result, op_view).

Definition NpyIter_GetIterSize_reference (iter : NpyIter_reference) : Z :=
  PyArray_SIZE iter.2.

(** The engine over the reference collaborators. *)
Definition InitializeReduceResult_reference :=
  PyArray_InitializeReduceResult NpyIter_MultiNew_reference
    PyArray_AssignArray_reference.

Definition ReduceWrapper_reference :=
  PyArray_ReduceWrapper NpyIter_MultiNew_reference PyArray_AssignArray_reference
    PyArray_ReduceMaskNAArray_reference NpyIter_reference
    NpyIter_AdvancedNew_reference NpyIter_GetIterSize_reference.

(** An identity routine in the style of
    [PyArray_AssignZero(result, NULL, preservena, NULL)]: with
    [preservena] the hidden cells of a masked result are left alone,
    without it every cell is written and exposed. *)
Definition assign_identity_zero : PyArray_AssignReduceIdentityFunc :=
  fun result preservena h =>
    Some
      (foldl
         (fun hh idx =>
            match maskna result with
            | Some m =>
                if preservena then
                  if NpyMaskValue_IsExposed (load h (mask_ptr m idx))
                  then store hh (element_ptr result idx) 0
                  else hh
                else store (store hh (element_ptr result idx) 0) (mask_ptr m idx) 1
            | None => store hh (element_ptr result idx) 0
            end)
         h (coords (dimensions result))).

(** An unmasked inner loop in the style of the loops that callers
    supply: every element of the remainder view is folded into its
    result cell with [f].  It handles a zero skip count only. *)
Definition loop_fold (f : Z -> Z -> Z) : PyArray_ReduceLoopFunc NpyIter_reference :=
  fun iter skip_first_count h =>
    let '(result, op_view) := iter in
    if skip_first_count =? 0 then
      Some
        (foldl
           (fun hh idx =>
              let cell := element_ptr result idx in
              store hh cell (f (load hh cell) (load hh (element_ptr op_view idx))))
           h (coords (dimensions op_view)))
    else None.

(** A masked inner loop in the same style: only the elements that the
    mask of the remainder view exposes are folded in. *)
Definition masked_loop_fold (f : Z -> Z -> Z)
    : PyArray_ReduceLoopFunc NpyIter_reference :=
  fun iter skip_first_count h =>
    let '(result, op_view) := iter in
    if skip_first_count =? 0 then
      Some
        (foldl
           (fun hh idx =>
              if match maskna op_view with
                 | Some m => NpyMaskValue_IsExposed (load h (mask_ptr m idx))
                 | None => true
                 end
              then
                let cell := element_ptr result idx in
                store hh cell (f (load hh cell) (load hh (element_ptr op_view idx)))
              else hh)
           h (coords (dimensions op_view)))
    else None.


(** ** Concrete arrays *)

Definition write_all (h : heap) (cells : list (pointer * Z)) : heap :=
  foldl (fun hh pv => store hh pv.1 pv.2) h cells.

Definition float64 : PyArray_Descr := Descr 8 false.

(** Blocks 0 to 3 are in use; everything else is free. *)
Definition empty_heap : heap := Heap (fun _ => 0) 4.

(** [[1, 2, 3], [4, 5, 6]], without mask, in block 0. *)
Definition matrix_2x3 : PyArrayObject :=
  Array [2; 3] [24; 8] (Ptr 0 0) float64 None.

Definition heap_2x3 : heap :=
  write_all empty_heap
    [(Ptr 0 0, 1); (Ptr 0 8, 2); (Ptr 0 16, 3);
     (Ptr 0 24, 4); (Ptr 0 32, 5); (Ptr 0 40, 6)].

(** [[NA, 2], [3, NA]]: data in block 0, mask in block 1; the hidden
    elements hold the payloads 7 and 9. *)
Definition matrix_NA : PyArrayObject :=
  Array [2; 2] [16; 8] (Ptr 0 0) float64 (Some (Mask NPY_BOOL (Ptr 1 0) [2; 1])).

Definition heap_NA : heap :=
  write_all empty_heap
    [(Ptr 0 0, 7); (Ptr 0 8, 2); (Ptr 0 16, 3); (Ptr 0 24, 9);
     (Ptr 1 0, 0); (Ptr 1 1, 1); (Ptr 1 2, 1); (Ptr 1 3, 0)].

(** The same array with records as elements. *)
Definition record_NA : PyArrayObject :=
  Array [2; 2] [16; 8] (Ptr 0 0) (Descr 8 true)
    (Some (Mask NPY_BOOL (Ptr 1 0) [2; 1])).

(** A result for reducing a 2 x 2 operand along axis 1, in block 2. *)
Definition result_2x1 : PyArrayObject :=
  Array [2; 1] [8; 0] (Ptr 2 0) float64 None.

(** An empty operand of shape (0, 2). *)
Definition matrix_0x2 : PyArrayObject :=
  Array [0; 2] [16; 8] (Ptr 0 0) float64 None.

Definition result_1x1 : PyArrayObject :=
  Array [1; 1] [0; 0] (Ptr 2 0) float64 None.

(** A 0-dimensional operand and a 0-dimensional result. *)
Definition scalar_operand : PyArrayObject := Array [] [] (Ptr 0 0) float64 None.

Definition scalar_result : PyArrayObject := Array [] [] (Ptr 2 0) float64 None.

(** [NA, NA, 5, NA, 8]: data in block 0, mask in block 1. *)
Definition vector_NA : PyArrayObject :=
  Array [5] [8] (Ptr 0 0) float64 (Some (Mask NPY_BOOL (Ptr 1 0) [1])).

Definition heap_vector_NA : heap :=
  write_all empty_heap
    [(Ptr 0 0, 7); (Ptr 0 8, 7); (Ptr 0 16, 5); (Ptr 0 24, 7); (Ptr 0 32, 8);
     (Ptr 1 0, 0); (Ptr 1 1, 0); (Ptr 1 2, 1); (Ptr 1 3, 0); (Ptr 1 4, 1)].

Definition result_1 : PyArrayObject := Array [1] [0] (Ptr 2 0) float64 None.

(** [5, 6] without mask in block 0, and a 0-dimensional output in block
    2 whose single cell holds 99 and is hidden by its mask in block 3. *)
Definition vector_5_6 : PyArrayObject := Array [2] [8] (Ptr 0 0) float64 None.

Definition hidden_scalar_out : PyArrayObject :=
  Array [] [] (Ptr 2 0) float64 (Some (Mask NPY_BOOL (Ptr 3 0) [])).

Definition heap_5_6 : heap :=
  write_all empty_heap
    [(Ptr 0 0, 5); (Ptr 0 8, 6); (Ptr 2 0, 99); (Ptr 3 0, 0)].

(** An output of shape (2) without mask, in block 3. *)
Definition vector_out : PyArrayObject := Array [2] [8] (Ptr 3 0) float64 None.

(** [matrix_2x3] with a mask, in block 1, that exposes every element. *)
Definition matrix_2x3_exposed : PyArrayObject :=
  Array [2; 3] [24; 8] (Ptr 0 0) float64 (Some (Mask NPY_BOOL (Ptr 1 0) [3; 1])).

Definition heap_2x3_exposed : heap :=
  write_all heap_2x3
    [(Ptr 1 0, 1); (Ptr 1 1, 1); (Ptr 1 2, 1);
     (Ptr 1 3, 1); (Ptr 1 4, 1); (Ptr 1 5, 1)].

(** A 2 x 2 array without mask and a result for its reduction along
    axis 1 that lies inside it: the cell of row 0 is the element (1, 0),
    the cell of row 1 the element (0, 0). *)
Definition matrix_10_21 : PyArrayObject :=
  Array [2; 2] [16; 8] (Ptr 0 0) float64 None.

Definition heap_10_21 : heap :=
  write_all empty_heap
    [(Ptr 0 0, 10); (Ptr 0 8, 11); (Ptr 0 16, 20); (Ptr 0 24, 21)].

Definition result_inside : PyArrayObject :=
  Array [2; 1] [-16; 0] (Ptr 0 16) float64 None.

Definition start (h : heap) : state := State h [].

(** ** Concrete runs *)



(** Scenario A: the sum of [matrix_2x3] along axis 1. *)
Definition run_sum_2x3 : outcome returned * state :=
  ReduceWrapper_reference matrix_2x3 None None float64 float64 0
    [false; true] true false None false false
    (Some assign_identity_zero) (Some (loop_fold Z.add)) None None 0
    (start heap_2x3).

(** Scenario B: the maximum of [matrix_2x3] along axis 1; no identity. *)
Definition run_max_2x3 : outcome returned * state :=
  ReduceWrapper_reference matrix_2x3 None None float64 float64 0
    [false; true] true false None false false
    None (Some (loop_fold Z.max)) None None 0
    (start heap_2x3).

(** The sum of [matrix_2x3] along axis 1, into [vector_out]. *)
Definition run_sum_2x3_out : outcome returned * state :=
  ReduceWrapper_reference matrix_2x3 (Some vector_out) None float64 float64 0
    [false; true] true false None false false
    (Some assign_identity_zero) (Some (loop_fold Z.add)) None None 0
    (start heap_2x3).

(** The sum of [vector_5_6] into the hidden cell of [hidden_scalar_out],
    with skipna as given. *)
Definition run_sum_5_6 (skipna : bool) : outcome returned * state :=
  ReduceWrapper_reference vector_5_6 (Some hidden_scalar_out) None
    float64 float64 0 [true] true skipna None false false
    (Some assign_identity_zero) (Some (loop_fold Z.add)) None None 0
    (start heap_5_6).

(** The maximum of [matrix_NA] along axis 1 into [vector_out], which has
    no mask, with skipna disabled; [wheremask] as given. *)
Definition run_max_NA_out (wheremask : option PyArrayObject)
    : outcome returned * state :=
  ReduceWrapper_reference matrix_NA (Some vector_out) wheremask float64 float64 0
    [false; true] true false None false false
    None (Some (loop_fold Z.max)) None None 0
    (start heap_NA).

(** The maximum of [matrix_2x3_exposed] along axis 1 into [vector_out]. *)
Definition run_max_exposed_out : outcome returned * state :=
  ReduceWrapper_reference matrix_2x3_exposed (Some vector_out) None
    float64 float64 0 [false; true] true false None false false
    None (Some (loop_fold Z.max)) None None 0
    (start heap_2x3_exposed).

(** Scenario C: [matrix_NA] seeded along axis 1 by the scattered
    seeder. *)
Definition run_seed_NA : outcome PyArrayObject * state :=
  initialize_reduce_result_noidentity_skipna NpyIter_MultiNew_reference
    matrix_NA result_2x1 [false; true] (start heap_NA).

(** The seeder on a result that lies inside the operand. *)
Definition run_seed_inside : outcome PyArrayObject * state :=
  initialize_reduce_result_noidentity_skipna NpyIter_MultiNew_reference
    matrix_10_21 result_inside [false; true] (start heap_10_21).

(** Scenario C as a whole call with skipna enabled and no identity, for
    the combining function [f]. *)
Definition run_skipna_NA (f : Z -> Z -> Z) : outcome returned * state :=
  ReduceWrapper_reference matrix_NA None None float64 float64 0
    [false; true] true true None false false
    None (Some (loop_fold f)) (Some (masked_loop_fold f)) None 0
    (start heap_NA).

(** The count of the exposed elements of [matrix_NA] along axis 1. *)
Definition run_count_NA : outcome counted * state :=
  PyArray_CountReduceItems matrix_NA [false; true] true false (start heap_NA).

(** * Vocabulary of the statements *)

(** ** Layouts and flagged axes *)

(** The number of cells spanned by the non-flagged axes of [l]. *)
Fixpoint later_product (axis_flags : list bool) (shape : list Z)
    (l : list nat) : Z :=
  match l with
  | [] => 1
  | j :: l' =>
      (if flag_at axis_flags j then 1 else intp_at shape j)
      * later_product axis_flags shape l'
  end.

(** The number of flagged axes among the first [ndim] flags. *)
Definition flagged_axes (ndim : nat) (axis_flags : list bool) : nat :=
  length (filter (λ idim, flag_at axis_flags idim = true) (seq 0 ndim)).

(** ** Set-up events and errors *)

(** The events that only set a call up: creating or conforming the
    result, giving it a mask, reducing the operand's mask into it. *)
Definition is_setup_event (e : event) : bool :=
  match e with
  | Ev_allocate_result | Ev_conform_result | Ev_allocate_mask | Ev_reduce_mask => true
  | _ => false
  end.

(** The errors a call can meet before it initialises any value. *)
Definition is_setup_error (e : PyErr) : bool :=
  match e with
  | RuntimeError_where_mask | RuntimeError_multi_NA | ValueError_assign_NA
  | ValueError_needs_namask | ValueError_wrong_ndim_keepdims
  | ValueError_reduction_dim_not_one | ValueError_not_enough_dims
  | ValueError_too_many_dims | Error_in_collaborator => true
  | _ => false
  end.

(** ** Views handed back by the initializer *)

(** The shape of the sub-array at index 0 along every flagged axis:
    length 1 on the flagged axes, counted from axis [idim] on. *)
Fixpoint first_subarray_from (idim : nat) (axis_flags : list bool)
    (shape : list Z) : list Z :=
  match shape with
  | [] => []
  | d :: rest =>
      (if flag_at axis_flags idim then 1 else d)
      :: first_subarray_from (S idim) axis_flags rest
  end.

Definition first_subarray_shape (axis_flags : list bool) (shape : list Z)
    : list Z :=
  first_subarray_from 0 axis_flags shape.

(** The view of the operand on that sub-array. *)
Definition first_subarray (axis_flags : list bool) (a : PyArrayObject)
    : PyArrayObject :=
  with_shape a (first_subarray_shape axis_flags (dimensions a)).

(** The operand without the first element of axis [k]. *)
Definition drop_first_element (k : nat) (a : PyArrayObject) : PyArrayObject :=
  Array (<[k := intp_at (dimensions a) k - 1]> (dimensions a)) (strides a)
    (data a +ₚ intp_at (strides a) k) (descr a)
    (set_maskna_data (maskna a)
       (PyArray_MASKNA_DATA a +ₚ intp_at (PyArray_MASKNA_STRIDES a) k)).

(** The view with every dimension set to 0. *)
Definition empty_view (a : PyArrayObject) : PyArrayObject :=
  with_shape a (replicate (PyArray_NDIM a) 0).

(** The outcome of the initializer once the first elements have been
    handed to PyArray_AssignArray: [o] when the copy succeeds. *)
Definition after_copy
    (PyArray_AssignArray : heap -> PyArrayObject -> PyArrayObject -> option heap)
    (s : state) (result first : PyArrayObject)
    (o : PyArrayObject * Z) : outcome (PyArrayObject * Z) * state :=
  match PyArray_AssignArray (st_heap s) result first with
  | Some h' => (Ok o, State h' (st_trace s ++ [Ev_copy_first]))
  | None => (Raise Error_in_collaborator, s)
  end.

(** The number of hidden elements met from [maskna_data] on, among at
    most [n] elements. *)
Fixpoint leading_hidden (n : nat) (h : heap) (maskna_data : pointer)
    (maskna_stride : Z) : nat :=
  match n with
  | O => O
  | S n' =>
      if NpyMaskValue_IsExposed (load h maskna_data) then O
      else S (leading_hidden n' h (maskna_data +ₚ maskna_stride) maskna_stride)
  end.

(** The view of a one-dimensional array that starts at element [k]. *)
Definition view_from (k : Z) (a : PyArrayObject) : PyArrayObject :=
  Array (<[0%nat := intp_at (dimensions a) 0 - k]> (dimensions a)) (strides a)
    (data a +ₚ k * intp_at (strides a) 0) (descr a)
    (set_maskna_data (maskna a)
       (PyArray_MASKNA_DATA a +ₚ k * intp_at (PyArray_MASKNA_STRIDES a) 0)).

(** ** Values and contracts of the wrapper *)

(** The value handed back at [finish]. *)
Definition finished (out : option PyArrayObject) (result : PyArrayObject)
    (axis_flags : list bool) (keepdims : bool) : returned :=
  match out with
  | Some out => Return_out out
  | None =>
      Return_new (if keepdims then result
                  else PyArray_RemoveAxesInPlace result axis_flags)
  end.

(** An identity routine that does not look at its preservena flag. *)
Definition ignores_preservena (assign_identity : option PyArray_AssignReduceIdentityFunc)
    : Prop :=
  match assign_identity with
  | Some f => forall result h, f result true h = f result false h
  | None => True
  end.

(** The contract of PyArray_AssignArray used below: when the destination
    has no mask and the source holds no hidden element, the mask of the
    source plays no part in the copy. *)
Definition assign_ignores_exposed_mask
    (PyArray_AssignArray : heap -> PyArrayObject -> PyArrayObject -> option heap)
    : Prop :=
  forall h dst src,
    maskna dst = None -> PyArray_ContainsNA h src = false ->
    PyArray_AssignArray h dst src = PyArray_AssignArray h dst (strip_mask src).



(** ** Counting *)

(** The product of the sizes of the flagged axes, from axis [idim] on. *)
Fixpoint reduced_size_from (idim : nat) (axis_flags : list bool)
    (shape : list Z) : Z :=
  match shape with
  | [] => 1
  | d :: rest =>
      (if flag_at axis_flags idim then d else 1)
      * reduced_size_from (S idim) axis_flags rest
  end.

Definition reduced_size (axis_flags : list bool) (shape : list Z) : Z :=
  reduced_size_from 0 axis_flags shape.

(** One step of the counting pass: the byte at [visit.1] is added to the
    counter at [visit.2]. *)
Definition count_step (h : heap) (visit : pointer * pointer) : heap :=
  store h visit.2 (load h visit.2 + load h visit.1).

(** The visits of one run of the inner loop of the counting pass. *)
Fixpoint inner_visits (n : nat) (operand_d result_d : pointer)
    (operand_stride result_stride : Z) : list (pointer * pointer) :=
  match n with
  | O => []
  | S n' =>
      (operand_d, result_d)
      :: inner_visits n' (operand_d +ₚ operand_stride) (result_d +ₚ result_stride)
           operand_stride result_stride
  end.

(** The sum of [f] over the list [l]. *)
Definition sumZ {A} (f : A -> Z) (l : list A) : Z :=
  foldr (fun x acc => f x + acc) 0 l.

(** The number written by the digits [c], read along the axes [l] from
    the innermost one on; a flagged axis has radix 1 and digit 0. *)
Fixpoint radix_value (axis_flags : list bool) (shape c : list Z)
    (l : list nat) : Z :=
  match l with
  | [] => 0
  | i :: l' =>
      (if flag_at axis_flags i then 0 else intp_at c i)
      + (if flag_at axis_flags i then 1 else intp_at shape i)
        * radix_value axis_flags shape c l'
  end.

(** The index vector of the cell of the element at [idx]: the flagged
    coordinates are replaced by 0. *)
Fixpoint cell_from (idim : nat) (axis_flags : list bool) (idx : list Z)
    : list Z :=
  match idx with
  | [] => []
  | i :: rest =>
      (if flag_at axis_flags idim then 0 else i)
      :: cell_from (S idim) axis_flags rest
  end.

Definition cell_of (axis_flags : list bool) (idx : list Z) : list Z :=
  cell_from 0 axis_flags idx.

(** 1 for an exposed element, 0 for a hidden one. *)
Definition exposed_at (h : heap) (m : MaskNA) (idx : list Z) : Z :=
  if NpyMaskValue_IsExposed (load h (mask_ptr m idx)) then 1 else 0.

(** The index, in the returned array, of the cell the element at [idx]
    is counted in. *)
Definition cell_index (axis_flags : list bool) (keepdims : bool)
    (idx : list Z) : list Z :=
  if keepdims then cell_of axis_flags idx else remove_axes axis_flags idx.

(** The visits of the counting pass: the mask byte of every element,
    with the counter of its cell. *)
Definition count_visits (m : MaskNA) (result : PyArrayObject)
    (shape : list Z) : list (pointer * pointer) :=
  (fun idx => (mask_ptr m idx, element_ptr result idx)) <$> coords shape.

(** ** Vocabulary of the further properties *)

(** The number of axes among the first [ndim] that are not flagged. *)
Definition unflagged_axes (ndim : nat) (axis_flags : list bool) : nat :=
  length (filter (λ idim, flag_at axis_flags idim = false) (seq 0 ndim)).

(** The index [idx] moved one step along axis [k]. *)
Definition bump_index (k : nat) (idx : list Z) : list Z :=
  <[k := intp_at idx k + 1]> idx.






(** ** Steps of the scattered seeder *)

(** What the seeding loop looks at in one step: an element of the
    operand, the cell of the result it belongs to, the flag of that
    cell and the mask byte of the element. *)
Record visit := Visit {
  v_op : pointer; v_res : pointer; v_init : pointer; v_mask : pointer
}.

(** The [j]-th step of an inner run. *)
Definition chunk_visit (c : inner_chunk) (j : Z) : visit :=
  Visit (dataptr0 c +ₚ j * strideptr0 c) (dataptr1 c +ₚ j * strideptr1 c)
        (dataptr2 c +ₚ j * strideptr2 c) (dataptr3 c +ₚ j * strideptr3 c).

Definition chunk_visits (c : inner_chunk) : list visit :=
  chunk_visit c <$> seqZ 0 (countptr c).

(** The steps of a whole iteration, in order. *)
Definition iter_visits (chunks : list inner_chunk) : list visit :=
  chunks ≫= chunk_visits.

(** An element seeds its cell when the cell is not flagged yet and the
    element is exposed. *)
Definition seedable (h : heap) (v : visit) : bool :=
  (load h (v_init v) =? 0) && NpyMaskValue_IsExposed (load h (v_mask v)).

(** One step of the seeding, element by element: flag the cell and copy
    the element into it. *)
Definition seed_step (h : heap) (v : visit) : heap :=
  if seedable h v
  then store (store h (v_init v) 1) (v_res v) (load h (v_op v))
  else h.

(** Heaps that hold the same values. *)
Definition same_contents (h1 h2 : heap) : Prop :=
  forall p, load h1 p = load h2 p.

(** The number of flags that are still 0. *)
Definition zero_flags (flags : list pointer) (h : heap) : Z :=
  Z.of_nat (length (filter (fun p => load h p = 0) flags)).

(** A step that respects the layout: its flag is one of [flags], in
    block [bI]; its cell lies in block [bR]; the element lies outside
    the flags, and its mask byte outside the flags and the cells. *)
Definition visit_ok (flags : list pointer) (bR bI : nat) (v : visit) : Prop :=
  v_init v ∈ flags /\ block (v_init v) = bI /\ block (v_res v) = bR /\
  block (v_op v) ≠ bI /\
  block (v_mask v) ≠ bR /\ block (v_mask v) ≠ bI.

(** Steps that walk the result and the flag array together: two steps
    are at the same flag exactly when they are at the same cell. *)
Definition lockstep (vs : list visit) : Prop :=
  forall v w, v ∈ vs -> w ∈ vs -> (v_init v = v_init w <-> v_res v = v_res w).

(** The steps of a run of [k] elements, as the loops advance their
    pointers. *)
Fixpoint run_visits (k : nat) (op_d res_d init_d op_namask_d : pointer)
    (op_s res_s init_s op_namask_s : Z) : list visit :=
  match k with
  | O => []
  | S k' =>
      Visit op_d res_d init_d op_namask_d
      :: run_visits k' (op_d +ₚ op_s) (res_d +ₚ res_s) (init_d +ₚ init_s)
           (op_namask_d +ₚ op_namask_s) op_s res_s init_s op_namask_s
  end.

(** The flags of a run of [k] elements set to 1. *)
Fixpoint mark_flags (k : nat) (h : heap) (init_d : pointer) (init_s : Z) : heap :=
  match k with
  | O => h
  | S k' => mark_flags k' (store h init_d 1) (init_d +ₚ init_s) init_s
  end.

#[local] Instance same_contents_equiv : Equivalence same_contents.
Proof.
  split.
  - by intros h p.
  - intros h1 h2 H p. by rewrite (H p).
  - intros h1 h2 h3 H1 H2 p. by rewrite (H1 p), (H2 p).
Qed.

(** What the seeder sets up before its loop: the view of the operand
    with a mask of its own, the flag array, and the heap with the flags
    cleared. *)
Definition seeding_setup (h : heap) (operand result : PyArrayObject)
    : PyArrayObject * PyArrayObject * heap :=
  let '(view, h) := PyArray_AllocateMaskNA h (PyArray_View operand) in
  let '(initialized, h) := PyArray_NewLikeArray_bool h result in
  (view, initialized, PyArray_AssignZero h initialized).

(** The addresses of the flags. *)
Definition flag_cells (initialized : PyArrayObject) : list pointer :=
  element_ptr initialized <$> coords (dimensions initialized).

(** What the seeding loop relies on from its iterator over the view of
    the operand, the result and the flag array: the runs have no
    negative length; every step stays in the buffers of the view and of
    the result, at a flag of the flag array and in the mask of the view;
    and the result and the flag array are walked together. *)
Definition seeding_iterator (iter : list inner_chunk)
    (view result initialized : PyArrayObject) : Prop :=
  Forall (fun c => 0 <= countptr c) iter /\
  Forall (fun v =>
            block (v_op v) = block (data view) /\
            block (v_res v) = block (data result) /\
            v_init v ∈ flag_cells initialized /\
            block (v_mask v) = block (PyArray_MASKNA_DATA view))
    (iter_visits iter) /\
  lockstep (iter_visits iter).

(** Is the element of a step exposed? *)
Definition exposed_step (h : heap) (v : visit) : bool :=
  NpyMaskValue_IsExposed (load h (v_mask v)).

(** Does some step at the flag [p] have an exposed element? *)
Definition has_exposed (h : heap) (vs : list visit) (p : pointer) : bool :=
  existsb (fun v => bool_decide (v_init v = p) && exposed_step h v) vs.

(** The first step at the cell [q] whose element is exposed. *)
Definition first_exposed (h : heap) (vs : list visit) (q : pointer)
    : option visit :=
  find (fun v => bool_decide (v_res v = q) && exposed_step h v) vs.

#[global] Instance lockstep_dec vs : Decision (lockstep vs).
Proof.
  refine (cast_if
    (decide (Forall (fun v =>
               Forall (fun w => (v_init v = v_init w -> v_res v = v_res w) /\
                                (v_res v = v_res w -> v_init v = v_init w)) vs)
               vs))).
  - intros v w Hv Hw.
    exact (proj1 (Forall_forall _ _) (proj1 (Forall_forall _ _) f v Hv) w Hw).
  - intros Hlock. apply n. apply Forall_forall. intros v Hv.
    apply Forall_forall. intros w Hw. exact (Hlock v w Hv Hw).
Defined.

#[global] Instance seeding_iterator_dec iter view result initialized :
  Decision (seeding_iterator iter view result initialized).
Proof. unfold seeding_iterator. apply _. Defined.

(** The result and flag pointers of every run point into the buffers of
    the result and of the flag array. *)
Definition stays_in_arrays (iter : list inner_chunk)
    (result initialized : PyArrayObject) : Prop :=
  Forall (fun c => block (dataptr1 c) = block (data result) /\
                   block (dataptr2 c) = block (data initialized)) iter.

(** * Verification *)

(** ** Layout of a freshly allocated result *)

#[local] Instance stride_before_total strides : Total (stride_before strides).
Proof. intros i j. unfold stride_before. lia. Qed.

Lemma later_product_app axis_flags shape l1 l2 :
  later_product axis_flags shape (l1 ++ l2)
  = later_product axis_flags shape l1 * later_product axis_flags shape l2.
Proof.
  induction l1 as [|j l1 IH]; simpl; [lia|]. rewrite IH. lia.
Qed.

Lemma later_product_reverse axis_flags shape l :
  later_product axis_flags shape (reverse l) = later_product axis_flags shape l.
Proof.
  induction l as [|j l IH]; [done|].
  rewrite reverse_cons, later_product_app, IH. simpl. lia.
Qed.

Lemma later_product_insert_flagged axis_flags shape l i v :
  flag_at axis_flags i = true ->
  later_product axis_flags (<[i := v]> shape) l = later_product axis_flags shape l.
Proof.
  intros Hi. induction l as [|j l IH]; [done|]. simpl. rewrite IH.
  destruct (flag_at axis_flags j) eqn:Hj; [done|].
  assert (i ≠ j) by congruence.
  unfold intp_at. by rewrite list_lookup_insert_ne.
Qed.

Lemma later_product_all_flagged axis_flags shape l :
  (forall j, j ∈ l -> flag_at axis_flags j = true) ->
  later_product axis_flags shape l = 1.
Proof.
  induction l as [|j l IH]; intros H; [done|]. simpl.
  rewrite (H j) by set_solver. rewrite IH; [lia|]. intros; apply H; set_solver.
Qed.

Lemma build_strides_shape_length perm_down axis_flags stride strides shape :
  length (build_strides_shape perm_down axis_flags stride strides shape).1
    = length strides /\
  length (build_strides_shape perm_down axis_flags stride strides shape).2
    = length shape.
Proof.
  revert stride strides shape.
  induction perm_down as [|i l IH]; intros stride strides shape; simpl.
  { done. }
  pose proof (IH stride (<[i:=0]> strides) (<[i:=1]> shape)) as [H1 H2].
  pose proof (IH (stride * intp_at shape i) (<[i:=stride]> strides) shape)
    as [H3 H4].
  rewrite ?length_insert in *. destruct (flag_at axis_flags i); auto.
Qed.

Lemma build_strides_shape_other perm_down axis_flags stride strides shape i :
  i ∉ perm_down ->
  (build_strides_shape perm_down axis_flags stride strides shape).1 !! i
    = strides !! i /\
  (build_strides_shape perm_down axis_flags stride strides shape).2 !! i
    = shape !! i.
Proof.
  revert stride strides shape.
  induction perm_down as [|j l IH]; intros stride strides shape Hi; simpl.
  { done. }
  apply not_elem_of_cons in Hi as [Hne Hi]. assert (j ≠ i) by done.
  destruct (flag_at axis_flags j).
  - destruct (IH stride (<[j:=0]> strides) (<[j:=1]> shape)) as [-> ->]; [done|].
    by rewrite !list_lookup_insert_ne.
  - destruct (IH (stride * intp_at shape j) (<[j:=stride]> strides) shape)
      as [-> ->]; [done|].
    by rewrite !list_lookup_insert_ne.
Qed.

(** What the loop leaves at an axis it has visited. *)
Lemma build_strides_shape_at perm_down axis_flags stride strides shape l1 i l2 :
  NoDup perm_down ->
  perm_down = l1 ++ i :: l2 ->
  (i < length strides)%nat -> (i < length shape)%nat ->
  let r := build_strides_shape perm_down axis_flags stride strides shape in
  if flag_at axis_flags i
  then r.1 !! i = Some 0 /\ r.2 !! i = Some 1
  else r.1 !! i = Some (stride * later_product axis_flags shape l1)
       /\ r.2 !! i = shape !! i.
Proof.
  revert stride strides shape l1.
  induction perm_down as [|j l IH]; intros stride strides shape l1 Hnd Heq Hs Hd.
  { by destruct l1. }
  apply NoDup_cons in Hnd as [Hj Hnd].
  destruct l1 as [|j' l1]; simplify_eq/=.
  - (* the axis at the head of the list *)
    destruct (flag_at axis_flags i) eqn:Hi.
    + destruct (build_strides_shape_other l2 axis_flags stride
                  (<[i:=0]> strides) (<[i:=1]> shape) i Hj) as [-> ->].
      by rewrite !list_lookup_insert_eq.
    + destruct (build_strides_shape_other l2 axis_flags
                  (stride * intp_at shape i) (<[i:=stride]> strides) shape i Hj)
        as [-> ->].
      rewrite list_lookup_insert_eq by done. split; [f_equal; lia|done].
  - (* an axis further down *)
    assert (j' ≠ i) by set_solver.
    destruct (flag_at axis_flags j') eqn:Hj'.
    + specialize (IH stride (<[j':=0]> strides) (<[j':=1]> shape) l1 Hnd eq_refl).
      rewrite !length_insert in IH. specialize (IH Hs Hd). simpl in IH.
      destruct (flag_at axis_flags i); [done|].
      rewrite later_product_insert_flagged in IH by done.
      rewrite list_lookup_insert_ne in IH by done.
      destruct IH as [-> ->]. split; [f_equal; lia|done].
    + specialize (IH (stride * intp_at shape j') (<[j':=stride]> strides) shape
                    l1 Hnd eq_refl).
      rewrite !length_insert in IH. specialize (IH Hs Hd). simpl in IH.
      destruct (flag_at axis_flags i); [done|].
      destruct IH as [-> ->]. split; [f_equal; lia|done].
Qed.

Lemma sorted_stride_perm_permutation ndim shape strides :
  PyArray_CreateSortedStridePerm ndim shape strides ≡ₚ seq 0 ndim.
Proof. apply merge_sort_Permutation. Qed.

Lemma sorted_stride_perm_NoDup ndim shape strides :
  NoDup (PyArray_CreateSortedStridePerm ndim shape strides).
Proof.
  rewrite sorted_stride_perm_permutation. apply NoDup_seq.
Qed.

Lemma sorted_stride_perm_lt ndim shape strides k i :
  PyArray_CreateSortedStridePerm ndim shape strides !! k = Some i ->
  (i < ndim)%nat.
Proof.
  intros H. apply list_elem_of_lookup_2 in H.
  rewrite sorted_stride_perm_permutation in H.
  apply elem_of_seq in H. lia.
Qed.

(** The fields of the array made by [allocate_reduce_result]. *)
Lemma allocate_reduce_result_fields h arr axis_flags dtype subok :
  let res := (allocate_reduce_result h arr axis_flags dtype subok).1 in
  PyArray_NDIM res = PyArray_NDIM arr /\
  length (strides res) = PyArray_NDIM arr /\
  data res = Ptr (nextblock h) 0 /\ maskna res = None.
Proof.
  intros res. subst res. unfold allocate_reduce_result, PyArray_NewFromDescr.
  pose proof (build_strides_shape_length
                (reverse (PyArray_CreateSortedStridePerm (PyArray_NDIM arr)
                            (PyArray_SHAPE arr) (PyArray_STRIDES arr)))
                axis_flags
                (elsize (match dtype with Some d => d | None => PyArray_DTYPE arr end))
                (replicate (PyArray_NDIM arr) 0) (PyArray_DIMS arr)) as [Hl1 Hl2].
  destruct (build_strides_shape _ _ _ _ _) as [st sh].
  simpl in *. rewrite length_replicate in Hl1. unfold PyArray_NDIM. simpl.
  done.
Qed.

(** Its size and stride on the axis at place [k] of the stride
    permutation. *)
Lemma allocate_reduce_result_axis h arr axis_flags dtype subok k i :
  let ndim := PyArray_NDIM arr in
  let strideperm :=
    PyArray_CreateSortedStridePerm ndim (PyArray_SHAPE arr) (PyArray_STRIDES arr) in
  let res := (allocate_reduce_result h arr axis_flags dtype subok).1 in
  let itemsize :=
    elsize (match dtype with Some d => d | None => PyArray_DTYPE arr end) in
  strideperm !! k = Some i ->
  if flag_at axis_flags i
  then dimensions res !! i = Some 1 /\ strides res !! i = Some 0
  else dimensions res !! i = dimensions arr !! i /\
       strides res !! i =
         Some (itemsize *
               later_product axis_flags (dimensions arr)
                 (drop (S k) strideperm)).
Proof.
  intros ndim strideperm res itemsize Hk.
  pose proof (sorted_stride_perm_lt ndim (PyArray_SHAPE arr)
                (PyArray_STRIDES arr) k i Hk) as Hlt.
  pose proof (build_strides_shape_at (reverse strideperm) axis_flags itemsize
               (replicate ndim 0) (PyArray_DIMS arr)
               (reverse (drop (S k) strideperm)) i (reverse (take k strideperm)))
    as Hb.
  assert (Hsplit : reverse strideperm
            = reverse (drop (S k) strideperm) ++ i :: reverse (take k strideperm)).
  { rewrite <- (take_drop_middle strideperm k i Hk) at 1.
    rewrite reverse_app, reverse_cons, <- app_assoc. done. }
  assert (Hnd : NoDup (reverse strideperm)).
  { rewrite reverse_Permutation. apply sorted_stride_perm_NoDup. }
  specialize (Hb Hnd Hsplit).
  rewrite length_replicate in Hb. specialize (Hb Hlt Hlt). simpl in Hb.
  rewrite later_product_reverse in Hb.
  subst res. unfold allocate_reduce_result, PyArray_NewFromDescr.
  fold ndim. fold strideperm. fold itemsize.
  destruct (build_strides_shape (reverse strideperm) axis_flags itemsize
              (replicate ndim 0) (PyArray_DIMS arr)) as [st sh] eqn:Hbuild.
  simpl in *. destruct (flag_at axis_flags i); tauto.
Qed.

(** C6. The array made by [allocate_reduce_result] is a fresh array
    without mask that has as many dimensions as the operand.  The stride
    permutation lists every axis once, ordered by the magnitude of the
    operand's strides.  Every flagged axis has size 1 and stride 0.
    Every other axis keeps the operand's size, and its stride is the
    element size times the sizes of the non-flagged axes that come later
    in the permutation: the strides are contiguous in that order, and an
    axis with no non-flagged axis after it has the element size as its
    stride. *)
Theorem C6_allocate_reduce_result_layout
    (h : heap) (arr : PyArrayObject) (axis_flags : list bool)
    (dtype : option PyArray_Descr) (subok : bool) :
  let ndim := PyArray_NDIM arr in
  let strideperm :=
    PyArray_CreateSortedStridePerm ndim (PyArray_SHAPE arr) (PyArray_STRIDES arr) in
  let res := (allocate_reduce_result h arr axis_flags dtype subok).1 in
  let itemsize :=
    elsize (match dtype with Some d => d | None => PyArray_DTYPE arr end) in
  (PyArray_NDIM res = ndim /\ length (strides res) = ndim /\
   data res = Ptr (nextblock h) 0 /\ maskna res = None) /\
  (strideperm ≡ₚ seq 0 ndim /\
   Sorted (stride_before (PyArray_STRIDES arr)) strideperm) /\
  (forall k i, strideperm !! k = Some i ->
     if flag_at axis_flags i
     then dimensions res !! i = Some 1 /\ strides res !! i = Some 0
     else dimensions res !! i = dimensions arr !! i /\
          strides res !! i =
            Some (itemsize *
                  later_product axis_flags (dimensions arr)
                    (drop (S k) strideperm))) /\
  (forall k i, strideperm !! k = Some i ->
     flag_at axis_flags i = false ->
     (forall j, j ∈ drop (S k) strideperm -> flag_at axis_flags j = true) ->
     strides res !! i = Some itemsize).
Proof.
  intros ndim strideperm res itemsize.
  split; [|split; [|split]].
  - apply allocate_reduce_result_fields.
  - split; [apply sorted_stride_perm_permutation|].
    apply (Sorted_merge_sort (stride_before (PyArray_STRIDES arr))).
  - intros k i. apply allocate_reduce_result_axis.
  - intros k i Hk Hi Hall.
    pose proof (allocate_reduce_result_axis h arr axis_flags dtype subok k i Hk)
      as Hat.
    cbv zeta in Hat. rewrite Hi in Hat.
    destruct Hat as [_ Hat]. subst res. rewrite Hat.
    rewrite later_product_all_flagged by done.
    f_equal. subst itemsize. lia.
Qed.

(** ** Non-reorderable reductions *)

Lemma check_nonreorderable_loop_spec idims axis_flags single_axis :
  check_nonreorderable_loop idims axis_flags single_axis =
  if decide (length (filter (λ idim, flag_at axis_flags idim = true) idims)
             + (if single_axis then 1 else 0) ≤ 1)%nat
  then 0 else -1.
Proof.
  revert single_axis. induction idims as [|idim rest IH]; intros single_axis.
  - rewrite filter_nil. simpl.
    destruct single_axis; case_decide; simpl in *; lia.
  - simpl. destruct (flag_at axis_flags idim) eqn:Hf.
    + rewrite filter_cons_True by done. destruct single_axis.
      * case_decide; simpl in *; lia.
      * rewrite IH. repeat case_decide; simpl in *; lia.
    + rewrite filter_cons_False by congruence. apply IH.
Qed.

Lemma check_nonreorderable_axes_spec ndim axis_flags :
  check_nonreorderable_axes ndim axis_flags =
  if decide (flagged_axes ndim axis_flags ≤ 1)%nat then 0 else -1.
Proof.
  unfold check_nonreorderable_axes, flagged_axes.
  rewrite check_nonreorderable_loop_spec. repeat case_decide; lia.
Qed.

Lemma conform_check_keepdims_outcome idims axis_flags shape_out :
  match conform_check_keepdims idims axis_flags shape_out with
  | Ok _ => True
  | Raise e => e = ValueError_reduction_dim_not_one
  | Hangs => False
  end.
Proof.
  induction idims as [|idim rest IH]; simpl; [done|].
  by destruct (flag_at axis_flags idim && negb (intp_at shape_out idim =? 1)).
Qed.

Lemma conform_build_outcome idims axis_flags strides_out shape_out ndim_out idim_out :
  match conform_build idims axis_flags strides_out shape_out ndim_out idim_out with
  | Ok _ => True
  | Raise e => e = ValueError_not_enough_dims
  | Hangs => False
  end.
Proof.
  revert idim_out. induction idims as [|idim rest IH]; intros idim_out; simpl.
  { done. }
  destruct (flag_at axis_flags idim).
  - specialize (IH idim_out).
    by destruct (conform_build rest _ _ _ _ idim_out) as [[[? ?] ?]|?|].
  - case_decide; [done|]. specialize (IH (S idim_out)).
    by destruct (conform_build rest _ _ _ _ (S idim_out)) as [[[? ?] ?]|?|].
Qed.

Lemma conform_reduce_result_outcome ndim axis_flags out keepdims :
  match conform_reduce_result ndim axis_flags out keepdims with
  | Ok _ => True
  | Raise e => is_setup_error e = true
  | Hangs => False
  end.
Proof.
  unfold conform_reduce_result. destruct keepdims.
  - destruct (negb _); [done|].
    pose proof (conform_check_keepdims_outcome (seq 0 ndim) axis_flags
                  (PyArray_DIMS out)) as H.
    destruct (conform_check_keepdims _ _ _); naive_solver.
  - pose proof (conform_build_outcome (seq 0 ndim) axis_flags
                  (PyArray_STRIDES out) (PyArray_DIMS out) (PyArray_NDIM out) 0) as H.
    destruct (conform_build _ _ _ _ _ _) as [[[st sh] n]|e|]; [|naive_solver|done].
    by destruct (negb _).
Qed.

Section Orchestrator.

Context
  (NpyIter_MultiNew :
     PyArrayObject -> PyArrayObject -> PyArrayObject -> option (list inner_chunk))
  (PyArray_AssignArray : heap -> PyArrayObject -> PyArrayObject -> option heap)
  (PyArray_ReduceMaskNAArray : heap -> PyArrayObject -> PyArrayObject -> option heap)
  (NpyIter : Type)
  (NpyIter_AdvancedNew :
     PyArrayObject -> PyArrayObject ->
     PyArray_Descr -> PyArray_Descr -> nat -> Z -> option NpyIter)
  (NpyIter_GetIterSize_main : NpyIter -> Z).

Local Abbreviation InitializeReduceResult :=
  (PyArray_InitializeReduceResult NpyIter_MultiNew PyArray_AssignArray).
Local Abbreviation ReduceWrapper :=
  (PyArray_ReduceWrapper NpyIter_MultiNew PyArray_AssignArray
     PyArray_ReduceMaskNAArray NpyIter NpyIter_AdvancedNew
     NpyIter_GetIterSize_main).
Local Abbreviation ReduceWith :=
  (reduce_with NpyIter_MultiNew PyArray_AssignArray
     PyArray_ReduceMaskNAArray NpyIter NpyIter_AdvancedNew
     NpyIter_GetIterSize_main).

(** What creating the result adds to the trace. *)
Lemma create_reduce_result_trace operand out dtype axis_flags
    need_namask keepdims subok s :
  let r := PyArray_CreateReduceResult operand out dtype axis_flags
             need_namask keepdims subok s in
  exists t, st_trace r.2 = st_trace s ++ t /\
    forallb is_setup_event t = true /\
    match r.1 with
    | Ok _ => Ev_allocate_result ∈ t \/ Ev_conform_result ∈ t
    | Raise e => is_setup_error e = true
    | Hangs => False
    end.
Proof.
  unfold PyArray_CreateReduceResult, bind, with_heap, log, ret, raise,
    lift_outcome.
  destruct out as [out|]; simpl.
  - destruct (need_namask && negb (PyArray_HASMASKNA out)); simpl.
    + exists []. by rewrite app_nil_r.
    + pose proof (conform_reduce_result_outcome (PyArray_NDIM operand)
                    axis_flags out keepdims) as Hc.
      destruct (conform_reduce_result _ _ _ _) as [v|e|]; simpl.
      * exists [Ev_conform_result]. split_and!; [done..|]. right. apply elem_of_cons; by left.
      * exists []. by rewrite app_nil_r.
      * done.
  - destruct (allocate_reduce_result _ _ _ _ _) as [res h1]. simpl.
    destruct need_namask; simpl.
    + exists [Ev_allocate_result; Ev_allocate_mask].
      rewrite <- app_assoc. split_and!; [done..|]. left. apply elem_of_cons; by left.
    + exists [Ev_allocate_result]. split_and!; [done..|]. left. apply elem_of_cons; by left.
Qed.





End Orchestrator.



(** ** Reductions of empty operands *)

Section EmptyOperand.

Context
  (NpyIter_MultiNew :
     PyArrayObject -> PyArrayObject -> PyArrayObject -> option (list inner_chunk))
  (PyArray_AssignArray : heap -> PyArrayObject -> PyArrayObject -> option heap)
  (PyArray_ReduceMaskNAArray : heap -> PyArrayObject -> PyArrayObject -> option heap)
  (NpyIter : Type)
  (NpyIter_AdvancedNew :
     PyArrayObject -> PyArrayObject ->
     PyArray_Descr -> PyArray_Descr -> nat -> Z -> option NpyIter)
  (NpyIter_GetIterSize_main : NpyIter -> Z).

Local Abbreviation InitializeReduceResult :=
  (PyArray_InitializeReduceResult NpyIter_MultiNew PyArray_AssignArray).
Local Abbreviation InitializeValues :=
  (initialize_values NpyIter_MultiNew PyArray_AssignArray).
Local Abbreviation ReduceWrapper :=
  (PyArray_ReduceWrapper NpyIter_MultiNew PyArray_AssignArray
     PyArray_ReduceMaskNAArray NpyIter NpyIter_AdvancedNew
     NpyIter_GetIterSize_main).
Local Abbreviation ReduceWith :=
  (reduce_with NpyIter_MultiNew PyArray_AssignArray
     PyArray_ReduceMaskNAArray NpyIter NpyIter_AdvancedNew
     NpyIter_GetIterSize_main).

Lemma initialize_empty result operand axis_flags reorderable skipna s :
  PyArray_SIZE operand = 0 ->
  skipna = false \/ maskna operand = None ->
  reorderable = true \/ (flagged_axes (PyArray_NDIM operand) axis_flags ≤ 1)%nat ->
  InitializeReduceResult result operand axis_flags reorderable skipna s
  = (Raise ValueError_zero_size, s).
Proof.
  intros Hsize Hmask Hre. unfold PyArray_InitializeReduceResult.
  assert (negb reorderable
          && (check_nonreorderable_axes (PyArray_NDIM operand) axis_flags <? 0)
          = false) as ->.
  { destruct Hre as [->|Hle]; [done|].
    rewrite check_nonreorderable_axes_spec, decide_True by done.
    by rewrite andb_false_r. }
  assert (negb skipna || negb (PyArray_HASMASKNA operand) = true) as ->.
  { destruct Hmask as [->|Hm]; [done|].
    unfold PyArray_HASMASKNA. rewrite Hm. by rewrite orb_true_r. }
  by rewrite Hsize.
Qed.

(** With an identity the values are initialised by the identity routine
    alone. *)
Lemma initialize_values_identity operand result axis_flags reorderable skipna
    assign_identity s :
  InitializeValues operand result axis_flags reorderable skipna
    (Some assign_identity) s
  = if negb reorderable &&
       (check_nonreorderable_axes (PyArray_NDIM operand) axis_flags <? 0)
    then (Raise ValueError_not_reorderable, s)
    else
      match assign_identity result (negb skipna) (st_heap s) with
      | Some h' =>
          (Ok (Some (operand, 0)),
           State h' (st_trace s ++ [Ev_assign_identity]))
      | None => (Raise Error_in_collaborator, s)
      end.
Proof.
  unfold initialize_values, bind, call, log, ret, raise.
  destruct (negb reorderable && _); [done|].
  by destruct (assign_identity result (negb skipna) (st_heap s)).
Qed.

Lemma run_inner_loop_no_zero_size use_maskna skipna
    (loop masked_loop advanced_masked_loop : option (PyArray_ReduceLoopFunc NpyIter))
    iter skip_first_count s :
  (run_inner_loop NpyIter use_maskna skipna loop masked_loop
     advanced_masked_loop iter skip_first_count s).1
  ≠ Raise ValueError_zero_size.
Proof.
  unfold run_inner_loop, bind, call, log, ret, raise.
  repeat (case_match; simplify_eq/=; try done).
Qed.

Lemma finish_ok out result axis_flags keepdims s :
  exists r, finish out result axis_flags keepdims s = (Ok r, s).
Proof.
  unfold finish, ret. destruct out; [|destruct (negb keepdims)]; eauto.
Qed.

Lemma reduce_with_identity_no_zero_size use_maskna operand out operand_dtype
    result_dtype casting axis_flags reorderable skipna keepdims subok
    assign_identity loop masked_loop advanced_masked_loop buffersize s :
  (ReduceWith use_maskna operand out operand_dtype result_dtype casting
     axis_flags reorderable skipna keepdims subok (Some assign_identity)
     loop masked_loop advanced_masked_loop buffersize s).1
  ≠ Raise ValueError_zero_size.
Proof.
  unfold reduce_with, bind.
  pose proof (create_reduce_result_trace operand out (Some result_dtype)
                axis_flags (negb skipna && use_maskna) keepdims subok s) as Hc.
  destruct (PyArray_CreateReduceResult _ _ _ _ _ _ _ s) as [[result|e|] s1];
    simpl in Hc; destruct Hc as (t1 & _ & _ & Hev); simpl.
  2:{ intros [= ->]. done. }
  2:{ done. }
  assert (Hrest : forall s2,
    (match InitializeValues operand result axis_flags reorderable skipna
             (Some assign_identity) s2 with
     | (Ok a, s') =>
         match a with
         | Some (op_view, skip_first_count) =>
             let '(flag0, flag1) :=
               mask_flags use_maskna skipna (negb (is_null advanced_masked_loop)) in
             match NpyIter_AdvancedNew (iter_operand result flag0)
                     (iter_operand op_view flag1)
                     result_dtype operand_dtype casting buffersize with
             | Some iter =>
                 bind (if negb (NpyIter_GetIterSize_main iter =? 0)
                       then run_inner_loop NpyIter use_maskna skipna loop
                              masked_loop advanced_masked_loop iter skip_first_count
                       else ret tt)
                   (fun _ => finish out result axis_flags keepdims)
             | None => raise Error_in_collaborator
             end
         | None => finish out result axis_flags keepdims
         end s'
     | (Raise e, s') => (Raise e, s')
     | (Hangs, s') => (Hangs, s')
     end).1 ≠ Raise ValueError_zero_size).
  { intros s2. rewrite initialize_values_identity.
    destruct (negb reorderable && _); [done|].
    destruct (assign_identity result (negb skipna) (st_heap s2)); [|done].
    destruct (mask_flags _ _ _) as [flag0 flag1].
    destruct (NpyIter_AdvancedNew _ _ _ _ _ _) as [iter|]; [|done].
    unfold bind.
    destruct (negb (NpyIter_GetIterSize_main iter =? 0)).
    - pose proof (run_inner_loop_no_zero_size use_maskna skipna loop
                    masked_loop advanced_masked_loop iter 0
                    (State h (st_trace s2 ++ [Ev_assign_identity])))
        as Hl.
      destruct (run_inner_loop _ _ _ _ _ _ _ _ _) as [[?|?|] s3]; simpl in *.
      2,3: congruence.
      by destruct (finish_ok out result axis_flags keepdims s3) as [r ->].
    - unfold ret.
      by destruct (finish_ok out result axis_flags keepdims
                     (State h (st_trace s2 ++ [Ev_assign_identity])))
        as [r ->]. }
  destruct (use_maskna && negb skipna).
  - unfold call, log, get_heap, ret. simpl.
    destruct (PyArray_ReduceMaskNAArray (st_heap s1) operand result) as [h2|];
      simpl; [|done].
    match goal with |- context [if ?b then _ else _] => destruct b end.
    + by destruct (finish_ok out result axis_flags keepdims
                     (State h2 (st_trace s1 ++ [Ev_reduce_mask]))) as [r ->].
    + apply Hrest.
  - unfold ret. simpl. apply Hrest.
Qed.

Lemma reduce_wrapper_identity_no_zero_size operand out wheremask operand_dtype
    result_dtype casting axis_flags reorderable skipna skipwhichna keepdims
    subok assign_identity loop masked_loop advanced_masked_loop buffersize s :
  (ReduceWrapper operand out wheremask operand_dtype result_dtype casting
     axis_flags reorderable skipna skipwhichna keepdims subok
     (Some assign_identity) loop masked_loop advanced_masked_loop buffersize s).1
  ≠ Raise ValueError_zero_size.
Proof.
  unfold PyArray_ReduceWrapper, raise, bind, get_heap, ret.
  destruct (negb (is_null wheremask)); [done|].
  destruct (negb (is_null skipwhichna)); [done|].
  match goal with |- context [if ?b then _ else _] => destruct b end.
  - destruct (PyArray_ContainsNA (st_heap s) operand); [done|].
    apply reduce_with_identity_no_zero_size.
  - apply reduce_with_identity_no_zero_size.
Qed.

(** C4.  When the operand has no element, skipna is
    disabled or the operand has no mask, and the reduction is reorderable
    or has at most one flagged axis, the initializer raises the
    zero-size error, which is an EmptyReductionError, and leaves the
    state as it found it.  With an identity the values are initialised
    by the identity routine alone, and the wrapper never raises the
    zero-size error, whatever the size of the operand. *)
Theorem C4_empty_operand_raises_without_identity
    result operand axis_flags reorderable skipna s :
  PyArray_SIZE operand = 0 ->
  skipna = false \/ maskna operand = None ->
  reorderable = true \/ (flagged_axes (PyArray_NDIM operand) axis_flags ≤ 1)%nat ->
  InitializeReduceResult result operand axis_flags reorderable skipna s
    = (Raise ValueError_zero_size, s) /\
  classify ValueError_zero_size = EmptyReductionError /\
  (forall assign_identity s',
     InitializeValues operand result axis_flags reorderable skipna
       (Some assign_identity) s'
     = if negb reorderable &&
          (check_nonreorderable_axes (PyArray_NDIM operand) axis_flags <? 0)
       then (Raise ValueError_not_reorderable, s')
       else
         match assign_identity result (negb skipna) (st_heap s') with
         | Some h' =>
             (Ok (Some (operand, 0)),
              State h' (st_trace s' ++ [Ev_assign_identity]))
         | None => (Raise Error_in_collaborator, s')
         end) /\
  (forall out wheremask operand_dtype result_dtype casting skipwhichna
          keepdims subok assign_identity loop masked_loop advanced_masked_loop
          buffersize s',
     (ReduceWrapper operand out wheremask operand_dtype result_dtype casting
        axis_flags reorderable skipna skipwhichna keepdims subok
        (Some assign_identity) loop masked_loop advanced_masked_loop
        buffersize s').1
     ≠ Raise ValueError_zero_size).
Proof.
  intros Hsize Hmask Hre. split_and!.
  - by apply initialize_empty.
  - done.
  - intros. apply initialize_values_identity.
  - intros. apply reduce_wrapper_identity_no_zero_size.
Qed.

End EmptyOperand.

(** C4, counterexample.  The operand of shape (0, 2) has no element and
    no mask, yet a non-reorderable reduction over both of its axes is
    refused with the not-reorderable error, not with the zero-size
    one. *)
Lemma C4_counterexample_nonreorderable_first :
  PyArray_SIZE matrix_0x2 = 0 /\
  (InitializeReduceResult_reference result_1x1 matrix_0x2 [true; true]
     false false (start empty_heap)).1
  = Raise ValueError_not_reorderable /\
  classify ValueError_not_reorderable ≠ EmptyReductionError.
Proof. vm_compute. done. Qed.

(** C4, witness: the empty operand reduced along its first axis. *)
Lemma C4_witness :
  PyArray_SIZE matrix_0x2 = 0 /\
  InitializeReduceResult_reference result_1x1 matrix_0x2 [true; false]
    false false (start empty_heap)
  = (Raise ValueError_zero_size, start empty_heap).
Proof.
  split; [reflexivity|].
  refine (proj1 (C4_empty_operand_raises_without_identity
    NpyIter_MultiNew_reference PyArray_AssignArray_reference
    PyArray_ReduceMaskNAArray_reference NpyIter_reference
    NpyIter_AdvancedNew_reference NpyIter_GetIterSize_reference
    result_1x1 matrix_0x2 [true; false] false false (start empty_heap)
    _ _ _)).
  - reflexivity.
  - left. reflexivity.
  - right. vm_compute. lia.
Defined.

(** ** The first-element initializer without skipna *)

Lemma first_subarray_from_lookup idim axis_flags shape i :
  first_subarray_from idim axis_flags shape !! i
  = (fun d => if flag_at axis_flags (idim + i) then 1 else d) <$> shape !! i.
Proof.
  revert idim i. induction shape as [|d rest IH]; intros idim i; [done|].
  destruct i as [|i]; simpl.
  - by rewrite Nat.add_0_r.
  - rewrite IH. by replace (S idim + i)%nat with (idim + S i)%nat by lia.
Qed.

Lemma first_subarray_from_length idim axis_flags shape :
  length (first_subarray_from idim axis_flags shape) = length shape.
Proof.
  revert idim. induction shape as [|d rest IH]; intros idim; simpl; [done|].
  by rewrite IH.
Qed.

Lemma first_along_axes_spec axis_flags pre rest n :
  first_along_axes (seq (length pre) (length rest)) axis_flags (pre ++ rest) n
  = (pre ++ first_subarray_from (length pre) axis_flags rest,
     n + Z.of_nat (length (filter (fun idim => flag_at axis_flags idim = true)
                             (seq (length pre) (length rest))))).
Proof.
  revert pre n. induction rest as [|d rest IH]; intros pre n; simpl.
  { rewrite app_nil_r. f_equal. lia. }
  specialize (IH (pre ++ [if flag_at axis_flags (length pre) then 1 else d])).
  rewrite length_app, Nat.add_1_r, <- app_assoc in IH. simpl in IH.
  destruct (flag_at axis_flags (length pre)) eqn:Hf.
  - rewrite filter_cons_True by done.
    replace (<[length pre:=1]> (pre ++ d :: rest)) with (pre ++ 1 :: rest).
    2:{ rewrite insert_app_r_alt by lia. by rewrite Nat.sub_diag. }
    rewrite IH, <- app_assoc. simpl. f_equal. lia.
  - rewrite filter_cons_False by congruence.
    rewrite IH, <- app_assoc. done.
Qed.

Lemma first_along_axes_whole axis_flags shape :
  first_along_axes (seq 0 (length shape)) axis_flags shape 0
  = (first_subarray_shape axis_flags shape,
     Z.of_nat (flagged_axes (length shape) axis_flags)).
Proof. apply (first_along_axes_spec axis_flags [] shape 0). Qed.

Lemma make_empty_spec pre rest :
  make_empty (seq (length pre) (length rest)) (pre ++ rest)
  = pre ++ replicate (length rest) 0.
Proof.
  revert pre. induction rest as [|d rest IH]; intros pre; simpl; [done|].
  specialize (IH (pre ++ [0])).
  rewrite length_app, Nat.add_1_r, <- app_assoc in IH. simpl in IH.
  replace (<[length pre:=0]> (pre ++ d :: rest)) with (pre ++ 0 :: rest).
  2:{ rewrite insert_app_r_alt by lia. by rewrite Nat.sub_diag. }
  by rewrite IH, <- app_assoc.
Qed.

Lemma make_empty_whole shape n :
  length shape = n -> make_empty (seq 0 n) shape = replicate n 0.
Proof. intros <-. apply (make_empty_spec [] shape). Qed.

Lemma multiply_replicate_zero n :
  (0 < n)%nat -> PyArray_MultiplyList (replicate n 0) = 0.
Proof. destruct n; [lia|]. done. Qed.

Lemma drop_first_none idims axis_flags shape shape_orig strides data :
  filter (fun idim => flag_at axis_flags idim = true) idims = [] ->
  drop_first idims axis_flags shape shape_orig strides data = (shape, data).
Proof.
  revert shape data. induction idims as [|i idims IH]; intros shape data Hf.
  { done. }
  simpl. destruct (flag_at axis_flags i) eqn:Hi.
  - by rewrite filter_cons_True in Hf.
  - rewrite filter_cons_False in Hf by congruence. by apply IH.
Qed.

Lemma drop_first_one idims axis_flags shape shape_orig strides data k :
  filter (fun idim => flag_at axis_flags idim = true) idims = [k] ->
  drop_first idims axis_flags shape shape_orig strides data
  = (<[k := intp_at shape_orig k - 1]> shape, data +ₚ intp_at strides k).
Proof.
  revert shape data. induction idims as [|i idims IH]; intros shape data Hf.
  { done. }
  simpl. destruct (flag_at axis_flags i) eqn:Hi.
  - rewrite filter_cons_True in Hf by done. simplify_eq.
    by apply drop_first_none.
  - rewrite filter_cons_False in Hf by congruence. by apply IH.
Qed.

Lemma advance_mask_none idims axis_flags strides maskna_data :
  filter (fun idim => flag_at axis_flags idim = true) idims = [] ->
  advance_mask idims axis_flags strides maskna_data = maskna_data.
Proof.
  revert maskna_data. induction idims as [|i idims IH]; intros maskna_data Hf.
  { done. }
  simpl. destruct (flag_at axis_flags i) eqn:Hi.
  - by rewrite filter_cons_True in Hf.
  - rewrite filter_cons_False in Hf by congruence. by apply IH.
Qed.

Lemma advance_mask_one idims axis_flags strides maskna_data k :
  filter (fun idim => flag_at axis_flags idim = true) idims = [k] ->
  advance_mask idims axis_flags strides maskna_data
  = maskna_data +ₚ intp_at strides k.
Proof.
  revert maskna_data. induction idims as [|i idims IH]; intros maskna_data Hf.
  { done. }
  simpl. destruct (flag_at axis_flags i) eqn:Hi.
  - rewrite filter_cons_True in Hf by done. simplify_eq.
    by apply advance_mask_none.
  - rewrite filter_cons_False in Hf by congruence. by apply IH.
Qed.

(** With one flagged axis [k], dropping its first element from the
    sub-array shape gives the operand's shape with axis [k] shortened. *)
Lemma shorten_first_subarray axis_flags shape k x :
  filter (fun idim => flag_at axis_flags idim = true) (seq 0 (length shape)) = [k] ->
  <[k := x]> (first_subarray_shape axis_flags shape) = <[k := x]> shape.
Proof.
  intros Hf. apply list_eq. intros i.
  destruct (decide (i = k)) as [->|Hne].
  - destruct (decide (k < length shape)%nat).
    + rewrite !list_lookup_insert_eq; [done|done|].
      apply lookup_lt_is_Some. unfold first_subarray_shape.
      rewrite first_subarray_from_lookup.
      apply fmap_is_Some. by apply lookup_lt_is_Some.
    + rewrite !list_insert_ge; try lia.
      * unfold first_subarray_shape. rewrite first_subarray_from_lookup.
        by rewrite lookup_ge_None_2 by lia.
      * unfold first_subarray_shape. rewrite first_subarray_from_length. lia.
  - rewrite !list_lookup_insert_ne by done.
    unfold first_subarray_shape. rewrite first_subarray_from_lookup. simpl.
    destruct (shape !! i) as [d|] eqn:Hd; [|done]. simpl.
    destruct (flag_at axis_flags i) eqn:Hi; [|done].
    assert (i ∈ filter (fun idim => flag_at axis_flags idim = true)
                  (seq 0 (length shape))).
    { apply list_elem_of_filter. split; [done|]. apply elem_of_seq.
      apply lookup_lt_Some in Hd. lia. }
    rewrite Hf in H. apply list_elem_of_singleton in H. done.
Qed.

Lemma filter_flagged_singleton axis_flags ndim k :
  flagged_axes ndim axis_flags = 1%nat ->
  (k < ndim)%nat -> flag_at axis_flags k = true ->
  filter (fun idim => flag_at axis_flags idim = true) (seq 0 ndim) = [k].
Proof.
  unfold flagged_axes. intros Hlen Hk Hf.
  assert (Hin : k ∈ filter (fun idim => flag_at axis_flags idim = true) (seq 0 ndim)).
  { apply list_elem_of_filter. split; [done|]. apply elem_of_seq. lia. }
  destruct (filter _ (seq 0 ndim)) as [|x [|y l]]; simplify_eq/=.
  apply list_elem_of_singleton in Hin. by subst.
Qed.

Section FirstElements.

Context
  (NpyIter_MultiNew :
     PyArrayObject -> PyArrayObject -> PyArrayObject -> option (list inner_chunk))
  (PyArray_AssignArray : heap -> PyArrayObject -> PyArrayObject -> option heap).

Local Abbreviation InitializeReduceResult :=
  (PyArray_InitializeReduceResult NpyIter_MultiNew PyArray_AssignArray).

Lemma copy_first_and_shrink_spec result operand op_view axis_flags s :
  copy_first_and_shrink PyArray_AssignArray result operand op_view axis_flags
    (PyArray_NDIM op_view) s
  = after_copy PyArray_AssignArray s result (first_subarray axis_flags op_view)
      match filter (fun idim => flag_at axis_flags idim = true)
              (seq 0 (PyArray_NDIM op_view)) with
      | [] => (empty_view op_view, 0)
      | [k] => (drop_first_element k op_view, 0)
      | _ => (operand, PyArray_SIZE result)
      end.
Proof.
  unfold copy_first_and_shrink, after_copy, PyArray_SHAPE, PyArray_NDIM.
  rewrite first_along_axes_whole. unfold bind, call, log, ret, first_subarray.
  destruct (PyArray_AssignArray _ _ _) as [h'|]; [|done]. simpl.
  unfold flagged_axes.
  destruct (filter _ (seq 0 (length (dimensions op_view)))) as [|k [|k' l]] eqn:Hf.
  - simpl. rewrite make_empty_whole; [done|].
    unfold first_subarray_shape. by rewrite first_subarray_from_length.
  - simpl. rewrite (drop_first_one _ _ _ _ _ _ k Hf).
    rewrite shorten_first_subarray by done.
    unfold drop_first_element, PyArray_HASMASKNA, PyArray_DATA, PyArray_STRIDES.
    destruct (maskna op_view) as [m|] eqn:Hm; [|done].
    by rewrite (advance_mask_one _ _ _ _ k Hf).
  - assert (Z.of_nat (length (k :: k' :: l)) = 2 + Z.of_nat (length l)) as ->
      by (simpl length; lia).
    rewrite !(proj2 (Z.eqb_neq _ _)) by lia. done.
Qed.

(** C2.  A non-empty operand, skipna disabled or no mask.
    The sub-array at index 0 along every flagged axis is handed to
    PyArray_AssignArray as the source and the result as the destination.
    With more than one flagged axis and a reorderable reduction the
    operand itself is returned, with the skip count set to the number of
    cells of the result.  With exactly one flagged axis [k] the view
    returned has axis [k] shortened by one and its data (and mask)
    origin advanced by one stride, and the skip count is 0.  With no
    flagged axis and an operand of at least one dimension the view
    returned is empty and the skip count is 0. *)
Theorem C2_first_elements_without_skipna
    result operand axis_flags reorderable skipna s :
  skipna = false \/ maskna operand = None ->
  PyArray_SIZE operand ≠ 0 ->
  let ndim := PyArray_NDIM operand in
  let run := InitializeReduceResult result operand axis_flags reorderable skipna s in
  let copied :=
    after_copy PyArray_AssignArray s result (first_subarray axis_flags operand) in
  ((1 < flagged_axes ndim axis_flags)%nat -> reorderable = true ->
     run = copied (operand, PyArray_SIZE result)) /\
  (forall k, flagged_axes ndim axis_flags = 1%nat ->
     (k < ndim)%nat -> flag_at axis_flags k = true ->
     run = copied (drop_first_element k operand, 0)) /\
  (flagged_axes ndim axis_flags = 0%nat -> (0 < ndim)%nat ->
     run = copied (empty_view operand, 0) /\
     PyArray_SIZE (empty_view operand) = 0).
Proof.
  intros Hmask Hsize ndim run copied.
  assert (Hrun : reorderable = true \/ (flagged_axes ndim axis_flags ≤ 1)%nat ->
    run = copy_first_and_shrink PyArray_AssignArray result operand operand
            axis_flags ndim s).
  { intros Hre. subst run. unfold PyArray_InitializeReduceResult. fold ndim.
    assert (negb reorderable && (check_nonreorderable_axes ndim axis_flags <? 0)
            = false) as ->.
    { destruct Hre as [->|Hle]; [done|].
      rewrite check_nonreorderable_axes_spec, decide_True by done.
      by rewrite andb_false_r. }
    assert (negb skipna || negb (PyArray_HASMASKNA operand) = true) as ->.
    { destruct Hmask as [->|Hm]; [done|].
      unfold PyArray_HASMASKNA. rewrite Hm. by rewrite orb_true_r. }
    apply Z.eqb_neq in Hsize. by rewrite Hsize. }
  split_and!.
  - intros Hf Hre. rewrite Hrun by auto. subst ndim.
    rewrite copy_first_and_shrink_spec. unfold flagged_axes in Hf.
    destruct (filter _ _) as [|k [|k' l]]; simpl in Hf; [lia..|done].
  - intros k Hf Hk Hflag. rewrite Hrun by (right; lia). subst ndim.
    rewrite copy_first_and_shrink_spec.
    by rewrite (filter_flagged_singleton _ _ k Hf Hk Hflag).
  - intros Hf Hdim. split.
    + rewrite Hrun by (right; lia). subst ndim.
      rewrite copy_first_and_shrink_spec. unfold flagged_axes in Hf.
      by destruct (filter _ _).
    + unfold empty_view, PyArray_SIZE. simpl.
      by apply multiply_replicate_zero.
Qed.

End FirstElements.

(** C2, counterexample.  A non-reorderable reduction of the non-empty
    2 x 3 array over both axes: the initializer does not return the
    operand with a skip count, it fails. *)
Lemma C2_counterexample_nonreorderable :
  PyArray_SIZE matrix_2x3 ≠ 0 /\
  (1 < flagged_axes (PyArray_NDIM matrix_2x3) [true; true])%nat /\
  (InitializeReduceResult_reference result_1x1 matrix_2x3 [true; true]
     false false (start heap_2x3)).1
  = Raise ValueError_not_reorderable.
Proof. vm_compute. split_and!; [done|lia|done]. Qed.

(** With no flagged axis the view of a 0-dimensional operand is not
    empty: it has no dimension that could be set to 0. *)
Lemma initialize_scalar_operand_view_not_empty :
  exists v,
    (InitializeReduceResult_reference scalar_result scalar_operand []
       true false (start heap_2x3)).1 = Ok (v, 0)
    /\ PyArray_SIZE v = 1.
Proof. eexists. vm_compute. done. Qed.

(** C2, witness: the 2 x 3 array reduced along axis 1. *)
Lemma C2_witness :
  PyArray_SIZE matrix_2x3 ≠ 0 /\
  (InitializeReduceResult_reference result_2x1 matrix_2x3 [false; true]
     true false (start heap_2x3)).1
  = Ok (drop_first_element 1 matrix_2x3, 0).
Proof.
  assert (Hsize : PyArray_SIZE matrix_2x3 ≠ 0) by (vm_compute; done).
  split; [exact Hsize|].
  unfold InitializeReduceResult_reference.
  rewrite (proj1 (proj2 (C2_first_elements_without_skipna
    NpyIter_MultiNew_reference PyArray_AssignArray_reference
    result_2x1 matrix_2x3 [false; true] true false (start heap_2x3)
    (or_introl eq_refl) Hsize)) 1%nat); [reflexivity|vm_compute; reflexivity
    |vm_compute; lia|reflexivity].
Defined.

(** ** The one-dimensional skipna initializer *)

Lemma ptr_add_0 p : p +ₚ 0 = p.
Proof. destruct p as [b o]. unfold ptr_add. simpl. f_equal. lia. Qed.

Lemma ptr_add_add p a b : p +ₚ a +ₚ b = p +ₚ (a + b).
Proof. destruct p as [blk o]. unfold ptr_add. simpl. f_equal. lia. Qed.

Lemma leading_hidden_le n h maskna_data maskna_stride :
  (leading_hidden n h maskna_data maskna_stride ≤ n)%nat.
Proof.
  revert maskna_data. induction n as [|n IH]; intros maskna_data; simpl; [lia|].
  destruct (NpyMaskValue_IsExposed _); [lia|]. specialize (IH (maskna_data +ₚ maskna_stride)). lia.
Qed.

Lemma leading_hidden_hidden n h maskna_data maskna_stride i :
  0 <= i < Z.of_nat (leading_hidden n h maskna_data maskna_stride) ->
  NpyMaskValue_IsExposed (load h (maskna_data +ₚ i * maskna_stride)) = false.
Proof.
  revert maskna_data i. induction n as [|n IH]; intros maskna_data i; simpl.
  { lia. }
  destruct (NpyMaskValue_IsExposed (load h maskna_data)) eqn:He; [simpl; lia|].
  intros Hi. destruct (decide (i = 0)) as [->|Hne].
  - by rewrite Z.mul_0_l, ptr_add_0.
  - specialize (IH (maskna_data +ₚ maskna_stride) (i - 1) ltac:(lia)).
    rewrite ptr_add_add in IH.
    by replace (maskna_stride + (i - 1) * maskna_stride)
      with (i * maskna_stride) in IH by lia.
Qed.

Lemma leading_hidden_exposed n h maskna_data maskna_stride :
  (leading_hidden n h maskna_data maskna_stride < n)%nat ->
  NpyMaskValue_IsExposed
    (load h (maskna_data
             +ₚ Z.of_nat (leading_hidden n h maskna_data maskna_stride)
                * maskna_stride)) = true.
Proof.
  revert maskna_data. induction n as [|n IH]; intros maskna_data; simpl.
  { lia. }
  destruct (NpyMaskValue_IsExposed (load h maskna_data)) eqn:He.
  - intros _. by rewrite Z.mul_0_l, ptr_add_0.
  - intros Hlt. specialize (IH (maskna_data +ₚ maskna_stride) ltac:(lia)).
    rewrite ptr_add_add in IH.
    by replace (Z.of_nat (S (leading_hidden n h (maskna_data +ₚ maskna_stride)
                              maskna_stride)) * maskna_stride)
      with (maskna_stride
            + Z.of_nat (leading_hidden n h (maskna_data +ₚ maskna_stride)
                          maskna_stride) * maskna_stride) by lia.
Qed.

Section Scan.

Context
  (NpyIter_MultiNew :
     PyArrayObject -> PyArrayObject -> PyArrayObject -> option (list inner_chunk))
  (PyArray_AssignArray : heap -> PyArrayObject -> PyArrayObject -> option heap).

Lemma shrink_from_start_spec n h data maskna_data stride0 maskna_stride0 :
  shrink_from_start n h (Z.of_nat n) data maskna_data stride0 maskna_stride0
  = let k := Z.of_nat (leading_hidden n h maskna_data maskna_stride0) in
    (Z.of_nat n - k, data +ₚ k * stride0, maskna_data +ₚ k * maskna_stride0).
Proof.
  revert data maskna_data. induction n as [|n IH]; intros data maskna_data.
  { simpl. by rewrite !ptr_add_0. }
  cbn [shrink_from_start leading_hidden].
  rewrite (proj2 (Z.ltb_lt 0 (Z.of_nat (S n)))) by lia.
  destruct (NpyMaskValue_IsExposed (load h maskna_data)) eqn:He; simpl negb;
    cbn [andb].
  - cbv zeta. simpl Z.of_nat. by rewrite !Z.mul_0_l, !ptr_add_0, Z.sub_0_r.
  - replace (Z.of_nat (S n) - 1) with (Z.of_nat n) by lia.
    rewrite IH. cbv zeta.
    set (k := leading_hidden n h (maskna_data +ₚ maskna_stride0) maskna_stride0).
    rewrite !ptr_add_add.
    replace (stride0 + Z.of_nat k * stride0) with (Z.of_nat (S k) * stride0) by lia.
    replace (maskna_stride0 + Z.of_nat k * maskna_stride0)
      with (Z.of_nat (S k) * maskna_stride0) by lia.
    do 2 f_equal. lia.
Qed.

Lemma shrink_from_start_spec_Z n h data maskna_data stride0 maskna_stride0 :
  0 <= n ->
  shrink_from_start (Z.to_nat n) h n data maskna_data stride0 maskna_stride0
  = let k := Z.of_nat (leading_hidden (Z.to_nat n) h maskna_data maskna_stride0) in
    (n - k, data +ₚ k * stride0, maskna_data +ₚ k * maskna_stride0).
Proof.
  intros Hn.
  pose proof (shrink_from_start_spec (Z.to_nat n) h data maskna_data stride0
                maskna_stride0) as H.
  by rewrite Z2Nat.id in H by done.
Qed.

Local Abbreviation InitializeReduceResult :=
  (PyArray_InitializeReduceResult NpyIter_MultiNew PyArray_AssignArray).

Lemma copy_first_and_shrink_not_fully_NA result operand op_view axis_flags ndim s :
  (copy_first_and_shrink PyArray_AssignArray result operand op_view axis_flags
     ndim s).1 ≠ Raise ValueError_fully_NA.
Proof.
  unfold copy_first_and_shrink, bind, call, log, ret.
  destruct (first_along_axes _ _ _ _) as [shape nreduce].
  destruct (PyArray_AssignArray _ _ _); [|done]. simpl.
  destruct (nreduce =? 1).
  { by destruct (drop_first _ _ _ _ _ _). }
  by destruct (nreduce =? 0).
Qed.

Lemma flagged_axes_le ndim axis_flags : (flagged_axes ndim axis_flags ≤ ndim)%nat.
Proof.
  unfold flagged_axes.
  etrans; [apply length_filter|]. by rewrite length_seq.
Qed.

(** C3.  A one-dimensional operand with a mask, skipna enabled.  [k] is
    the number of hidden elements at the start of the operand, that is
    the position of its first exposed element when there is one.  The
    initializer raises the fully-NA error (an AllMissingError) exactly
    when every element is hidden.  Otherwise it runs the copy-and-shrink
    part of the unmasked case on the view of the operand that starts at
    position [k]: when the axis is flagged the element at [k] is the
    one-element source handed to PyArray_AssignArray, and the view
    returned starts one element further and holds the [n - k - 1]
    elements left. *)
Theorem C3_one_dimensional_skipna
    result operand n m axis_flags reorderable s :
  dimensions operand = [n] -> 0 <= n -> maskna operand = Some m ->
  let exposed i :=
    NpyMaskValue_IsExposed
      (load (st_heap s) (maskna_data m +ₚ i * intp_at (maskna_strides m) 0)) in
  let k :=
    Z.of_nat (leading_hidden (Z.to_nat n) (st_heap s) (maskna_data m)
                (intp_at (maskna_strides m) 0)) in
  let run := InitializeReduceResult result operand axis_flags reorderable true s in
  (0 <= k <= n /\ (forall i, 0 <= i < k -> exposed i = false) /\
   (k < n -> exposed k = true)) /\
  (run.1 = Raise ValueError_fully_NA <-> forall i, 0 <= i < n -> exposed i = false) /\
  classify ValueError_fully_NA = AllMissingError /\
  (k = n -> run = (Raise ValueError_fully_NA, s)) /\
  (k < n ->
     run = copy_first_and_shrink PyArray_AssignArray result operand
             (view_from k operand) axis_flags 1 s /\
     (flag_at axis_flags 0 = true ->
        let seed := first_subarray axis_flags (view_from k operand) in
        let rest := drop_first_element 0 (view_from k operand) in
        run = after_copy PyArray_AssignArray s result seed (rest, 0) /\
        dimensions seed = [1] /\
        data seed = data operand +ₚ k * intp_at (strides operand) 0 /\
        dimensions rest = [n - k - 1] /\
        data rest = data operand +ₚ (k + 1) * intp_at (strides operand) 0)) /\
  (forall s', PyArray_SIZE operand ≠ 0 ->
     InitializeReduceResult result (strip_mask operand) axis_flags reorderable true s'
     = copy_first_and_shrink PyArray_AssignArray result (strip_mask operand)
         (strip_mask operand) axis_flags 1 s').
Proof.
  intros Hdims Hn Hm exposed k run.
  assert (Hguard : negb reorderable
            && (check_nonreorderable_axes 1 axis_flags <? 0) = false).
  { rewrite check_nonreorderable_axes_spec, decide_True.
    - by rewrite andb_false_r.
    - apply flagged_axes_le. }
  assert (Hk : 0 <= k <= n).
  { subst k. pose proof (leading_hidden_le (Z.to_nat n) (st_heap s)
      (maskna_data m) (intp_at (maskna_strides m) 0)). lia. }
  assert (Hhid : forall i, 0 <= i < k -> exposed i = false).
  { intros i Hi. by apply (leading_hidden_hidden (Z.to_nat n)). }
  assert (Hexp : k < n -> exposed k = true).
  { intros Hlt. apply leading_hidden_exposed. lia. }
  assert (Hrun : run = if decide (k = n) then (Raise ValueError_fully_NA, s)
                       else copy_first_and_shrink PyArray_AssignArray result
                              operand (view_from k operand) axis_flags 1 s).
  { subst run. unfold PyArray_InitializeReduceResult. cbv zeta.
    assert (PyArray_NDIM operand = 1%nat) as ->
      by (unfold PyArray_NDIM; by rewrite Hdims).
    rewrite Hguard. unfold PyArray_HASMASKNA. rewrite Hm. simpl.
    unfold bind, get_heap, view_from.
    unfold PyArray_View, PyArray_DIMS, PyArray_MASKNA_DATA,
      PyArray_MASKNA_STRIDES, PyArray_STRIDES, PyArray_DATA.
    subst k. destruct operand as [dims st dat de mk]. simpl in *. subst dims mk.
    unfold intp_at at 1. simpl lookup.
    rewrite shrink_from_start_spec_Z by done. cbv zeta.
    set (k := Z.of_nat (leading_hidden _ _ _ _)) in *.
    change (intp_at [n] 0) with n.
    destruct (decide (k = n)) as [->|Hne].
    - by rewrite Z.sub_diag.
    - rewrite (proj2 (Z.eqb_neq (n - k) 0)) by lia. done. }
  clearbody run. subst run.
  split_and!; try done; try lia.
  - split.
    + intros Hfail. destruct (decide (k = n)) as [->|Hne]; [done|].
      by apply copy_first_and_shrink_not_fully_NA in Hfail.
    + intros Hall. rewrite decide_True; [done|].
      destruct (decide (k = n)); [done|].
      specialize (Hexp ltac:(lia)). specialize (Hall k ltac:(lia)). congruence.
  - intros ->. by rewrite decide_True.
  - intros Hlt. rewrite decide_False by lia. split; [done|].
    intros Hflag.
    assert (Hnd : PyArray_NDIM (view_from k operand) = 1%nat).
    { unfold view_from, PyArray_NDIM. simpl. by rewrite length_insert, Hdims. }
    pose proof (copy_first_and_shrink_spec PyArray_AssignArray result operand
                  (view_from k operand) axis_flags s) as Hspec.
    rewrite Hnd in Hspec. rewrite Hspec. clear Hspec.
    assert (filter (fun idim => flag_at axis_flags idim = true) (seq 0 1) = [0%nat])
      as -> by (simpl seq; by rewrite filter_cons_True).
    split; [done|].
    unfold first_subarray, first_subarray_shape, drop_first_element, view_from.
    simpl. rewrite Hdims. simpl. rewrite Hflag.
    unfold intp_at. simpl. rewrite ptr_add_add.
    split_and!; try done; f_equal; lia.
  - intros s' Hsize. unfold PyArray_InitializeReduceResult. cbv zeta.
    assert (PyArray_NDIM (strip_mask operand) = 1%nat) as ->.
    { unfold PyArray_NDIM, strip_mask. simpl. by rewrite Hdims. }
    rewrite Hguard. unfold PyArray_HASMASKNA. simpl.
    assert (PyArray_SIZE (strip_mask operand) = PyArray_SIZE operand) as -> by done.
    by rewrite (proj2 (Z.eqb_neq _ _) Hsize).
Qed.

End Scan.

(** C3, witness: [NA, NA, 5, NA, 8] reduced along its axis.  The seed is
    the element at position 2, and the remainder starts at position 3. *)
Lemma C3_witness :
  dimensions vector_NA = [5] /\
  (InitializeReduceResult_reference result_1 vector_NA [true] true true
     (start heap_vector_NA)).1
  = Ok (Array [2] [8] (Ptr 0 24) float64 (Some (Mask NPY_BOOL (Ptr 1 3) [1])), 0) /\
  load (st_heap (InitializeReduceResult_reference result_1 vector_NA [true]
                   true true (start heap_vector_NA)).2) (Ptr 2 0) = 5.
Proof.
  split; [reflexivity|].
  pose proof (C3_one_dimensional_skipna NpyIter_MultiNew_reference
    PyArray_AssignArray_reference result_1 vector_NA 5
    (Mask NPY_BOOL (Ptr 1 0) [1]) [true] true (start heap_vector_NA)
    eq_refl ltac:(lia) eq_refl) as H.
  cbv zeta in H. destruct H as (_ & _ & _ & _ & H & _).
  destruct H as [_ H]; [vm_compute; reflexivity|].
  destruct (H eq_refl) as [Hrun _].
  unfold InitializeReduceResult_reference. rewrite Hrun.
  vm_compute. split; reflexivity.
Defined.

(** The fully hidden vector [NA, NA] is refused. *)
Example fully_hidden_vector_refused :
  (InitializeReduceResult_reference result_1
     (Array [2] [8] (Ptr 0 0) float64 (Some (Mask NPY_BOOL (Ptr 1 0) [1])))
     [true] true true (start heap_vector_NA)).1
  = Raise ValueError_fully_NA.
Proof. reflexivity. Qed.

(** ** Scenarios A and B *)

Example scenario_A_sum :
  run_sum_2x3.1 = Ok (Return_new (Array [2] [8] (Ptr 4 0) float64 None)) /\
  load (st_heap run_sum_2x3.2) (Ptr 4 0) = 6 /\
  load (st_heap run_sum_2x3.2) (Ptr 4 8) = 15.
Proof. vm_compute. done. Qed.

Example scenario_B_max :
  run_max_2x3.1 = Ok (Return_new (Array [2] [8] (Ptr 4 0) float64 None)) /\
  load (st_heap run_max_2x3.2) (Ptr 4 0) = 3 /\
  load (st_heap run_max_2x3.2) (Ptr 4 8) = 6.
Proof. vm_compute. done. Qed.

(** ** What the wrapper returns *)

Lemma flag_at_ge axis_flags idim :
  (length axis_flags ≤ idim)%nat -> flag_at axis_flags idim = false.
Proof.
  intros Hge. unfold flag_at. by rewrite lookup_ge_None_2.
Qed.

Lemma first_subarray_from_ge axis_flags shape idim :
  (length axis_flags ≤ idim)%nat ->
  first_subarray_from idim axis_flags shape = shape.
Proof.
  revert idim. induction shape as [|d rest IH]; intros idim Hge; simpl; [done|].
  rewrite flag_at_ge by done. rewrite IH by lia. done.
Qed.

Lemma remove_axes_first_subarray axis_flags shape idim :
  remove_axes (drop idim axis_flags) (first_subarray_from idim axis_flags shape)
  = remove_axes (drop idim axis_flags) shape.
Proof.
  revert idim. induction shape as [|d rest IH]; intros idim; simpl; [done|].
  destruct (axis_flags !! idim) as [f|] eqn:Hf.
  - rewrite (drop_S _ _ _ Hf).
    assert (flag_at axis_flags idim = f) as ->.
    { unfold flag_at. by rewrite Hf. }
    destruct f; simpl; rewrite IH; done.
  - apply lookup_ge_None in Hf.
    rewrite flag_at_ge, first_subarray_from_ge by lia. done.
Qed.

Lemma allocate_reduce_result_shape h arr axis_flags dtype subok :
  dimensions (allocate_reduce_result h arr axis_flags dtype subok).1
  = first_subarray_shape axis_flags (dimensions arr).
Proof.
  pose proof (allocate_reduce_result_fields h arr axis_flags dtype subok)
    as (Hnd & _).
  pose proof (sorted_stride_perm_permutation (PyArray_NDIM arr)
                (PyArray_SHAPE arr) (PyArray_STRIDES arr)) as Hperm.
  pose proof (fun k i => allocate_reduce_result_axis h arr axis_flags dtype
                           subok k i) as Hat.
  cbv zeta in Hnd, Hat.
  apply list_eq. intros i. unfold first_subarray_shape.
  rewrite first_subarray_from_lookup. simpl.
  destruct (decide (i < PyArray_NDIM arr)%nat) as [Hlt|Hge].
  - assert (Hin : i ∈ PyArray_CreateSortedStridePerm (PyArray_NDIM arr)
                        (PyArray_SHAPE arr) (PyArray_STRIDES arr)).
    { rewrite Hperm. apply elem_of_seq. lia. }
    apply list_elem_of_lookup in Hin as [k Hk]. specialize (Hat k i Hk).
    destruct (lookup_lt_is_Some_2 (dimensions arr) i Hlt) as [d Hd].
    rewrite Hd. simpl. destruct (flag_at axis_flags i).
    + by destruct Hat as [-> _].
    + destruct Hat as [-> _]. done.
  - unfold PyArray_NDIM in *. rewrite !lookup_ge_None_2; [done|lia|lia].
Qed.

Lemma allocate_mask_fields h arr :
  dimensions (PyArray_AllocateMaskNA h arr).1 = dimensions arr /\
  data (PyArray_AllocateMaskNA h arr).1 = data arr.
Proof. done. Qed.

Section Returned.

Context
  (NpyIter_MultiNew :
     PyArrayObject -> PyArrayObject -> PyArrayObject -> option (list inner_chunk))
  (PyArray_AssignArray : heap -> PyArrayObject -> PyArrayObject -> option heap)
  (PyArray_ReduceMaskNAArray : heap -> PyArrayObject -> PyArrayObject -> option heap)
  (NpyIter : Type)
  (NpyIter_AdvancedNew :
     PyArrayObject -> PyArrayObject ->
     PyArray_Descr -> PyArray_Descr -> nat -> Z -> option NpyIter)
  (NpyIter_GetIterSize_main : NpyIter -> Z).

Local Abbreviation ReduceWrapper :=
  (PyArray_ReduceWrapper NpyIter_MultiNew PyArray_AssignArray
     PyArray_ReduceMaskNAArray NpyIter NpyIter_AdvancedNew
     NpyIter_GetIterSize_main).
Local Abbreviation ReduceWith :=
  (reduce_with NpyIter_MultiNew PyArray_AssignArray
     PyArray_ReduceMaskNAArray NpyIter NpyIter_AdvancedNew
     NpyIter_GetIterSize_main).

Lemma finish_spec out result axis_flags keepdims s :
  finish out result axis_flags keepdims s
  = (Ok (finished out result axis_flags keepdims), s).
Proof. unfold finish, finished, ret. destruct out; [done|]. by destruct keepdims. Qed.

(** Every successful run ends at [finish], with the result made by
    PyArray_CreateReduceResult. *)
Lemma reduce_with_returns use_maskna operand out operand_dtype
    result_dtype casting axis_flags reorderable skipna keepdims subok
    assign_identity loop masked_loop advanced_masked_loop buffersize s r :
  (ReduceWith use_maskna operand out operand_dtype result_dtype casting
     axis_flags reorderable skipna keepdims subok assign_identity
     loop masked_loop advanced_masked_loop buffersize s).1 = Ok r ->
  exists result,
    (PyArray_CreateReduceResult operand out (Some result_dtype) axis_flags
       (negb skipna && use_maskna) keepdims subok s).1 = Ok result /\
    r = finished out result axis_flags keepdims.
Proof.
  unfold reduce_with, bind.
  destruct (PyArray_CreateReduceResult _ _ _ _ _ _ _ s) as [[result|e|] s1];
    simpl; [|done..].
  intros Hrun. exists result. split; [done|].
  assert (Hrest : forall s2,
    (match initialize_values NpyIter_MultiNew PyArray_AssignArray operand
             result axis_flags reorderable skipna assign_identity s2 with
     | (Ok a, s') =>
         match a with
         | Some (op_view, skip_first_count) =>
             let '(flag0, flag1) :=
               mask_flags use_maskna skipna (negb (is_null advanced_masked_loop)) in
             match NpyIter_AdvancedNew (iter_operand result flag0)
                     (iter_operand op_view flag1)
                     result_dtype operand_dtype casting buffersize with
             | Some iter =>
                 bind (if negb (NpyIter_GetIterSize_main iter =? 0)
                       then run_inner_loop NpyIter use_maskna skipna loop
                              masked_loop advanced_masked_loop iter skip_first_count
                       else ret tt)
                   (fun _ => finish out result axis_flags keepdims)
             | None => raise Error_in_collaborator
             end
         | None => finish out result axis_flags keepdims
         end s'
     | (Raise e, s') => (Raise e, s')
     | (Hangs, s') => (Hangs, s')
     end).1 = Ok r -> r = finished out result axis_flags keepdims).
  { intros s2.
    destruct (initialize_values _ _ _ _ _ _ _ _ s2) as [[[[v k]|]|e|] s3];
      simpl; try done.
    - destruct (mask_flags _ _ _) as [flag0 flag1].
      destruct (NpyIter_AdvancedNew _ _ _ _ _ _) as [iter|]; [|done].
      unfold bind.
      destruct (negb (NpyIter_GetIterSize_main iter =? 0)).
      + destruct (run_inner_loop _ _ _ _ _ _ _ _ _) as [[?|?|] s4]; simpl;
          [|done..].
        rewrite finish_spec. simpl. congruence.
      + unfold ret. rewrite finish_spec. simpl. congruence.
    - rewrite finish_spec. simpl. congruence. }
  revert Hrun. destruct (use_maskna && negb skipna).
  - unfold call, log, get_heap, ret. simpl.
    destruct (PyArray_ReduceMaskNAArray (st_heap s1) operand result) as [h2|];
      simpl; [|done].
    match goal with |- context [if ?b then _ else _] => destruct b end.
    + rewrite finish_spec. simpl. congruence.
    + apply Hrest.
  - unfold ret. simpl. apply Hrest.
Qed.

(** C8.  When a call succeeds and an output was supplied, the value
    returned is that output itself, as the caller passed it.  When no
    output was supplied, the value returned is the array allocated by
    the call, in a fresh block: with keepdims it has the operand's shape
    with every flagged axis of length 1; without keepdims the flagged
    axes are removed from its shape. *)
Theorem C8_wrapper_returns
    operand out wheremask operand_dtype result_dtype casting axis_flags
    reorderable skipna skipwhichna keepdims subok assign_identity
    loop masked_loop advanced_masked_loop buffersize s r :
  (ReduceWrapper operand out wheremask operand_dtype result_dtype casting
     axis_flags reorderable skipna skipwhichna keepdims subok assign_identity
     loop masked_loop advanced_masked_loop buffersize s).1 = Ok r ->
  match out with
  | Some o => r = Return_out o
  | None =>
      exists result,
        r = Return_new result /\
        data result = Ptr (nextblock (st_heap s)) 0 /\
        dimensions result
        = if keepdims then first_subarray_shape axis_flags (dimensions operand)
          else remove_axes axis_flags (dimensions operand)
  end.
Proof.
  intros Hrun.
  assert (Hwith : exists use_maskna,
    (ReduceWith use_maskna operand out operand_dtype result_dtype casting
       axis_flags reorderable skipna keepdims subok assign_identity
       loop masked_loop advanced_masked_loop buffersize s).1 = Ok r).
  { revert Hrun. unfold PyArray_ReduceWrapper, raise, bind, get_heap, ret.
    destruct (negb (is_null wheremask)); [done|].
    destruct (negb (is_null skipwhichna)); [done|].
    match goal with |- context [if ?b then _ else _] => destruct b end.
    - destruct (PyArray_ContainsNA (st_heap s) operand); [done|]. eauto.
    - eauto. }
  destruct Hwith as [use_maskna Hwith].
  apply reduce_with_returns in Hwith as (result & Hcreate & ->).
  destruct out as [o|]; [done|].
  revert Hcreate. unfold PyArray_CreateReduceResult, bind, with_heap, log, ret.
  pose proof (allocate_reduce_result_shape (st_heap s) operand axis_flags
                (Some result_dtype) subok) as Hshape.
  pose proof (allocate_reduce_result_fields (st_heap s) operand axis_flags
                (Some result_dtype) subok) as (_ & _ & Hdata & _).
  destruct (allocate_reduce_result _ _ _ _ _) as [res h1]. simpl in *.
  assert (Hres : dimensions result = dimensions res /\ data result = data res ->
    exists result0,
      finished None result axis_flags keepdims = Return_new result0 /\
      data result0 = Ptr (nextblock (st_heap s)) 0 /\
      dimensions result0
      = if keepdims then first_subarray_shape axis_flags (dimensions operand)
        else remove_axes axis_flags (dimensions operand)).
  { intros [Hd Hp]. unfold finished. destruct keepdims.
    - exists result. rewrite Hd, Hp. done.
    - exists (PyArray_RemoveAxesInPlace result axis_flags). simpl.
      rewrite Hd, Hp, Hshape. split_and!; [done..|].
      apply (remove_axes_first_subarray axis_flags (dimensions operand) 0). }
  destruct (negb skipna && use_maskna); simpl; intros [= <-]; by apply Hres.
Qed.

End Returned.

(** C8, witness: the sum of the 2 x 3 array along axis 1, without an
    output array. *)
Lemma C8_witness :
  run_sum_2x3.1 = Ok (Return_new (Array [2] [8] (Ptr 4 0) float64 None)) /\
  exists result,
    Return_new (Array [2] [8] (Ptr 4 0) float64 None) = Return_new result /\
    data result = Ptr 4 0 /\ dimensions result = [2].
Proof.
  assert (H : run_sum_2x3.1
              = Ok (Return_new (Array [2] [8] (Ptr 4 0) float64 None)))
    by (vm_compute; reflexivity).
  split; [exact H|].
  exact (C8_wrapper_returns NpyIter_MultiNew_reference
    PyArray_AssignArray_reference PyArray_ReduceMaskNAArray_reference
    NpyIter_reference NpyIter_AdvancedNew_reference NpyIter_GetIterSize_reference
    matrix_2x3 None None float64 float64 0%nat [false; true] true false None
    false false (Some assign_identity_zero) (Some (loop_fold Z.add)) None None 0
    (start heap_2x3) _ H).
Defined.

(** With an output array the call returns that array, filled. *)
Example sum_into_output :
  run_sum_2x3_out.1 = Ok (Return_out vector_out) /\
  load (st_heap run_sum_2x3_out.2) (Ptr 3 0) = 6 /\
  load (st_heap run_sum_2x3_out.2) (Ptr 3 8) = 15.
Proof. vm_compute. done. Qed.

(** ** skipna on an operand without mask *)

Section NoMask.

Context
  (NpyIter_MultiNew :
     PyArrayObject -> PyArrayObject -> PyArrayObject -> option (list inner_chunk))
  (PyArray_AssignArray : heap -> PyArrayObject -> PyArrayObject -> option heap)
  (PyArray_ReduceMaskNAArray : heap -> PyArrayObject -> PyArrayObject -> option heap)
  (NpyIter : Type)
  (NpyIter_AdvancedNew :
     PyArrayObject -> PyArrayObject ->
     PyArray_Descr -> PyArray_Descr -> nat -> Z -> option NpyIter)
  (NpyIter_GetIterSize_main : NpyIter -> Z).

Local Abbreviation InitializeReduceResult :=
  (PyArray_InitializeReduceResult NpyIter_MultiNew PyArray_AssignArray).
Local Abbreviation ReduceWrapper :=
  (PyArray_ReduceWrapper NpyIter_MultiNew PyArray_AssignArray
     PyArray_ReduceMaskNAArray NpyIter NpyIter_AdvancedNew
     NpyIter_GetIterSize_main).

Lemma initialize_skipna_without_mask result operand axis_flags reorderable s :
  maskna operand = None ->
  InitializeReduceResult result operand axis_flags reorderable true s
  = InitializeReduceResult result operand axis_flags reorderable false s.
Proof.
  intros Hm. unfold PyArray_InitializeReduceResult, PyArray_HASMASKNA.
  by rewrite Hm.
Qed.

Lemma count_skipna_without_mask operand axis_flags keepdims s :
  maskna operand = None ->
  PyArray_CountReduceItems operand axis_flags true keepdims s
  = PyArray_CountReduceItems operand axis_flags false keepdims s.
Proof.
  intros Hm. unfold PyArray_CountReduceItems, PyArray_HASMASKNA.
  by rewrite Hm.
Qed.

Lemma initialize_values_skipna_without_mask operand result axis_flags reorderable
    assign_identity s :
  maskna operand = None -> ignores_preservena assign_identity ->
  initialize_values NpyIter_MultiNew PyArray_AssignArray operand result
    axis_flags reorderable true assign_identity s
  = initialize_values NpyIter_MultiNew PyArray_AssignArray operand result
      axis_flags reorderable false assign_identity s.
Proof.
  intros Hm Hid. unfold initialize_values. destruct assign_identity as [f|].
  - destruct (negb reorderable && _); [done|].
    unfold bind, call. simpl. by rewrite (Hid result (st_heap s)).
  - unfold bind. by rewrite (initialize_skipna_without_mask _ _ _ _ _ Hm).
Qed.

Lemma reduce_with_skipna_without_mask operand out operand_dtype result_dtype
    casting axis_flags reorderable keepdims subok assign_identity
    loop masked_loop advanced_masked_loop buffersize s :
  maskna operand = None -> ignores_preservena assign_identity ->
  reduce_with NpyIter_MultiNew PyArray_AssignArray PyArray_ReduceMaskNAArray
    NpyIter NpyIter_AdvancedNew NpyIter_GetIterSize_main
    false operand out operand_dtype result_dtype casting axis_flags
    reorderable true keepdims subok assign_identity
    loop masked_loop advanced_masked_loop buffersize s
  = reduce_with NpyIter_MultiNew PyArray_AssignArray PyArray_ReduceMaskNAArray
      NpyIter NpyIter_AdvancedNew NpyIter_GetIterSize_main
      false operand out operand_dtype result_dtype casting axis_flags
      reorderable false keepdims subok assign_identity
      loop masked_loop advanced_masked_loop buffersize s.
Proof.
  intros Hm Hid. unfold reduce_with, bind. simpl.
  destruct (PyArray_CreateReduceResult _ _ _ _ _ _ _ s) as [[result|e|] s1];
    [|done..].
  unfold ret.
  by rewrite (initialize_values_skipna_without_mask _ _ _ _ _ _ Hm Hid).
Qed.

Lemma reduce_wrapper_skipna_without_mask operand out wheremask operand_dtype
    result_dtype casting axis_flags reorderable skipwhichna keepdims subok
    assign_identity loop masked_loop advanced_masked_loop buffersize s :
  maskna operand = None -> ignores_preservena assign_identity ->
  ReduceWrapper operand out wheremask operand_dtype result_dtype casting
    axis_flags reorderable true skipwhichna keepdims subok assign_identity
    loop masked_loop advanced_masked_loop buffersize s
  = ReduceWrapper operand out wheremask operand_dtype result_dtype casting
      axis_flags reorderable false skipwhichna keepdims subok assign_identity
      loop masked_loop advanced_masked_loop buffersize s.
Proof.
  intros Hm Hid. unfold PyArray_ReduceWrapper, PyArray_HASMASKNA.
  rewrite Hm. destruct (negb (is_null wheremask)); [done|].
  destruct (negb (is_null skipwhichna)); [done|].
  unfold bind, ret. simpl.
  by apply reduce_with_skipna_without_mask.
Qed.

(** C10.  For an operand without mask the initializer and
    the element counter do the same with skipna enabled and disabled,
    and so does the wrapper for a reduction without identity.  With an
    identity the wrapper hands [!skipna] to the identity routine as its
    preservena argument, and the two calls do the same whenever the
    routine does not depend on that argument. *)
Theorem C10_skipna_without_mask operand :
  maskna operand = None ->
  (forall result axis_flags reorderable s,
     InitializeReduceResult result operand axis_flags reorderable true s
     = InitializeReduceResult result operand axis_flags reorderable false s) /\
  (forall axis_flags keepdims s,
     PyArray_CountReduceItems operand axis_flags true keepdims s
     = PyArray_CountReduceItems operand axis_flags false keepdims s) /\
  (forall out wheremask operand_dtype result_dtype casting axis_flags
          reorderable skipwhichna keepdims subok
          loop masked_loop advanced_masked_loop buffersize s,
     ReduceWrapper operand out wheremask operand_dtype result_dtype casting
       axis_flags reorderable true skipwhichna keepdims subok None
       loop masked_loop advanced_masked_loop buffersize s
     = ReduceWrapper operand out wheremask operand_dtype result_dtype casting
         axis_flags reorderable false skipwhichna keepdims subok None
         loop masked_loop advanced_masked_loop buffersize s) /\
  (forall (assign_identity : PyArray_AssignReduceIdentityFunc),
     (forall result h,
        assign_identity result true h = assign_identity result false h) ->
     forall out wheremask operand_dtype result_dtype casting axis_flags
            reorderable skipwhichna keepdims subok
            loop masked_loop advanced_masked_loop buffersize s,
       ReduceWrapper operand out wheremask operand_dtype result_dtype casting
         axis_flags reorderable true skipwhichna keepdims subok
         (Some assign_identity)
         loop masked_loop advanced_masked_loop buffersize s
       = ReduceWrapper operand out wheremask operand_dtype result_dtype casting
           axis_flags reorderable false skipwhichna keepdims subok
           (Some assign_identity)
           loop masked_loop advanced_masked_loop buffersize s).
Proof.
  intros Hm. split_and!.
  - intros. by apply initialize_skipna_without_mask.
  - intros. by apply count_skipna_without_mask.
  - intros. by apply reduce_wrapper_skipna_without_mask.
  - intros assign_identity Hid. intros.
    by apply reduce_wrapper_skipna_without_mask.
Qed.

End NoMask.

(** C10, counterexample.  [vector_5_6] has no mask.  Summed into an
    output whose cell is hidden and holds 99, the call with skipna
    disabled leaves the cell hidden and adds to the 99, while the call
    with skipna enabled overwrites and exposes the cell. *)
Lemma C10_counterexample_identity_sees_skipna :
  maskna vector_5_6 = None /\
  (run_sum_5_6 false).1 = Ok (Return_out hidden_scalar_out) /\
  (run_sum_5_6 true).1 = Ok (Return_out hidden_scalar_out) /\
  load (st_heap (run_sum_5_6 false).2) (Ptr 2 0) = 110 /\
  load (st_heap (run_sum_5_6 true).2) (Ptr 2 0) = 11 /\
  load (st_heap (run_sum_5_6 false).2) (Ptr 3 0) = 0 /\
  load (st_heap (run_sum_5_6 true).2) (Ptr 3 0) = 1.
Proof. vm_compute. done. Qed.

(** C10, witness: the maximum of the 2 x 3 array, which has no mask. *)
Lemma C10_witness :
  maskna matrix_2x3 = None /\
  InitializeReduceResult_reference result_2x1 matrix_2x3 [false; true] true true
    (start heap_2x3)
  = InitializeReduceResult_reference result_2x1 matrix_2x3 [false; true] true false
      (start heap_2x3).
Proof.
  split; [reflexivity|].
  exact (proj1 (C10_skipna_without_mask NpyIter_MultiNew_reference
    PyArray_AssignArray_reference PyArray_ReduceMaskNAArray_reference
    NpyIter_reference NpyIter_AdvancedNew_reference NpyIter_GetIterSize_reference
    matrix_2x3 eq_refl) result_2x1 [false; true] true (start heap_2x3)).
Defined.

(** ** An operand with a mask and an output without one *)

Lemma elem_of_coords shape idx :
  idx ∈ coords shape <-> Forall2 (fun i n => 0 <= i < n) idx shape.
Proof.
  revert idx. induction shape as [|n rest IH]; intros idx; simpl.
  - rewrite list_elem_of_singleton. split; [intros ->; constructor|].
    by intros ->%Forall2_nil_inv_r.
  - rewrite list_elem_of_bind. split.
    + intros (c & Hin & Hc). apply elem_of_seqZ in Hc.
      apply list_elem_of_fmap in Hin as (idx' & -> & Hidx').
      constructor; [lia|]. by apply IH.
    + intros H. apply Forall2_cons_inv_r in H as (c & idx' & Hc & Hidx' & ->).
      exists c. split; [|apply elem_of_seqZ; lia].
      apply list_elem_of_fmap. exists idx'. split; [done|]. by apply IH.
Qed.

Lemma multiply_nonzero_positive shape :
  Forall (fun d => 0 <= d) shape -> PyArray_MultiplyList shape ≠ 0 ->
  Forall (fun d => 1 <= d) shape.
Proof.
  induction 1 as [|d rest Hd Hrest IH]; [constructor|].
  unfold PyArray_MultiplyList. simpl. fold (PyArray_MultiplyList rest).
  intros Hprod. constructor.
  - destruct (decide (d = 0)) as [->|]; lia.
  - apply IH. intros H0. apply Hprod. rewrite H0. lia.
Qed.




Section MaskedOperand.

Context
  (NpyIter_MultiNew :
     PyArrayObject -> PyArrayObject -> PyArrayObject -> option (list inner_chunk))
  (PyArray_AssignArray : heap -> PyArrayObject -> PyArrayObject -> option heap)
  (PyArray_ReduceMaskNAArray : heap -> PyArrayObject -> PyArrayObject -> option heap)
  (NpyIter : Type)
  (NpyIter_AdvancedNew :
     PyArrayObject -> PyArrayObject ->
     PyArray_Descr -> PyArray_Descr -> nat -> Z -> option NpyIter)
  (NpyIter_GetIterSize_main : NpyIter -> Z).

Local Abbreviation InitializeReduceResult :=
  (PyArray_InitializeReduceResult NpyIter_MultiNew PyArray_AssignArray).
Local Abbreviation InitializeValues :=
  (initialize_values NpyIter_MultiNew PyArray_AssignArray).
Local Abbreviation ReduceWrapper :=
  (PyArray_ReduceWrapper NpyIter_MultiNew PyArray_AssignArray
     PyArray_ReduceMaskNAArray NpyIter NpyIter_AdvancedNew
     NpyIter_GetIterSize_main).
Local Abbreviation ReduceWith :=
  (reduce_with NpyIter_MultiNew PyArray_AssignArray
     PyArray_ReduceMaskNAArray NpyIter NpyIter_AdvancedNew
     NpyIter_GetIterSize_main).






End MaskedOperand.

Lemma assign_reference_ignores_exposed_mask :
  assign_ignores_exposed_mask PyArray_AssignArray_reference.
Proof.
  intros h dst src Hdst Hna. unfold PyArray_AssignArray_reference.
  rewrite Hna, Hdst. done.
Qed.

(** The where-mask is a parameter kept for future expansion, to be
    passed as NULL: a call that passes one is refused by the guard at
    the start of the wrapper, before the masks are looked at. *)
Example where_mask_refused_first :
  PyArray_ContainsNA heap_NA matrix_NA = true /\
  maskna vector_out = None /\
  (run_max_NA_out (Some matrix_2x3)).1 = Raise RuntimeError_where_mask.
Proof. vm_compute. done. Qed.


(** A fully exposed operand is reduced into the output without mask on
    the unmasked path. *)
Example exposed_operand_unmasked_path :
  PyArray_ContainsNA heap_2x3_exposed matrix_2x3_exposed = false /\
  run_max_exposed_out.1 = Ok (Return_out vector_out) /\
  st_trace run_max_exposed_out.2
  = [Ev_conform_result; Ev_copy_first; Ev_inner_loop Unmasked] /\
  load (st_heap run_max_exposed_out.2) (Ptr 3 0) = 3 /\
  load (st_heap run_max_exposed_out.2) (Ptr 3 8) = 6.
Proof. vm_compute. done. Qed.

(** ** The scattered seeder *)

Lemma load_store_other_block h q v p :
  block q ≠ block p -> load (store h q v) p = load h p.
Proof.
  intros Hne. unfold load, store. simpl.
  rewrite decide_False; [done|]. by intros ->.
Qed.

Lemma stransfer_loop_frame N h dst dst_stride src src_stride p :
  block dst ≠ block p ->
  load (stransfer_loop N h dst dst_stride src src_stride) p = load h p.
Proof.
  revert h dst src. induction N as [|N IH]; intros h dst src Hne; simpl.
  { done. }
  rewrite IH by done. by apply load_store_other_block.
Qed.

Lemma seed_one_value_frame n i h op_d res_d init_d op_namask_d
    op_s init_s op_namask_s countdown p :
  block res_d ≠ block p -> block init_d ≠ block p ->
  load (seed_one_value n i h op_d res_d init_d op_namask_d
          op_s init_s op_namask_s countdown).1.1 p
  = load h p.
Proof.
  intros Hres. revert i init_d op_namask_d.
  induction n as [|n IH]; intros i init_d op_namask_d Hinit; simpl.
  { done. }
  destruct ((load h init_d =? 0) && _); simpl.
  - unfold load. repeat case_decide; subst; done.
  - by apply IH.
Qed.

Lemma mark_run_frame n subcount count h init_d op_namask_d init_s op_namask_s p :
  block init_d ≠ block p ->
  load (mark_run n subcount count h init_d op_namask_d init_s op_namask_s).1.1.2 p
  = load h p.
Proof.
  revert subcount h init_d op_namask_d.
  induction n as [|n IH]; intros subcount h init_d op_namask_d Hinit; simpl.
  { done. }
  destruct ((subcount <? count) && _); simpl; [|done].
  rewrite IH by done. by apply load_store_other_block.
Qed.

Lemma skip_run_block n subcount count h init_d op_namask_d init_s op_namask_s :
  block (skip_run n subcount count h init_d op_namask_d init_s op_namask_s).1.2
  = block init_d.
Proof.
  revert subcount init_d op_namask_d.
  induction n as [|n IH]; intros subcount init_d op_namask_d; simpl; [done|].
  destruct ((subcount <? count) && _); simpl; [|done]. by rewrite IH.
Qed.

Lemma mark_run_block n subcount count h init_d op_namask_d init_s op_namask_s :
  block (mark_run n subcount count h init_d op_namask_d init_s op_namask_s).1.2
  = block init_d.
Proof.
  revert subcount h init_d op_namask_d.
  induction n as [|n IH]; intros subcount h init_d op_namask_d; simpl; [done|].
  destruct ((subcount <? count) && _); simpl; [|done]. by rewrite IH.
Qed.

Lemma seed_runs_frame fuel h op_d res_d init_d op_namask_d
    op_s res_s init_s op_namask_s count countdown st p :
  block res_d ≠ block p -> block init_d ≠ block p ->
  seed_runs fuel h op_d res_d init_d op_namask_d op_s res_s init_s op_namask_s
    count countdown = Some st ->
  load st.1.1 p = load h p.
Proof.
  revert h op_d res_d init_d op_namask_d count countdown.
  induction fuel as [|fuel IH];
    intros h op_d res_d init_d op_namask_d count countdown Hres Hinit; simpl.
  { done. }
  pose proof (skip_run_block (Z.to_nat count) 0 count h init_d op_namask_d
                init_s op_namask_s) as Hb1.
  destruct (skip_run _ _ _ _ _ _ _ _) as [[sub1 init1] mask1]. simpl in Hb1.
  pose proof (mark_run_block (Z.to_nat (count - sub1)) 0 (count - sub1) h
                init1 mask1 init_s op_namask_s) as Hb2.
  pose proof (mark_run_frame (Z.to_nat (count - sub1)) 0 (count - sub1) h
                init1 mask1 init_s op_namask_s p) as Hf2.
  destruct (mark_run _ _ _ _ _ _ _ _) as [[[sub2 h2] init2] mask2].
  simpl in Hb2, Hf2.
  assert (Hh2 : load (stransfer h2 (res_d +ₚ sub1 * res_s) res_s
                        (op_d +ₚ sub1 * op_s) op_s sub2) p = load h p).
  { unfold stransfer. rewrite stransfer_loop_frame by done.
    apply Hf2. congruence. }
  destruct (countdown - sub2 =? 0).
  { intros [= <-]. done. }
  destruct (0 <? count - sub1 - sub2).
  - intros Hrec. apply IH in Hrec; [congruence|done|]. simpl. congruence.
  - intros [= <-]. done.
Qed.

(** The seeding pass stores into the block of the result and the block
    of the flag array only: every other block, the operand's private
    mask included, is left as it was. *)
Lemma seed_chunks_frame chunks h countdown h' countdown' p :
  (forall c, c ∈ chunks ->
     block (dataptr1 c) ≠ block p /\ block (dataptr2 c) ≠ block p) ->
  seed_chunks chunks h countdown = Some (h', countdown') ->
  load h' p = load h p.
Proof.
  revert h countdown. induction chunks as [|c rest IH]; intros h countdown Hblk.
  { by intros [= <- <-]. }
  simpl. destruct (seed_chunk c h countdown) as [[[h1 cd1] fin]|] eqn:Hc; [|done].
  assert (Hh1 : load h1 p = load h p).
  { destruct (Hblk c ltac:(left)) as [Hres Hinit].
    revert Hc. unfold seed_chunk. destruct (strideptr1 c =? 0).
    - intros [= Hc].
      pose proof (seed_one_value_frame (Z.to_nat (countptr c)) 0 h (dataptr0 c)
        (dataptr1 c) (dataptr2 c) (dataptr3 c) (strideptr0 c) (strideptr2 c)
        (strideptr3 c) countdown p Hres Hinit) as Hf.
      by rewrite Hc in Hf.
    - intros Hc. by apply (seed_runs_frame _ _ _ _ _ _ _ _ _ _ _ _ _ p) in Hc. }
  destruct fin.
  - intros [= <- <-]. done.
  - intros Hrest. apply IH in Hrest; [congruence|].
    intros c' Hc'. apply Hblk. by right.
Qed.

(** C1, on scenario C: [[NA, 2], [3, NA]] seeded
    along axis 1.  The seeder succeeds and returns a view with a mask of
    its own; the result cells hold the seeds 2 and 3; but in the mask of
    the view returned the two seeded elements, at (0, 1) and (1, 0), are
    still exposed: the mask is the copy of the operand's mask, bit for
    bit. *)
Theorem C1_seeded_elements_stay_exposed :
  run_seed_NA.1
  = Ok (Array [2; 2] [16; 8] (Ptr 0 0) float64
          (Some (Mask NPY_BOOL (Ptr 4 0) [2; 1]))) /\
  load (st_heap run_seed_NA.2) (Ptr 2 0) = 2 /\
  load (st_heap run_seed_NA.2) (Ptr 2 8) = 3 /\
  NpyMaskValue_IsExposed
    (load (st_heap run_seed_NA.2) (mask_ptr (Mask NPY_BOOL (Ptr 4 0) [2; 1]) [0; 1]))
  = true /\
  NpyMaskValue_IsExposed
    (load (st_heap run_seed_NA.2) (mask_ptr (Mask NPY_BOOL (Ptr 4 0) [2; 1]) [1; 0]))
  = true /\
  map (fun idx => load (st_heap run_seed_NA.2)
                    (mask_ptr (Mask NPY_BOOL (Ptr 4 0) [2; 1]) idx))
    (coords [2; 2])
  = map (fun idx => load heap_NA (mask_ptr (Mask NPY_BOOL (Ptr 1 0) [2; 1]) idx))
      (coords [2; 2]).
Proof. vm_compute. done. Qed.

(** Scenario C as a whole call, for the maximum: the seeds are visited
    again by the main loop, which goes unnoticed because the maximum of
    a value with itself is that value. *)
Example scenario_C_max :
  (run_skipna_NA Z.max).1
  = Ok (Return_new (Array [2] [8] (Ptr 4 0) float64 None)) /\
  st_trace (run_skipna_NA Z.max).2
  = [Ev_allocate_result; Ev_seed_scattered; Ev_inner_loop MaskedLoop] /\
  load (st_heap (run_skipna_NA Z.max).2) (Ptr 4 0) = 2 /\
  load (st_heap (run_skipna_NA Z.max).2) (Ptr 4 8) = 3.
Proof. vm_compute. done. Qed.

(** The same call with a combining function that is not idempotent:
    each row has one exposed element, 2 and 3, and each is combined with
    itself. *)
Example seeds_combined_twice :
  load (st_heap (run_skipna_NA Z.add).2) (Ptr 4 0) = 4 /\
  load (st_heap (run_skipna_NA Z.add).2) (Ptr 4 8) = 6.
Proof. vm_compute. done. Qed.

(** ** The element counter *)

Lemma count_product_spec axis_flags pre rest count :
  count_product (seq (length pre) (length rest)) axis_flags (pre ++ rest) count
  = count * reduced_size_from (length pre) axis_flags rest.
Proof.
  revert pre count. induction rest as [|d rest IH]; intros pre count; simpl.
  { lia. }
  specialize (IH (pre ++ [d])).
  rewrite length_app, Nat.add_1_r, <- app_assoc in IH. simpl in IH.
  assert (intp_at (pre ++ d :: rest) (length pre) = d) as Hd.
  { unfold intp_at. by rewrite list_lookup_middle. }
  destruct (flag_at axis_flags (length pre)); rewrite IH, ?Hd; lia.
Qed.

Lemma count_product_whole axis_flags shape :
  count_product (seq 0 (length shape)) axis_flags shape 1
  = reduced_size axis_flags shape.
Proof.
  pose proof (count_product_spec axis_flags [] shape 1) as H. simpl in H.
  rewrite H. unfold reduced_size. lia.
Qed.

Lemma count_inner_visits n h operand_d result_d operand_stride result_stride :
  count_inner n h operand_d result_d operand_stride result_stride
  = foldl count_step h
      (inner_visits n operand_d result_d operand_stride result_stride).
Proof.
  revert h operand_d result_d.
  induction n as [|n IH]; intros h operand_d result_d; simpl; [done|].
  by rewrite IH.
Qed.

Lemma inner_visits_seqZ n operand_d result_d operand_stride result_stride :
  inner_visits n operand_d result_d operand_stride result_stride
  = (fun i => (operand_d +ₚ i * operand_stride, result_d +ₚ i * result_stride))
      <$> seqZ 0 (Z.of_nat n).
Proof.
  revert operand_d result_d.
  induction n as [|n IH]; intros operand_d result_d; [done|].
  rewrite Nat2Z.inj_succ, seqZ_cons by lia. simpl.
  rewrite !Z.mul_0_l, !ptr_add_0. f_equal.
  rewrite IH. replace (Z.pred (Z.succ (Z.of_nat n))) with (Z.of_nat n) by lia.
  replace (Z.succ 0) with (1 + 0) by lia.
  rewrite <- fmap_add_seqZ, <- list_fmap_compose.
  apply list_fmap_ext. intros j i _. simpl. rewrite !ptr_add_add.
  f_equal; f_equal; lia.
Qed.

Lemma list_bind_assoc {A B C} (f : A -> list B) (g : B -> list C) (l : list A) :
  (l ≫= f) ≫= g = l ≫= (fun x => f x ≫= g).
Proof.
  induction l as [|x l IH]; [done|]. by rewrite !bind_cons, bind_app, IH.
Qed.

Lemma list_fmap_of_bind {A B C} (f : A -> list B) (g : B -> C) (l : list A) :
  g <$> (l ≫= f) = l ≫= (fun x => g <$> f x).
Proof.
  induction l as [|x l IH]; [done|]. by rewrite !bind_cons, fmap_app, IH.
Qed.

Lemma list_fmap_as_bind {A B} (f : A -> B) (l : list A) :
  f <$> l = l ≫= (fun x => [f x]).
Proof.
  induction l as [|x l IH]; [done|]. rewrite bind_cons, fmap_cons.
  simpl. by f_equal.
Qed.

(** The outermost axis of a raw iteration is the last one of its shape. *)
Lemma raw_coords_snoc l n :
  raw_coords (l ++ [n])
  = seqZ 0 n ≫= (fun c => (fun r => r ++ [c]) <$> raw_coords l).
Proof.
  induction l as [|m l IH]; simpl.
  - rewrite app_nil_r. apply list_fmap_as_bind.
  - rewrite IH, list_bind_assoc. apply list_bind_ext; [|done]. intros c.
    rewrite list_fmap_bind, list_fmap_of_bind.
    apply list_bind_ext; [|done]. intros r. simpl.
    by rewrite <- list_fmap_compose.
Qed.

(** Over the reversed shape the raw iteration visits the index vectors
    in C order, each one reversed. *)
Lemma raw_coords_reverse shape :
  raw_coords (reverse shape) = reverse <$> coords shape.
Proof.
  induction shape as [|n rest IH]; [done|].
  rewrite reverse_cons, raw_coords_snoc, IH. simpl.
  rewrite list_fmap_of_bind. apply list_bind_ext; [|done]. intros c.
  rewrite <- !list_fmap_compose. apply list_fmap_ext. intros j idx _. simpl.
  by rewrite reverse_cons.
Qed.

Lemma index_offset_snoc idx strides i s :
  length idx = length strides ->
  index_offset (idx ++ [i]) (strides ++ [s]) = index_offset idx strides + i * s.
Proof.
  revert strides. induction idx as [|j idx IH]; intros [|t strides] Hlen;
    simplify_eq/=; [lia|]. rewrite IH by done. lia.
Qed.

Lemma index_offset_reverse idx strides :
  length idx = length strides ->
  index_offset (reverse idx) (reverse strides) = index_offset idx strides.
Proof.
  revert strides. induction idx as [|j idx IH]; intros [|t strides] Hlen;
    simplify_eq/=; [done|].
  rewrite !reverse_cons, index_offset_snoc by (by rewrite !length_reverse).
  rewrite IH by done. lia.
Qed.

Lemma coords_length shape idx : idx ∈ coords shape -> length idx = length shape.
Proof. intros H%elem_of_coords. by eapply Forall2_length. Qed.

Lemma coords_zero_size shape :
  existsb (Z.eqb 0) shape = true -> coords shape = [].
Proof.
  induction shape as [|n rest IH]; [done|].
  cbn [existsb coords]. destruct (Z.eqb_spec 0 n) as [<-|Hn]; cbn [orb].
  - done.
  - intros H. rewrite (IH H).
    induction (seqZ 0 n) as [|c l IHl]; [done|]. by rewrite bind_cons, IHl.
Qed.

(** The counting pass adds, for every index vector of the operand, the
    mask byte of the element to the counter of its cell. *)
Lemma count_pass_coords h shape operand_data operand_strides
    result_data result_strides :
  length operand_strides = length shape ->
  length result_strides = length shape ->
  (let '(shape_it, operand_strides_it, result_strides_it) :=
     PyArray_PrepareTwoRawArrayIter shape operand_strides result_strides in
   count_pass h shape_it operand_data operand_strides_it
     result_data result_strides_it)
  = foldl count_step h
      ((fun idx => (operand_data +ₚ index_offset idx operand_strides,
                    result_data +ₚ index_offset idx result_strides))
         <$> coords shape).
Proof.
  intros Hlo Hlr. unfold PyArray_PrepareTwoRawArrayIter.
  destruct shape as [|n rest].
  { unfold count_pass, count_step, intp_at. simpl.
    change (Pos.to_nat 1) with 1%nat. simpl. by rewrite !ptr_add_0. }
  assert (Hne : n :: rest ≠ []) by done.
  revert Hlo Hlr Hne. generalize (n :: rest). clear n rest.
  intros shape Hlo Hlr Hne.
  destruct (existsb (Z.eqb 0) shape) eqn:Hzero.
  { rewrite coords_zero_size by done. done. }
  unfold count_pass.
  assert (Hgen : forall shape_it ms rs h0,
    length ms = length shape_it -> length rs = length shape_it ->
    shape_it ≠ [] ->
    foldl (fun hh coord =>
             count_inner (Z.to_nat (intp_at shape_it 0)) hh
               (operand_data +ₚ index_offset coord (tail ms))
               (result_data +ₚ index_offset coord (tail rs))
               (intp_at ms 0) (intp_at rs 0))
      h0 (raw_coords (tail shape_it))
    = foldl count_step h0
        ((fun ridx => (operand_data +ₚ index_offset ridx ms,
                       result_data +ₚ index_offset ridx rs))
           <$> raw_coords shape_it)).
  { intros [|n0 sh] [|m0 ms] [|r0 rs] h0 Hms Hrs Hne'; simplify_eq/=.
    unfold intp_at. simpl. clear Hne' Hms Hrs.
    revert h0. induction (raw_coords sh) as [|outer l IHl]; intros h0; [done|].
    rewrite bind_cons, fmap_app, foldl_app. simpl. rewrite IHl. f_equal.
    rewrite count_inner_visits, inner_visits_seqZ.
    rewrite <- !list_fmap_compose. f_equal.
    assert (Hn0 : Z.of_nat (Z.to_nat n0) = n0 \/ n0 < 0) by lia.
    destruct Hn0 as [->|Hneg].
    - apply list_fmap_ext. intros j i _. simpl. rewrite !ptr_add_add.
      f_equal; f_equal; lia.
    - replace (Z.to_nat n0) with 0%nat by lia.
      assert (seqZ 0 n0 = []) as -> by (unfold seqZ; by replace (Z.to_nat n0) with 0%nat by lia).
      done. }
  rewrite Hgen.
  - rewrite raw_coords_reverse, <- list_fmap_compose. f_equal.
    apply list_fmap_ext. intros j idx Hidx. simpl.
    apply list_elem_of_lookup_2, coords_length in Hidx.
    rewrite !index_offset_reverse by congruence. done.
  - by rewrite !length_reverse.
  - by rewrite !length_reverse.
  - intros Hnil. apply (f_equal length) in Hnil.
    rewrite length_reverse in Hnil. by destruct shape.
Qed.

Lemma sumZ_app {A} (f : A -> Z) l1 l2 :
  sumZ f (l1 ++ l2) = sumZ f l1 + sumZ f l2.
Proof. induction l1 as [|x l1 IH]; simpl; [done|]. rewrite IH. lia. Qed.

Lemma sumZ_ext {A} (f g : A -> Z) l :
  (forall x, x ∈ l -> f x = g x) -> sumZ f l = sumZ g l.
Proof.
  induction l as [|x l IH]; intros H; simpl; [done|].
  rewrite (H x) by (by left). rewrite IH; [done|]. intros y Hy. apply H. by right.
Qed.

Lemma sumZ_fmap {A B} (g : A -> B) (f : B -> Z) l :
  sumZ f (g <$> l) = sumZ (fun x => f (g x)) l.
Proof.
  induction l as [|x l IH]; [done|]. rewrite fmap_cons. simpl. by f_equal.
Qed.

Lemma sumZ_Permutation {A} (f : A -> Z) l1 l2 :
  l1 ≡ₚ l2 -> sumZ f l1 = sumZ f l2.
Proof. induction 1; simpl; lia. Qed.

Lemma sumZ_zero {A} (f : A -> Z) l :
  (forall x, x ∈ l -> f x = 0) -> sumZ f l = 0.
Proof.
  induction l as [|x l IH]; intros H; simpl; [done|].
  rewrite (H x) by (by left). rewrite IH; [done|]. intros y Hy. apply H. by right.
Qed.

Lemma load_store_same h p v : load (store h p v) p = v.
Proof. unfold load, store. simpl. by rewrite decide_True. Qed.

Lemma load_store_other h q v p : p ≠ q -> load (store h q v) p = load h p.
Proof. intros Hne. unfold load, store. simpl. by rewrite decide_False. Qed.

(** What the counting steps leave at an address: outside the block [b]
    of the counters nothing changes; a counter has grown by the mask
    bytes of the visits that land on it. *)
Lemma count_steps_load visits h b p :
  (forall v, v ∈ visits -> block v.2 = b /\ block v.1 ≠ b) ->
  load (foldl count_step h visits) p
  = if decide (block p = b)
    then load h p + sumZ (fun v => if decide (v.2 = p) then load h v.1 else 0) visits
    else load h p.
Proof.
  revert h. induction visits as [|v visits IH]; intros h Hv; simpl.
  { case_decide; lia. }
  destruct (Hv v ltac:(by left)) as [Hres Hop].
  rewrite IH by (intros v' Hv'; apply Hv; by right).
  unfold count_step at 1 2.
  destruct (decide (block p = b)) as [Hp|Hp].
  - rewrite (sumZ_ext _ (fun v' => if decide (v'.2 = p) then load h v'.1 else 0)).
    2:{ intros v' Hv'. case_decide; [|done].
        destruct (Hv v' ltac:(by right)) as [_ Hop'].
        apply load_store_other. intros Heq. rewrite Heq in Hop'. done. }
    destruct (decide (v.2 = p)) as [->|Hne].
    + rewrite load_store_same. lia.
    + rewrite load_store_other by done. lia.
  - apply load_store_other. intros ->. done.
Qed.

Lemma stores_zero_load {A} (g : A -> pointer) (l : list A) h p :
  load (foldl (fun hh x => store hh (g x) 0) h l) p
  = if decide (p ∈ g <$> l) then 0 else load h p.
Proof.
  revert h. induction l as [|x l IH]; intros h.
  { destruct (decide _) as [H|]; [by apply elem_of_nil in H|done]. }
  cbn [foldl]. rewrite IH. rewrite fmap_cons.
  destruct (decide (p ∈ g <$> l)) as [Hin|Hnin].
  - rewrite decide_True; [done|]. by right.
  - destruct (decide (p = g x)) as [->|Hne].
    + rewrite load_store_same, decide_True; [done|]. by left.
    + rewrite load_store_other by done. rewrite decide_False; [done|].
      intros [?|?]%elem_of_cons; done.
Qed.

(** *** Addresses of the cells of an allocated result *)

Lemma index_offset_sum c strides :
  length strides = length c ->
  index_offset c strides
  = sumZ (fun i => intp_at c i * intp_at strides i) (seq 0 (length c)).
Proof.
  revert strides. induction c as [|x c IH]; intros [|s strides] Hlen;
    simplify_eq/=; [done|].
  rewrite <- fmap_S_seq, sumZ_fmap. rewrite IH by done. done.
Qed.

Lemma strides_radix axis_flags stride strides0 shape c l :
  NoDup l ->
  (forall i, i ∈ l -> (i < length strides0)%nat /\ (i < length shape)%nat) ->
  forall pre suf,
    l = pre ++ suf ->
    sumZ (fun i =>
            intp_at c i
            * intp_at (build_strides_shape l axis_flags stride strides0 shape).1 i)
      suf
    = stride * later_product axis_flags shape pre
      * radix_value axis_flags shape c suf.
Proof.
  intros Hnd Hlt pre suf. revert pre.
  induction suf as [|i suf IH]; intros pre Hl; simpl; [lia|].
  destruct (Hlt i) as [Hs Hd]. { rewrite Hl. apply elem_of_app. right. by left. }
  pose proof (build_strides_shape_at l axis_flags stride strides0 shape
                pre i suf Hnd Hl Hs Hd) as Hat. simpl in Hat.
  rewrite (IH (pre ++ [i])) by (by rewrite <- app_assoc).
  rewrite later_product_app. simpl.
  unfold intp_at at 2.
  destruct (flag_at axis_flags i).
  - destruct Hat as [-> _]. simpl. lia.
  - destruct Hat as [-> _]. simpl. lia.
Qed.

Lemma radix_value_injective axis_flags shape c c' l :
  (forall i, i ∈ l ->
     let radix := if flag_at axis_flags i then 1 else intp_at shape i in
     0 <= intp_at c i < radix /\ 0 <= intp_at c' i < radix) ->
  radix_value axis_flags shape c l = radix_value axis_flags shape c' l ->
  forall i, i ∈ l -> intp_at c i = intp_at c' i.
Proof.
  induction l as [|j l IH]; intros Hdig Heq i Hi.
  { by apply elem_of_nil in Hi. }
  simpl in Heq. pose proof (Hdig j ltac:(by left)) as Hj. simpl in Hj.
  assert (Hsplit : intp_at c j = intp_at c' j /\
            radix_value axis_flags shape c l = radix_value axis_flags shape c' l).
  { destruct (flag_at axis_flags j); [lia|].
    set (d := intp_at shape j) in *. set (x := intp_at c j) in *.
    set (y := intp_at c' j) in *.
    set (v := radix_value axis_flags shape c l) in *.
    set (w := radix_value axis_flags shape c' l) in *.
    assert (v = w) by nia. split; [nia|done]. }
  destruct Hsplit as [Hhead Htail].
  apply elem_of_cons in Hi as [->|Hi]; [done|].
  apply IH; [|done|done]. intros k Hk. apply Hdig. by right.
Qed.

Lemma cell_digit axis_flags shape c i :
  c ∈ coords (first_subarray_shape axis_flags shape) ->
  (i < length shape)%nat ->
  0 <= intp_at c i < (if flag_at axis_flags i then 1 else intp_at shape i).
Proof.
  intros Hc Hi. apply elem_of_coords in Hc.
  destruct (lookup_lt_is_Some_2 shape i Hi) as [d Hd].
  assert (Hfs : first_subarray_shape axis_flags shape !! i
                = Some (if flag_at axis_flags i then 1 else d)).
  { unfold first_subarray_shape. rewrite first_subarray_from_lookup, Hd. done. }
  destruct (Forall2_lookup_r _ _ _ _ _ Hc Hfs) as (x & Hx & Hbound).
  unfold intp_at. rewrite Hx, Hd. simpl. done.
Qed.

Section CellAddresses.

Context (h : heap) (arr : PyArrayObject) (axis_flags : list bool)
  (dtype : option PyArray_Descr) (subok : bool).

Let result := (allocate_reduce_result h arr axis_flags dtype subok).1.
Let itemsize :=
  elsize (match dtype with Some d => d | None => PyArray_DTYPE arr end).
Let strideperm :=
  PyArray_CreateSortedStridePerm (PyArray_NDIM arr) (PyArray_SHAPE arr)
    (PyArray_STRIDES arr).

Lemma result_offset_radix c :
  length c = PyArray_NDIM arr ->
  index_offset c (strides result)
  = itemsize * radix_value axis_flags (dimensions arr) c (reverse strideperm).
Proof.
  intros Hlen.
  assert (Hst : strides result
    = (build_strides_shape (reverse strideperm) axis_flags itemsize
         (replicate (PyArray_NDIM arr) 0) (PyArray_DIMS arr)).1).
  { subst result. unfold allocate_reduce_result, PyArray_NewFromDescr.
    fold strideperm. fold itemsize.
    by destruct (build_strides_shape _ _ _ _ _). }
  assert (Hlst : length (strides result) = PyArray_NDIM arr).
  { rewrite Hst.
    destruct (build_strides_shape_length (reverse strideperm) axis_flags itemsize
                (replicate (PyArray_NDIM arr) 0) (PyArray_DIMS arr)) as [-> _].
    by rewrite length_replicate. }
  rewrite index_offset_sum by congruence. rewrite Hlen.
  assert (Hperm : seq 0 (PyArray_NDIM arr) ≡ₚ reverse strideperm).
  { rewrite reverse_Permutation. symmetry. apply sorted_stride_perm_permutation. }
  rewrite (sumZ_Permutation _ _ _ Hperm), Hst.
  rewrite (strides_radix axis_flags itemsize (replicate (PyArray_NDIM arr) 0)
             (PyArray_DIMS arr) c (reverse strideperm)) with (pre := []).
  - simpl. unfold PyArray_DIMS. lia.
  - rewrite reverse_Permutation. apply sorted_stride_perm_NoDup.
  - intros i Hi. rewrite <- Hperm in Hi. apply elem_of_seq in Hi.
    rewrite length_replicate. unfold PyArray_DIMS, PyArray_NDIM in *. lia.
  - done.
Qed.

(** Distinct cells of an allocated result have distinct addresses. *)
Lemma cell_offset_injective c c' :
  itemsize ≠ 0 ->
  c ∈ coords (first_subarray_shape axis_flags (dimensions arr)) ->
  c' ∈ coords (first_subarray_shape axis_flags (dimensions arr)) ->
  index_offset c (strides result) = index_offset c' (strides result) ->
  c = c'.
Proof.
  intros Hsize Hc Hc' Heq.
  assert (Hlen : forall x,
    x ∈ coords (first_subarray_shape axis_flags (dimensions arr)) ->
    length x = PyArray_NDIM arr).
  { intros x Hx. apply coords_length in Hx. rewrite Hx.
    unfold first_subarray_shape. by rewrite first_subarray_from_length. }
  rewrite !result_offset_radix in Heq by auto.
  assert (Hrad : radix_value axis_flags (dimensions arr) c (reverse strideperm)
                 = radix_value axis_flags (dimensions arr) c' (reverse strideperm))
    by nia.
  assert (Hin : forall i, (i < PyArray_NDIM arr)%nat -> i ∈ reverse strideperm).
  { intros i Hi. rewrite reverse_Permutation.
    unfold strideperm. rewrite sorted_stride_perm_permutation.
    apply elem_of_seq. lia. }
  assert (Hlt : forall i, i ∈ reverse strideperm -> (i < PyArray_NDIM arr)%nat).
  { intros i Hi. rewrite reverse_Permutation in Hi.
    unfold strideperm in Hi. rewrite sorted_stride_perm_permutation in Hi.
    apply elem_of_seq in Hi. lia. }
  pose proof (radix_value_injective axis_flags (dimensions arr) c c'
                (reverse strideperm)) as Hinj.
  apply list_eq. intros i.
  destruct (decide (i < PyArray_NDIM arr)%nat) as [Hi|Hi].
  - specialize (Hinj ltac:(intros j Hj; split; apply cell_digit; auto) Hrad i
                  (Hin i Hi)).
    destruct (lookup_lt_is_Some_2 c i ltac:(rewrite Hlen; auto)) as [x Hx].
    destruct (lookup_lt_is_Some_2 c' i ltac:(rewrite Hlen; auto)) as [y Hy].
    unfold intp_at in Hinj. rewrite Hx, Hy in Hinj. simpl in Hinj.
    by rewrite Hx, Hy, Hinj.
  - rewrite !lookup_ge_None_2; [done|rewrite Hlen; auto; lia..].
Qed.

End CellAddresses.

(** *** The cell an element is counted in *)

Lemma zero_reduction_strides_id idims axis_flags strides :
  (forall i, flag_at axis_flags i = true -> (i < length strides)%nat ->
             strides !! i = Some 0) ->
  zero_reduction_strides idims axis_flags strides = strides.
Proof.
  intros H. induction idims as [|i rest IH]; simpl; [done|].
  destruct (flag_at axis_flags i) eqn:Hf; [|done].
  rewrite list_insert_id'; [done|]. auto.
Qed.

Lemma cell_from_coords idim axis_flags shape idx :
  idx ∈ coords shape ->
  cell_from idim axis_flags idx ∈ coords (first_subarray_from idim axis_flags shape).
Proof.
  rewrite !elem_of_coords. intros H. revert idim.
  induction H as [|i n idx shape Hi H IH]; intros idim; simpl; constructor; auto.
  destruct (flag_at axis_flags idim); lia.
Qed.

Lemma cell_from_offset idim axis_flags idx strides :
  (forall j, flag_at axis_flags (idim + j) = true -> intp_at strides j = 0) ->
  index_offset (cell_from idim axis_flags idx) strides = index_offset idx strides.
Proof.
  revert idim strides. induction idx as [|i idx IH]; intros idim stride0 H.
  { done. }
  destruct stride0 as [|s rest]; [done|]. simpl.
  rewrite (IH (S idim) rest).
  2:{ intros j Hj. apply (H (S j)). by replace (idim + S j)%nat with (S idim + j)%nat by lia. }
  destruct (flag_at axis_flags idim) eqn:Hf; [|done].
  specialize (H 0%nat). rewrite Nat.add_0_r in H. specialize (H Hf).
  unfold intp_at in H. simpl in H. subst s. lia.
Qed.

Lemma remove_axes_offset (axis_flags : list bool) (idx strides : list Z) :
  (forall j, axis_flags !! j = Some true -> intp_at strides j = 0) ->
  index_offset (remove_axes axis_flags idx) (remove_axes axis_flags strides)
  = index_offset idx strides.
Proof.
  revert idx strides. induction axis_flags as [|f flags IH]; intros idx stride0 H.
  { by destruct idx, stride0. }
  destruct idx as [|i idx]; [done|].
  destruct stride0 as [|s rest].
  { simpl. by destruct f, (remove_axes flags idx). }
  assert (Hrest : forall j, flags !! j = Some true -> intp_at rest j = 0).
  { intros j Hj. apply (H (S j)). done. }
  simpl. destruct f; simpl; rewrite IH by done; [|done].
  specialize (H 0%nat eq_refl). unfold intp_at in H. simpl in H. subst s. lia.
Qed.

Lemma cell_from_ge axis_flags idx idim :
  (length axis_flags ≤ idim)%nat -> cell_from idim axis_flags idx = idx.
Proof.
  revert idim. induction idx as [|i idx IH]; intros idim H; simpl; [done|].
  rewrite flag_at_ge, IH by lia. done.
Qed.

Lemma remove_axes_cell idim axis_flags idx :
  remove_axes (drop idim axis_flags) (cell_from idim axis_flags idx)
  = remove_axes (drop idim axis_flags) idx.
Proof.
  revert idim. induction idx as [|i idx IH]; intros idim; simpl; [done|].
  destruct (axis_flags !! idim) as [f|] eqn:Hf.
  - rewrite (drop_S _ _ _ Hf).
    assert (flag_at axis_flags idim = f) as ->.
    { unfold flag_at. by rewrite Hf. }
    destruct f; simpl; rewrite IH; done.
  - apply lookup_ge_None in Hf.
    rewrite flag_at_ge, cell_from_ge by lia. done.
Qed.

Lemma coords_remove_axes idim axis_flags shape :
  coords (remove_axes (drop idim axis_flags)
            (first_subarray_from idim axis_flags shape))
  = remove_axes (drop idim axis_flags)
      <$> coords (first_subarray_from idim axis_flags shape).
Proof.
  revert idim. induction shape as [|d rest IH]; intros idim.
  { simpl. by destruct (drop idim axis_flags). }
  cbn [first_subarray_from].
  destruct (axis_flags !! idim) as [f|] eqn:Hf.
  - rewrite (drop_S _ _ _ Hf).
    assert (flag_at axis_flags idim = f) as ->.
    { unfold flag_at. by rewrite Hf. }
    specialize (IH (S idim)). destruct f.
    + cbn [remove_axes]. rewrite IH.
      cbn [coords]. change (seqZ 0 1) with [0]. rewrite bind_cons.
      change ([] ≫= _) with (@nil (list Z)). rewrite app_nil_r.
      rewrite <- list_fmap_compose. done.
    + cbn [remove_axes coords]. rewrite IH.
      rewrite list_fmap_of_bind. apply list_bind_ext; [|done].
      intros c. rewrite <- !list_fmap_compose. done.
  - apply lookup_ge_None in Hf.
    rewrite !drop_ge by lia. cbn [remove_axes].
    generalize (coords ((if flag_at axis_flags idim then 1 else d)
                        :: first_subarray_from (S idim) axis_flags rest)).
    intros l. induction l as [|x l IHl]; [done|]. rewrite fmap_cons, <- IHl.
    by destruct x.
Qed.

Lemma NoDup_coords shape : NoDup (coords shape).
Proof.
  induction shape as [|n rest IH]; simpl.
  { apply NoDup_singleton. }
  apply NoDup_bind.
  - intros c1 c2 idx _ _ H1 H2.
    apply list_elem_of_fmap in H1 as (? & -> & _).
    apply list_elem_of_fmap in H2 as (? & [= ->] & _). done.
  - intros c _. apply NoDup_fmap_2_strong; [|done]. by intros ?? _ _ [= ->].
  - apply NoDup_seqZ.
Qed.

Lemma sumZ_add {A} (f g : A -> Z) l :
  sumZ (fun x => f x + g x) l = sumZ f l + sumZ g l.
Proof. induction l as [|x l IH]; simpl; lia. Qed.

Lemma sumZ_single `{EqDecision A} (a : A) (v : Z) l :
  NoDup l -> a ∈ l -> sumZ (fun c => if decide (a = c) then v else 0) l = v.
Proof.
  induction 1 as [|x l Hx Hnd IH]; intros Ha.
  { by apply elem_of_nil in Ha. }
  simpl. apply elem_of_cons in Ha as [->|Ha].
  - rewrite decide_True by done. rewrite sumZ_zero; [lia|].
    intros c Hc. rewrite decide_False; [done|]. by intros ->.
  - rewrite decide_False by (by intros ->). rewrite IH by done. lia.
Qed.

(** Counting cell by cell and adding up is counting everything. *)
Lemma sumZ_by_cell `{EqDecision B} {A} (g : A -> B) (f : A -> Z) l cells :
  NoDup cells -> (forall x, x ∈ l -> g x ∈ cells) ->
  sumZ (fun c => sumZ (fun x => if decide (g x = c) then f x else 0) l) cells
  = sumZ f l.
Proof.
  intros Hnd. induction l as [|x l IH]; intros Hg; simpl.
  { by apply sumZ_zero. }
  rewrite sumZ_add, IH by (intros y Hy; apply Hg; by right).
  rewrite sumZ_single; [done..|]. apply Hg. by left.
Qed.

(** *** The counting run *)

Lemma allocate_reduce_result_load h arr axis_flags dtype subok p :
  load (allocate_reduce_result h arr axis_flags dtype subok).2 p = load h p.
Proof.
  unfold allocate_reduce_result, PyArray_NewFromDescr.
  by destruct (build_strides_shape _ _ _ _ _).
Qed.

Lemma allocate_reduce_result_descr h arr axis_flags dtype subok :
  descr (allocate_reduce_result h arr axis_flags (Some dtype) subok).1 = dtype.
Proof.
  unfold allocate_reduce_result, PyArray_NewFromDescr.
  by destruct (build_strides_shape _ _ _ _ _).
Qed.

Lemma allocate_reduce_result_flagged h arr axis_flags dtype subok i :
  flag_at axis_flags i = true ->
  intp_at (strides (allocate_reduce_result h arr axis_flags dtype subok).1) i = 0.
Proof.
  intros Hf.
  pose proof (allocate_reduce_result_fields h arr axis_flags dtype subok)
    as (_ & Hlen & _).
  cbv zeta in Hlen. unfold intp_at.
  destruct (decide (i < PyArray_NDIM arr)%nat) as [Hlt|Hge].
  - assert (Hin : i ∈ PyArray_CreateSortedStridePerm (PyArray_NDIM arr)
                        (PyArray_SHAPE arr) (PyArray_STRIDES arr)).
    { rewrite sorted_stride_perm_permutation. apply elem_of_seq. lia. }
    apply list_elem_of_lookup in Hin as [k Hk].
    pose proof (allocate_reduce_result_axis h arr axis_flags dtype subok k i Hk)
      as Hat.
    cbv zeta in Hat. rewrite Hf in Hat. destruct Hat as [_ ->]. done.
  - rewrite lookup_ge_None_2; [done|lia].
Qed.

(** The run of the counter on an operand with a Boolean mask, written
    out: allocate, fill with zeros, one counting step per element. *)
Lemma count_reduce_items_run operand axis_flags keepdims s m :
  maskna operand = Some m ->
  PyArray_HASFIELDS operand = false ->
  maskna_dtype m = NPY_BOOL ->
  length (maskna_strides m) = PyArray_NDIM operand ->
  let result :=
    (allocate_reduce_result (st_heap s) operand axis_flags
       (Some NPY_INTP_descr) false).1 in
  let h1 :=
    (allocate_reduce_result (st_heap s) operand axis_flags
       (Some NPY_INTP_descr) false).2 in
  let h' :=
    foldl count_step (PyArray_AssignZero h1 result)
      (count_visits m result (dimensions operand)) in
  PyArray_CountReduceItems operand axis_flags true keepdims s
  = (Ok (PyArray_Return h'
           (if keepdims then result
            else PyArray_RemoveAxesInPlace result axis_flags)),
     State h' (st_trace s ++ [Ev_allocate_result])).
Proof.
  intros Hm Hfields Hbool Hlen result h1 h'. subst h'.
  pose proof (allocate_reduce_result_fields (st_heap s) operand axis_flags
                (Some NPY_INTP_descr) false) as (_ & Hlst & _).
  cbv zeta in Hlst. fold result in Hlst.
  pose proof (count_pass_coords (PyArray_AssignZero h1 result)
                (dimensions operand) (maskna_data m) (maskna_strides m)
                (data result) (strides result) Hlen Hlst) as Hpass.
  unfold PyArray_CountReduceItems, PyArray_HASMASKNA, PyArray_MASKNA_DTYPE,
    PyArray_MASKNA_STRIDES, PyArray_MASKNA_DATA, PyArray_CreateReduceResult.
  rewrite Hm, Hfields, Hbool. change (negb true || negb true) with false.
  rewrite bool_decide_eq_true_2 by done. cbn [negb].
  unfold bind, with_heap, get_heap, log, ret. cbv iota beta.
  subst result h1.
  destruct (allocate_reduce_result (st_heap s) operand axis_flags
              (Some NPY_INTP_descr) false) as [result h1] eqn:Halloc.
  cbn [fst snd st_heap st_trace] in *.
  rewrite zero_reduction_strides_id.
  2:{ intros i Hi Hlt.
      pose proof (allocate_reduce_result_flagged (st_heap s) operand axis_flags
                    (Some NPY_INTP_descr) false i Hi) as Hz.
      rewrite Halloc in Hz. unfold intp_at in Hz. simpl in Hz.
      destruct (lookup_lt_is_Some_2 _ _ Hlt) as [x Hx].
      rewrite Hx in Hz |- *. simpl in Hz. by subst x. }
  unfold PyArray_STRIDES, PyArray_SHAPE, PyArray_DATA in *. cbn [strides data].
  destruct (PyArray_PrepareTwoRawArrayIter (dimensions operand)
              (maskna_strides m) (strides result))
    as [[shape_it operand_strides_it] result_strides_it].
  cbn [st_heap st_trace]. rewrite Hpass.
  assert (Hsame : Array (dimensions result) (strides result) (data result)
                    (descr result) (maskna result) = result) by by destruct result.
  rewrite Hsame. unfold count_visits, mask_ptr, element_ptr.
  by destruct keepdims.
Qed.

Lemma ptr_add_inj p a b : p +ₚ a = p +ₚ b -> a = b.
Proof. unfold ptr_add. intros [= H]. lia. Qed.

(** Two elements are counted at the same address exactly when they lie
    in the same cell. *)
Lemma cell_address_iff h operand axis_flags idx c :
  idx ∈ coords (dimensions operand) ->
  c ∈ coords (first_subarray_shape axis_flags (dimensions operand)) ->
  let result :=
    (allocate_reduce_result h operand axis_flags (Some NPY_INTP_descr) false).1 in
  element_ptr result idx = element_ptr result c <-> cell_of axis_flags idx = c.
Proof.
  intros Hidx Hc result.
  assert (Hoff : index_offset (cell_of axis_flags idx) (strides result)
                 = index_offset idx (strides result)).
  { apply cell_from_offset. intros j Hj.
    by apply allocate_reduce_result_flagged. }
  unfold element_ptr. split.
  - intros Heq%ptr_add_inj. rewrite <- Hoff in Heq.
    eapply (cell_offset_injective h operand axis_flags (Some NPY_INTP_descr) false);
      [done| |done|exact Heq].
    by apply cell_from_coords.
  - intros <-. by rewrite Hoff.
Qed.

Lemma exposed_at_byte h m idx :
  load h (mask_ptr m idx) = 0 \/ load h (mask_ptr m idx) = 1 ->
  load h (mask_ptr m idx) = exposed_at h m idx.
Proof. unfold exposed_at. by intros [-> | ->]. Qed.

(** What the counting run leaves in the counter of the cell [c]. *)
Lemma count_visits_load h operand axis_flags m c :
  (block (maskna_data m) < nextblock h)%nat ->
  (forall idx, idx ∈ coords (dimensions operand) ->
     load h (mask_ptr m idx) = 0 \/ load h (mask_ptr m idx) = 1) ->
  c ∈ coords (first_subarray_shape axis_flags (dimensions operand)) ->
  let result :=
    (allocate_reduce_result h operand axis_flags (Some NPY_INTP_descr) false).1 in
  let h1 :=
    (allocate_reduce_result h operand axis_flags (Some NPY_INTP_descr) false).2 in
  load (foldl count_step (PyArray_AssignZero h1 result)
          (count_visits m result (dimensions operand)))
    (element_ptr result c)
  = sumZ (fun idx => if decide (cell_of axis_flags idx = c)
                     then exposed_at h m idx else 0)
      (coords (dimensions operand)).
Proof.
  intros Hblock Hbytes Hc result h1.
  pose proof (allocate_reduce_result_fields h operand axis_flags
                (Some NPY_INTP_descr) false) as (_ & _ & Hdata & _).
  cbv zeta in Hdata. fold result in Hdata.
  pose proof (allocate_reduce_result_shape h operand axis_flags
                (Some NPY_INTP_descr) false) as Hshape.
  fold result in Hshape.
  assert (Hres : forall idx, block (element_ptr result idx) = nextblock h).
  { intros idx. unfold element_ptr. by rewrite Hdata. }
  assert (Hmask : forall idx, block (mask_ptr m idx) ≠ nextblock h).
  { intros idx. unfold mask_ptr. simpl. lia. }
  rewrite (count_steps_load _ _ (nextblock h)).
  2:{ intros v (idx & -> & _)%list_elem_of_fmap. simpl. rewrite Hdata. simpl. lia. }
  rewrite decide_True by apply Hres.
  unfold PyArray_AssignZero at 1. rewrite stores_zero_load, decide_True.
  2:{ apply list_elem_of_fmap. exists c. split; [done|]. by rewrite Hshape. }
  unfold count_visits. rewrite sumZ_fmap. simpl.
  rewrite Z.add_0_l. apply sumZ_ext. intros idx Hidx.
  assert (Hbyte : load (PyArray_AssignZero h1 result) (mask_ptr m idx)
                  = exposed_at h m idx).
  { unfold PyArray_AssignZero. rewrite stores_zero_load, decide_False.
    - subst h1. rewrite allocate_reduce_result_load.
      apply exposed_at_byte. auto.
    - intros (c' & Heq & _)%list_elem_of_fmap.
      apply (Hmask idx). rewrite Heq. apply Hres. }
  rewrite Hbyte.
  pose proof (cell_address_iff h operand axis_flags idx c Hidx Hc) as Hiff.
  cbv zeta in Hiff. fold result in Hiff.
  repeat case_decide; tauto.
Qed.

(** The cell of an element of the operand is a cell of the returned
    array. *)
Lemma cell_index_coords axis_flags keepdims shape idx :
  idx ∈ coords shape ->
  cell_index axis_flags keepdims idx
  ∈ coords (if keepdims then first_subarray_shape axis_flags shape
            else remove_axes axis_flags (first_subarray_shape axis_flags shape)).
Proof.
  intros Hidx. unfold cell_index. destruct keepdims.
  - by apply cell_from_coords.
  - pose proof (coords_remove_axes 0 axis_flags shape) as Hc.
    rewrite drop_0 in Hc. unfold first_subarray_shape. rewrite Hc.
    apply list_elem_of_fmap. exists (cell_of axis_flags idx). split.
    + symmetry. apply (remove_axes_cell 0).
    + by apply cell_from_coords.
Qed.

(** C9. Without a mask, or with [skipna] disabled, the counter returns
    one number: the product of the sizes of the flagged axes.  With
    [skipna] on an operand with a mask, a structured element type and a
    mask that is not Boolean are refused, each with its own error, both
    UnimplementedErrors.  On an operand that is not structured and has
    a Boolean mask, allocated before the call, whose bytes are 0 or 1,
    the counter with [skipna] builds an integer array without mask: it
    has the operand's shape with the flagged axes of size 1, or removed
    without [keepdims]; every entry is the number of exposed elements of
    the operand that lie in its cell, and the entries add up to the
    number of exposed elements of the operand.  This array is what the
    counter returns, unless it has no axis left: then the counter
    returns one number, the number of exposed elements of the
    operand. *)
Theorem C9_count_reduce_items
    (operand : PyArrayObject) (axis_flags : list bool)
    (skipna keepdims : bool) (s : state) :
  (negb skipna || negb (PyArray_HASMASKNA operand) = true ->
   PyArray_CountReduceItems operand axis_flags skipna keepdims s
   = (Ok (Count_scalar (reduced_size axis_flags (dimensions operand))), s)) /\
  (skipna = true -> PyArray_HASMASKNA operand = true ->
   PyArray_HASFIELDS operand = true ->
   PyArray_CountReduceItems operand axis_flags skipna keepdims s
   = (Raise RuntimeError_field_NA, s) /\
   classify RuntimeError_field_NA = UnimplementedError) /\
  (forall m,
     skipna = true -> maskna operand = Some m ->
     PyArray_HASFIELDS operand = false ->
     maskna_dtype m ≠ NPY_BOOL ->
     PyArray_CountReduceItems operand axis_flags skipna keepdims s
     = (Raise RuntimeError_multi_NA_count, s) /\
     classify RuntimeError_multi_NA_count = UnimplementedError) /\
  (forall m,
     skipna = true -> maskna operand = Some m ->
     PyArray_HASFIELDS operand = false ->
     maskna_dtype m = NPY_BOOL ->
     length (maskna_strides m) = PyArray_NDIM operand ->
     (block (maskna_data m) < nextblock (st_heap s))%nat ->
     (forall idx, idx ∈ coords (dimensions operand) ->
        load (st_heap s) (mask_ptr m idx) = 0 \/
        load (st_heap s) (mask_ptr m idx) = 1) ->
     exists counts s',
       PyArray_CountReduceItems operand axis_flags skipna keepdims s
       = (Ok (match dimensions counts with
              | [] => Count_scalar
                        (sumZ (exposed_at (st_heap s) m)
                           (coords (dimensions operand)))
              | _ :: _ => Count_array counts
              end), s') /\
       descr counts = NPY_INTP_descr /\ maskna counts = None /\
       dimensions counts
       = (if keepdims then first_subarray_shape axis_flags (dimensions operand)
          else remove_axes axis_flags (dimensions operand)) /\
       (forall c, c ∈ coords (dimensions counts) ->
          load (st_heap s') (element_ptr counts c)
          = sumZ (fun idx =>
                    if decide (cell_index axis_flags keepdims idx = c)
                    then exposed_at (st_heap s) m idx else 0)
              (coords (dimensions operand))) /\
       sumZ (fun c => load (st_heap s') (element_ptr counts c))
         (coords (dimensions counts))
       = sumZ (exposed_at (st_heap s) m) (coords (dimensions operand))).
Proof.
  split_and!.
  { intros Hscalar. unfold PyArray_CountReduceItems. rewrite Hscalar.
    unfold ret, PyArray_NDIM, PyArray_SHAPE, PyArray_DIMS.
    by rewrite count_product_whole. }
  { intros -> Hmask Hfields. unfold PyArray_CountReduceItems.
    by rewrite Hmask, Hfields. }
  { intros m -> Hm Hfields Hbool.
    unfold PyArray_CountReduceItems, PyArray_HASMASKNA, PyArray_MASKNA_DTYPE.
    rewrite Hm, Hfields. by rewrite bool_decide_eq_false_2. }
  intros m -> Hm Hfields Hbool Hlen Hblock Hbytes.
  pose proof (count_reduce_items_run operand axis_flags keepdims s m
                Hm Hfields Hbool Hlen) as Hrun.
  pose proof (fun c => count_visits_load (st_heap s) operand axis_flags m c
                         Hblock Hbytes) as Hload.
  pose proof (fun idx c => cell_address_iff (st_heap s) operand axis_flags idx c)
    as Hiff.
  pose proof (allocate_reduce_result_fields (st_heap s) operand axis_flags
                (Some NPY_INTP_descr) false) as (_ & _ & _ & Hnomask).
  pose proof (allocate_reduce_result_shape (st_heap s) operand axis_flags
                (Some NPY_INTP_descr) false) as Hshape.
  pose proof (allocate_reduce_result_descr (st_heap s) operand axis_flags
                NPY_INTP_descr false) as Hdescr.
  pose proof (allocate_reduce_result_flagged (st_heap s) operand axis_flags
                (Some NPY_INTP_descr) false) as Hflagged.
  cbv zeta in *.
  set (result := (allocate_reduce_result (st_heap s) operand axis_flags
                    (Some NPY_INTP_descr) false).1) in *.
  set (h1 := (allocate_reduce_result (st_heap s) operand axis_flags
                (Some NPY_INTP_descr) false).2) in *.
  set (h' := foldl count_step (PyArray_AssignZero h1 result)
               (count_visits m result (dimensions operand))) in *.
  set (counts := if keepdims then result
                 else PyArray_RemoveAxesInPlace result axis_flags) in *.
  assert (Hdims : dimensions counts
    = if keepdims then first_subarray_shape axis_flags (dimensions operand)
      else remove_axes axis_flags
             (first_subarray_shape axis_flags (dimensions operand))).
  { subst counts. destruct keepdims; simpl; by rewrite Hshape. }
  assert (Hcell : forall c, c ∈ coords (dimensions counts) ->
    load h' (element_ptr counts c)
    = sumZ (fun idx => if decide (cell_index axis_flags keepdims idx = c)
                       then exposed_at (st_heap s) m idx else 0)
        (coords (dimensions operand))).
  { intros c Hc. rewrite Hdims in Hc. subst counts.
    unfold cell_index. destruct keepdims.
    { by apply Hload. }
    pose proof (coords_remove_axes 0 axis_flags (dimensions operand)) as Hco.
    rewrite drop_0 in Hco. unfold first_subarray_shape in Hc.
    rewrite Hco in Hc. apply list_elem_of_fmap in Hc as (c0 & -> & Hc0).
    assert (Hremove : forall idx,
      index_offset (remove_axes axis_flags idx)
        (remove_axes axis_flags (strides result))
      = index_offset idx (strides result)).
    { intros idx. apply remove_axes_offset. intros j Hj. apply Hflagged.
      unfold flag_at. by rewrite Hj. }
    assert (Hptr : element_ptr (PyArray_RemoveAxesInPlace result axis_flags)
                     (remove_axes axis_flags c0) = element_ptr result c0).
    { unfold element_ptr. simpl. by rewrite Hremove. }
    rewrite Hptr, Hload by done. apply sumZ_ext. intros idx Hidx.
    assert (cell_of axis_flags idx = c0
            <-> remove_axes axis_flags idx = remove_axes axis_flags c0)
      as Hsame.
    { split.
      - intros <-. symmetry. apply (remove_axes_cell 0).
      - intros Heq. apply (Hiff idx c0 Hidx Hc0). unfold element_ptr.
        by rewrite <- (Hremove idx), Heq, Hremove. }
    repeat case_decide; tauto. }
  assert (Hsum : sumZ (fun c => load h' (element_ptr counts c))
                   (coords (dimensions counts))
                 = sumZ (exposed_at (st_heap s) m) (coords (dimensions operand))).
  { rewrite (sumZ_ext _ _ _ Hcell).
    apply sumZ_by_cell; [apply NoDup_coords|].
    intros idx Hidx. rewrite Hdims. by apply cell_index_coords. }
  exists counts, (State h' (st_trace s ++ [Ev_allocate_result])).
  split_and!.
  - rewrite Hrun. f_equal. f_equal.
    unfold PyArray_Return, PyArray_NDIM, PyArray_DATA.
    clear Hcell Hdims. destruct (dimensions counts); [|done].
    cbn [length Nat.eqb]. f_equal. rewrite <- Hsum.
    cbn [coords sumZ foldr]. unfold element_ptr. cbn [index_offset].
    rewrite ptr_add_0. lia.
  - subst counts. by destruct keepdims.
  - subst counts. destruct keepdims; simpl; by rewrite Hnomask.
  - rewrite Hdims. destruct keepdims; [done|].
    apply (remove_axes_first_subarray axis_flags (dimensions operand) 0).
  - exact Hcell.
  - exact Hsum.
Qed.

(** C9, counterexample.  With a mask and [skipna] the counter does not
    always return an array.  On a 2 x 2 array of records with a Boolean
    mask it fails with the error for structured element types.  On the
    2 x 2 array [[NA, 2], [3, NA]] counted along both axes, where no
    axis is left, it returns one number, the two exposed elements. *)
Lemma C9_counterexample_no_array_returned :
  (PyArray_HASMASKNA record_NA = true /\
   PyArray_CountReduceItems record_NA [false; true] true false (start heap_NA)
   = (Raise RuntimeError_field_NA, start heap_NA) /\
   classify RuntimeError_field_NA = UnimplementedError) /\
  (PyArray_HASMASKNA matrix_NA = true /\
   (PyArray_CountReduceItems matrix_NA [true; true] true false
      (start heap_NA)).1
   = Ok (Count_scalar 2)).
Proof. vm_compute. done. Qed.

(** C9, witness: the 2 x 2 array with two hidden elements, counted along
    axis 1; each row has one exposed element. *)
Lemma C9_witness :
  exists counts s',
    PyArray_CountReduceItems matrix_NA [false; true] true false (start heap_NA)
    = (Ok (Count_array counts), s') /\
    dimensions counts = [2] /\
    sumZ (fun c => load (st_heap s') (element_ptr counts c))
      (coords (dimensions counts)) = 2.
Proof.
  destruct (proj2 (proj2 (proj2
              (C9_count_reduce_items matrix_NA [false; true] true false
                 (start heap_NA))))
              (Mask NPY_BOOL (Ptr 1 0) [2; 1]))
    as (counts & s' & Hrun & _ & _ & Hdims & _ & Hsum).
  - reflexivity.
  - reflexivity.
  - reflexivity.
  - reflexivity.
  - reflexivity.
  - vm_compute. lia.
  - intros idx Hidx. vm_compute in Hidx.
    repeat (apply elem_of_cons in Hidx as [->|Hidx]; [vm_compute; auto|]).
    by apply elem_of_nil in Hidx.
  - exists counts, s'. split_and!; [|exact Hdims|].
    + rewrite Hrun, Hdims. reflexivity.
    + rewrite Hsum. reflexivity.
Defined.

(** The counts of [matrix_NA] along axis 1: one exposed element in each
    row. *)
Example counted_rows_of_matrix_NA :
  match run_count_NA.1 with
  | Ok (Count_array counts) =>
      dimensions counts = [2] /\
      load (st_heap run_count_NA.2) (element_ptr counts [0]) = 1 /\
      load (st_heap run_count_NA.2) (element_ptr counts [1]) = 1
  | _ => False
  end.
Proof. vm_compute. done. Qed.

(** * Further properties of the code *)

(** ** The output conformer *)

Lemma conform_check_keepdims_ok idims axis_flags shape_out :
  (forall idim, idim ∈ idims -> flag_at axis_flags idim = true ->
     intp_at shape_out idim = 1) ->
  conform_check_keepdims idims axis_flags shape_out = Ok tt.
Proof.
  induction idims as [|idim rest IH]; intros H; simpl; [done|].
  destruct (flag_at axis_flags idim) eqn:Hf; simpl.
  - rewrite (H idim) by (done || by left). simpl. apply IH.
    intros i Hi. apply H. by right.
  - apply IH. intros i Hi. apply H. by right.
Qed.

Lemma conform_check_keepdims_raise idims axis_flags shape_out idim :
  idim ∈ idims -> flag_at axis_flags idim = true -> intp_at shape_out idim ≠ 1 ->
  conform_check_keepdims idims axis_flags shape_out
  = Raise ValueError_reduction_dim_not_one.
Proof.
  induction idims as [|i rest IH]; intros Hin Hf Hne.
  { by apply elem_of_nil in Hin. }
  simpl. destruct (flag_at axis_flags i && negb (intp_at shape_out i =? 1)) eqn:Hc.
  { done. }
  apply elem_of_cons in Hin as [->|Hin]; [|by apply IH].
  rewrite Hf in Hc. simpl in Hc. apply negb_false_iff, Z.eqb_eq in Hc. done.
Qed.

(** X1. With [keepdims] the conformer only validates the output.  An
    output whose number of dimensions differs from the operand's is
    refused; so is one with a flagged axis whose length is not 1; both
    errors are ShapeErrors.  Every other output is handed back as it
    is. *)
Theorem X1_conform_keepdims
    (ndim : nat) (axis_flags : list bool) (out : PyArrayObject) :
  (PyArray_NDIM out ≠ ndim ->
   conform_reduce_result ndim axis_flags out true
   = Raise ValueError_wrong_ndim_keepdims) /\
  (PyArray_NDIM out = ndim ->
   (forall idim, (idim < ndim)%nat -> flag_at axis_flags idim = true ->
      intp_at (dimensions out) idim = 1) ->
   conform_reduce_result ndim axis_flags out true = Ok out) /\
  (PyArray_NDIM out = ndim ->
   forall idim, (idim < ndim)%nat -> flag_at axis_flags idim = true ->
     intp_at (dimensions out) idim ≠ 1 ->
     conform_reduce_result ndim axis_flags out true
     = Raise ValueError_reduction_dim_not_one) /\
  classify ValueError_wrong_ndim_keepdims = ShapeError /\
  classify ValueError_reduction_dim_not_one = ShapeError.
Proof.
  unfold conform_reduce_result. split_and!; [| | |done..].
  - intros Hne. by rewrite (proj2 (Nat.eqb_neq _ _) Hne).
  - intros Heq Hone. rewrite (proj2 (Nat.eqb_eq _ _) Heq). simpl.
    rewrite conform_check_keepdims_ok; [done|].
    intros idim Hin. apply Hone. apply elem_of_seq in Hin. lia.
  - intros Heq idim Hlt Hf Hne. rewrite (proj2 (Nat.eqb_eq _ _) Heq). simpl.
    rewrite (conform_check_keepdims_raise _ _ _ idim); [done| |done..].
    apply elem_of_seq. lia.
Qed.

Lemma remove_axes_step {A} axis_flags a (x : A) (l : list A) :
  remove_axes (drop a axis_flags) (x :: l)
  = if flag_at axis_flags a then remove_axes (drop (S a) axis_flags) l
    else x :: remove_axes (drop (S a) axis_flags) l.
Proof.
  destruct (axis_flags !! a) as [f|] eqn:Hf.
  - rewrite (drop_S _ _ _ Hf). unfold flag_at. rewrite Hf. done.
  - apply lookup_ge_None in Hf. rewrite flag_at_ge by lia.
    rewrite !drop_ge by lia. simpl. by destruct l.
Qed.

Lemma conform_build_spec n a axis_flags strides_out shape_out ndim_out i :
  (i ≤ ndim_out)%nat ->
  let u := length (filter (λ idim, flag_at axis_flags idim = false) (seq a n)) in
  match conform_build (seq a n) axis_flags strides_out shape_out ndim_out i with
  | Ok (strides, shape, j) =>
      (i + u ≤ ndim_out)%nat /\ j = (i + u)%nat /\
      length strides = n /\ length shape = n /\
      remove_axes (drop a axis_flags) strides = intp_at strides_out <$> seq i u /\
      remove_axes (drop a axis_flags) shape = intp_at shape_out <$> seq i u /\
      (forall k, (k < n)%nat -> flag_at axis_flags (a + k) = true ->
         strides !! k = Some 0 /\ shape !! k = Some 1)
  | Raise e => e = ValueError_not_enough_dims /\ (ndim_out < i + u)%nat
  | Hangs => False
  end.
Proof.
  revert a i. induction n as [|n IH]; intros a i Hi; simpl.
  { split_and!; try done; try lia; try (by destruct (drop a axis_flags));
      try (intros k Hk; lia). }
  destruct (flag_at axis_flags a) eqn:Hf.
  - rewrite filter_cons_False by congruence.
    specialize (IH (S a) i Hi). simpl in IH.
    destruct (conform_build (seq (S a) n) _ _ _ _ i) as [[[st sh] j]|e|];
      [|done..].
    destruct IH as (Hle & -> & Hls & Hlsh & Hst & Hsh & Hflag).
    split_and!; try done; simpl; try lia.
    + by rewrite remove_axes_step, Hf.
    + by rewrite remove_axes_step, Hf.
    + intros [|k] Hk Hfk; [done|].
      apply Hflag; [lia|]. rewrite <- Hfk. f_equal. lia.
  - rewrite filter_cons_True by done. simpl.
    case_decide as Hout.
    { split; [done|]. lia. }
    specialize (IH (S a) (S i) ltac:(lia)). simpl in IH.
    destruct (conform_build (seq (S a) n) _ _ _ _ (S i)) as [[[st sh] j]|e|];
      [| |done].
    + destruct IH as (Hle & -> & Hls & Hlsh & Hst & Hsh & Hflag).
      split_and!; simpl; try lia.
      * by rewrite remove_axes_step, Hf, Hst.
      * by rewrite remove_axes_step, Hf, Hsh.
      * intros [|k] Hk Hfk.
        { rewrite Nat.add_0_r in Hfk. congruence. }
        apply Hflag; [lia|]. rewrite <- Hfk. f_equal. lia.
    + destruct IH as [-> Hlt]. split; [done|]. lia.
Qed.

Lemma conform_mask_strides_spec n a axis_flags strides_out i :
  let u := length (filter (λ idim, flag_at axis_flags idim = false) (seq a n)) in
  let strides := conform_mask_strides (seq a n) axis_flags strides_out i in
  length strides = n /\
  remove_axes (drop a axis_flags) strides = intp_at strides_out <$> seq i u /\
  (forall k, (k < n)%nat -> flag_at axis_flags (a + k) = true ->
     strides !! k = Some 0).
Proof.
  revert a i. induction n as [|n IH]; intros a i; simpl.
  { split_and!; try done; try (by destruct (drop a axis_flags));
      try (intros k Hk; lia). }
  destruct (flag_at axis_flags a) eqn:Hf.
  - rewrite filter_cons_False by congruence.
    destruct (IH (S a) i) as (Hl & Hst & Hflag).
    split_and!; simpl; try lia.
    + by rewrite remove_axes_step, Hf.
    + intros [|k] Hk Hfk; [done|].
      apply Hflag; [lia|]. rewrite <- Hfk. f_equal. lia.
  - rewrite filter_cons_True by done. simpl.
    destruct (IH (S a) (S i)) as (Hl & Hst & Hflag).
    split_and!; simpl; try lia.
    + by rewrite remove_axes_step, Hf, Hst.
    + intros [|k] Hk Hfk.
      { rewrite Nat.add_0_r in Hfk. congruence. }
      apply Hflag; [lia|]. rewrite <- Hfk. f_equal. lia.
Qed.

Lemma intp_at_seq (l : list Z) : intp_at l <$> seq 0 (length l) = l.
Proof.
  induction l as [|x l IH] using rev_ind; [done|].
  rewrite length_app, Nat.add_1_r, seq_S, fmap_app. simpl.
  f_equal.
  - etrans; [|exact IH]. apply list_fmap_ext. intros k i Hi.
    apply list_elem_of_lookup_2, elem_of_seq in Hi.
    unfold intp_at. rewrite lookup_app_l by lia. done.
  - unfold intp_at. by rewrite list_lookup_middle.
Qed.

(** X2. Without [keepdims] the conformer counts dimensions: the output
    must have exactly as many dimensions as the operand has axes that
    are not flagged.  With fewer the call fails for want of dimensions,
    with more it fails for too many (both ShapeErrors); with exactly
    that many it returns a view that has the operand's number of
    dimensions. *)
Theorem X2_conform_dimension_count
    (ndim : nat) (axis_flags : list bool) (out : PyArrayObject) :
  let free := unflagged_axes ndim axis_flags in
  ((PyArray_NDIM out < free)%nat ->
   conform_reduce_result ndim axis_flags out false
   = Raise ValueError_not_enough_dims) /\
  ((free < PyArray_NDIM out)%nat ->
   conform_reduce_result ndim axis_flags out false
   = Raise ValueError_too_many_dims) /\
  (PyArray_NDIM out = free ->
   exists view,
     conform_reduce_result ndim axis_flags out false = Ok view /\
     PyArray_NDIM view = ndim) /\
  classify ValueError_not_enough_dims = ShapeError /\
  classify ValueError_too_many_dims = ShapeError.
Proof.
  intros free. unfold conform_reduce_result.
  pose proof (conform_build_spec ndim 0 axis_flags (PyArray_STRIDES out)
                (PyArray_DIMS out) (PyArray_NDIM out) 0 ltac:(lia)) as H.
  cbv zeta in H. fold (unflagged_axes ndim axis_flags) in H. fold free in H.
  destruct (conform_build _ _ _ _ _ _) as [[[st sh] j]|e|]; [| |done].
  - destruct H as (Hle & -> & Hls & Hlsh & _). simpl in *.
    split_and!; [lia| | |done..].
    + intros Hlt. by rewrite (proj2 (Nat.eqb_neq _ _)) by lia.
    + intros Heq. rewrite (proj2 (Nat.eqb_eq _ _)) by lia. simpl.
      eexists. split; [done|]. done.
  - destruct H as [-> Hlt]. simpl in Hlt.
    split_and!; [done|lia|lia|done..].
Qed.

(** X3. The view made by the conformer without [keepdims] is the output
    with an axis of length 1 and stride 0 put in at every flagged place:
    removing the flagged axes from the view gives the output back, and
    the element (and mask byte) of the view at an index is the element
    of the output at that index without its flagged coordinates. *)
Theorem X3_conform_view
    (ndim : nat) (axis_flags : list bool) (out view : PyArrayObject) :
  conform_reduce_result ndim axis_flags out false = Ok view ->
  length (strides out) = PyArray_NDIM out ->
  match maskna out with
  | Some m => length (maskna_strides m) = PyArray_NDIM out
  | None => True
  end ->
  PyArray_NDIM view = ndim /\ length (strides view) = ndim /\
  (forall idim, (idim < ndim)%nat -> flag_at axis_flags idim = true ->
     dimensions view !! idim = Some 1 /\ strides view !! idim = Some 0) /\
  PyArray_RemoveAxesInPlace view axis_flags = out /\
  (forall idx,
     element_ptr view idx = element_ptr out (remove_axes axis_flags idx)) /\
  match maskna view, maskna out with
  | Some mv, Some m =>
      forall idx, mask_ptr mv idx = mask_ptr m (remove_axes axis_flags idx)
  | None, None => True
  | _, _ => False
  end.
Proof.
  unfold conform_reduce_result.
  pose proof (conform_build_spec ndim 0 axis_flags (PyArray_STRIDES out)
                (PyArray_DIMS out) (PyArray_NDIM out) 0 ltac:(lia)) as H.
  cbv zeta in H.
  destruct (conform_build _ _ _ _ _ _) as [[[st sh] j]|e|]; [|done..].
  destruct H as (Hle & -> & Hls & Hlsh & Hst & Hsh & Hflag).
  simpl in Hle, Hflag. rewrite drop_0 in Hst, Hsh.
  destruct (negb _) eqn:Hj; [done|].
  apply negb_false_iff, Nat.eqb_eq in Hj. simpl in Hj.
  intros [= <-] Hlen Hmask. rewrite Hj in Hst, Hsh.
  unfold PyArray_STRIDES, PyArray_DIMS, PyArray_NDIM in *.
  rewrite <- Hlen in Hst. rewrite intp_at_seq in Hst, Hsh.
  assert (Hzero : forall (l : list Z) j,
    (forall k, (k < ndim)%nat -> flag_at axis_flags k = true -> l !! k = Some 0) ->
    length l = ndim ->
    axis_flags !! j = Some true -> intp_at l j = 0).
  { intros l k Hl Hll Hk. unfold intp_at.
    destruct (decide (k < ndim)%nat).
    - rewrite (Hl k); [done..|]. unfold flag_at. by rewrite Hk.
    - rewrite lookup_ge_None_2; [done|lia]. }
  simpl. split_and!; [done..| | | |].
  - intros idim Hlt Hf. destruct (Hflag idim Hlt Hf). done.
  - unfold PyArray_RemoveAxesInPlace. simpl. rewrite Hst, Hsh.
    destruct out as [d s p ds [m|]]; simpl in *; [|done].
    pose proof (conform_mask_strides_spec ndim 0 axis_flags (maskna_strides m) 0)
      as (_ & Hms & _).
    rewrite drop_0 in Hms. rewrite Hms.
    rewrite Hj, <- Hmask, intp_at_seq.
    by destruct m.
  - intros idx. unfold element_ptr. simpl. rewrite <- Hst.
    rewrite remove_axes_offset; [done|].
    intros k Hk. apply (Hzero st k); [|done..].
    intros i Hi Hf. by destruct (Hflag i Hi Hf).
  - destruct (maskna out) as [m|]; [|done].
    intros idx. unfold mask_ptr. simpl.
    pose proof (conform_mask_strides_spec ndim 0 axis_flags (maskna_strides m) 0)
      as (Hml & Hms & Hmf).
    rewrite drop_0 in Hms. simpl in Hmf.
    rewrite <- (remove_axes_offset axis_flags idx
                  (conform_mask_strides (seq 0 ndim) axis_flags (maskna_strides m) 0)).
    + rewrite Hms, Hj, <- Hmask, intp_at_seq. done.
    + intros k Hk. apply (Hzero _ k); [|done..].
      intros i Hi Hf. by apply Hmf.
Qed.

(** X3, witness: a two-element output conformed to a 2 x 2 operand
    reduced along axis 1. *)
Lemma X3_witness :
  conform_reduce_result 2 [false; true] vector_out false
  = Ok (Array [2; 1] [8; 0] (Ptr 3 0) float64 None) /\
  PyArray_RemoveAxesInPlace (Array [2; 1] [8; 0] (Ptr 3 0) float64 None)
    [false; true] = vector_out.
Proof.
  split; [reflexivity|].
  exact (proj1 (proj2 (proj2 (proj2
    (X3_conform_view 2 [false; true] vector_out
       (Array [2; 1] [8; 0] (Ptr 3 0) float64 None) eq_refl eq_refl I))))).
Defined.

(** ** The result factory *)

Lemma conform_reduce_result_shares ndim axis_flags out keepdims result :
  conform_reduce_result ndim axis_flags out keepdims = Ok result ->
  data result = data out /\ descr result = descr out /\
  match maskna out, maskna result with
  | Some m, Some mv =>
      maskna_data mv = maskna_data m /\ maskna_dtype mv = maskna_dtype m
  | None, None => True
  | _, _ => False
  end.
Proof.
  unfold conform_reduce_result. destruct keepdims.
  - destruct (negb _); [done|].
    destruct (conform_check_keepdims _ _ _); [|done..].
    intros [= <-]. by destruct (maskna out).
  - destruct (conform_build _ _ _ _ _ _) as [[[st sh] n]|e|]; [|done..].
    destruct (negb _); [done|]. intros [= <-]. simpl.
    by destruct (maskna out).
Qed.

(** X4. An output supplied by the caller is viewed, never copied or
    reallocated: whatever the outcome, the heap is left as it was.  When
    a mask is needed and the output has none, the call fails with the
    needs-a-mask error, a MaskSupportError, before the output is looked
    at.  A result that is returned shares the data, the element type
    and the mask data of the output, and has a mask whenever one was
    needed. *)
Theorem X4_create_result_views_output
    (operand out : PyArrayObject) (dtype : option PyArray_Descr)
    (axis_flags : list bool) (need_namask keepdims subok : bool) (s : state) :
  let r := PyArray_CreateReduceResult operand (Some out) dtype axis_flags
             need_namask keepdims subok s in
  st_heap r.2 = st_heap s /\
  (need_namask = true -> maskna out = None ->
   r = (Raise ValueError_needs_namask, s)) /\
  classify ValueError_needs_namask = MaskSupportError /\
  (forall result, r.1 = Ok result ->
     st_trace r.2 = st_trace s ++ [Ev_conform_result] /\
     data result = data out /\ descr result = descr out /\
     (need_namask = true -> PyArray_HASMASKNA result = true) /\
     match maskna out, maskna result with
     | Some m, Some mv =>
         maskna_data mv = maskna_data m /\ maskna_dtype mv = maskna_dtype m
     | None, None => True
     | _, _ => False
     end).
Proof.
  unfold PyArray_CreateReduceResult, bind, lift_outcome, log, ret, raise,
    PyArray_HASMASKNA.
  split_and!.
  - destruct (need_namask && _); [done|].
    by destruct (conform_reduce_result _ _ _ _).
  - intros -> ->. done.
  - done.
  - intros result. destruct (need_namask && _) eqn:Hneed; [done|].
    destruct (conform_reduce_result _ _ _ _) as [v|e|] eqn:Hc; [|done..].
    simpl. intros [= <-].
    apply conform_reduce_result_shares in Hc as (Hd & Hdt & Hm).
    split_and!; [done..| |done].
    intros ->. simpl in Hneed.
    destruct (maskna out), (maskna v); done.
Qed.

Lemma allocate_mask_load h arr p :
  (block p < nextblock h)%nat ->
  load (PyArray_AllocateMaskNA h arr).2 p = load h p.
Proof.
  intros Hp. unfold PyArray_AllocateMaskNA. simpl.
  set (own := Mask NPY_BOOL (Ptr (nextblock h) 0) (c_strides (dimensions arr) 1)).
  generalize (coords (dimensions arr)). intros l.
  assert (Hgen : forall h1, load h1 p = load h p ->
    load (foldl (fun hh idx =>
                   store hh (mask_ptr own idx)
                     match maskna arr with
                     | Some m => load h (mask_ptr m idx)
                     | None => 1
                     end) h1 l) p = load h p).
  { induction l as [|idx l IH]; intros h1 Hh1; [done|]. simpl. apply IH.
    rewrite load_store_other_block; [done|]. simpl. lia. }
  by apply Hgen.
Qed.

(** X5. Without an output the factory allocates: the result lies in a
    fresh block, has the operand's number of dimensions whatever
    [keepdims] says, with length 1 on the flagged axes, and has a mask
    exactly when one is needed.  Nothing that was allocated before the
    call is written to. *)
Theorem X5_create_result_allocates
    (operand : PyArrayObject) (dtype : option PyArray_Descr)
    (axis_flags : list bool) (need_namask keepdims subok : bool) (s : state) :
  exists result s',
    PyArray_CreateReduceResult operand None dtype axis_flags
      need_namask keepdims subok s = (Ok result, s') /\
    data result = Ptr (nextblock (st_heap s)) 0 /\
    dimensions result = first_subarray_shape axis_flags (dimensions operand) /\
    PyArray_NDIM result = PyArray_NDIM operand /\
    PyArray_HASMASKNA result = need_namask /\
    (forall m, maskna result = Some m ->
       maskna_data m = Ptr (S (nextblock (st_heap s))) 0) /\
    (forall p, (block p < nextblock (st_heap s))%nat ->
       load (st_heap s') p = load (st_heap s) p).
Proof.
  unfold PyArray_CreateReduceResult, bind, with_heap, log, ret.
  pose proof (allocate_reduce_result_fields (st_heap s) operand axis_flags
                dtype subok) as (Hnd & _ & Hdata & Hnomask).
  pose proof (allocate_reduce_result_shape (st_heap s) operand axis_flags
                dtype subok) as Hshape.
  pose proof (allocate_reduce_result_load (st_heap s) operand axis_flags
                dtype subok) as Hload.
  assert (Hnext : nextblock (allocate_reduce_result (st_heap s) operand
                               axis_flags dtype subok).2
                  = S (nextblock (st_heap s))).
  { unfold allocate_reduce_result, PyArray_NewFromDescr.
    by destruct (build_strides_shape _ _ _ _ _). }
  cbv zeta in *.
  destruct (allocate_reduce_result _ _ _ _ _) as [res h1]. simpl in *.
  destruct need_namask; simpl.
  - pose proof (fun p => allocate_mask_load h1 res p) as Hmask.
    unfold PyArray_AllocateMaskNA in *. simpl in *.
    eexists _, _. split; [done|]. simpl.
    unfold PyArray_HASMASKNA, PyArray_NDIM in *. simpl.
    split_and!; try done.
    + intros m [= <-]. simpl. by rewrite Hnext.
    + intros p Hp. rewrite Hmask by lia. apply Hload.
  - eexists _, _. split; [done|]. simpl.
    unfold PyArray_HASMASKNA. rewrite Hnomask.
    split_and!; try done.
Qed.

(** ** The element counter leaves the arrays alone *)

Lemma count_inner_frame n h operand_d result_d operand_stride result_stride p :
  block result_d ≠ block p ->
  load (count_inner n h operand_d result_d operand_stride result_stride) p
  = load h p.
Proof.
  revert h operand_d result_d.
  induction n as [|n IH]; intros h operand_d result_d Hne; simpl; [done|].
  rewrite IH by done. by apply load_store_other_block.
Qed.

Lemma count_pass_frame h shape_it operand_data operand_strides_it
    result_data result_strides_it p :
  block result_data ≠ block p ->
  load (count_pass h shape_it operand_data operand_strides_it
          result_data result_strides_it) p
  = load h p.
Proof.
  intros Hne. unfold count_pass.
  generalize (raw_coords (tail shape_it)). intros l. revert h.
  induction l as [|c l IH]; intros h; [done|]. simpl.
  rewrite IH. by apply count_inner_frame.
Qed.

Lemma assign_zero_frame h arr p :
  block (data arr) ≠ block p -> load (PyArray_AssignZero h arr) p = load h p.
Proof.
  intros Hne. unfold PyArray_AssignZero.
  generalize (coords (dimensions arr)). intros l. revert h.
  induction l as [|c l IH]; intros h; [done|]. simpl.
  rewrite IH. by apply load_store_other_block.
Qed.

(** X6. The element counter never writes to memory that was allocated
    before the call, whatever it returns: the operand, its mask and
    every other array hold what they held. *)
Theorem X6_count_reduce_items_frame
    (operand : PyArrayObject) (axis_flags : list bool)
    (skipna keepdims : bool) (s : state) (p : pointer) :
  (block p < nextblock (st_heap s))%nat ->
  load (st_heap (PyArray_CountReduceItems operand axis_flags skipna keepdims s).2) p
  = load (st_heap s) p.
Proof.
  intros Hp. unfold PyArray_CountReduceItems.
  destruct (negb skipna || negb (PyArray_HASMASKNA operand)); [done|].
  destruct (PyArray_HASFIELDS operand); [done|].
  destruct (negb (bool_decide _)); [done|].
  unfold PyArray_CreateReduceResult, bind, with_heap, log, ret. simpl.
  pose proof (allocate_reduce_result_fields (st_heap s) operand axis_flags
                (Some NPY_INTP_descr) false) as (_ & _ & Hdata & _).
  pose proof (allocate_reduce_result_load (st_heap s) operand axis_flags
                (Some NPY_INTP_descr) false p) as Hload.
  cbv zeta in Hdata.
  destruct (allocate_reduce_result _ _ _ _ _) as [res h1]. simpl in *.
  destruct (PyArray_PrepareTwoRawArrayIter _ _ _)
    as [[shape_it operand_strides_it] result_strides_it].
  assert (Hne : block (data res) ≠ block p) by (rewrite Hdata; simpl; lia).
  assert (Hh : load (count_pass (PyArray_AssignZero h1 res) shape_it
                       (PyArray_MASKNA_DATA operand) operand_strides_it
                       (data res) result_strides_it) p = load (st_heap s) p).
  { rewrite count_pass_frame, assign_zero_frame by done. done. }
  by destruct (negb keepdims).
Qed.

(** X6, witness: the data of [matrix_NA] after its elements have been
    counted. *)
Lemma X6_witness :
  load (st_heap run_count_NA.2) (Ptr 0 8) = load heap_NA (Ptr 0 8).
Proof.
  apply (X6_count_reduce_items_frame matrix_NA [false; true] true false
           (start heap_NA) (Ptr 0 8)).
  vm_compute. lia.
Defined.

(** ** Counts with and without hidden elements *)

Lemma sumZ_bind {A B} (f : B -> Z) (g : A -> list B) (l : list A) :
  sumZ f (l ≫= g) = sumZ (fun x => sumZ f (g x)) l.
Proof.
  induction l as [|x l IH]; [done|]. rewrite bind_cons, sumZ_app, IH. done.
Qed.

Lemma sumZ_const {A} (v : Z) (l : list A) :
  sumZ (fun _ => v) l = v * Z.of_nat (length l).
Proof. induction l as [|x l IH]; simpl; lia. Qed.

Lemma sumZ_le {A} (f g : A -> Z) (l : list A) :
  (forall x, x ∈ l -> f x <= g x) -> sumZ f l <= sumZ g l.
Proof.
  induction l as [|x l IH]; intros H; simpl; [lia|].
  pose proof (H x ltac:(by left)).
  assert (sumZ f l <= sumZ g l) by (apply IH; intros y Hy; apply H; by right).
  lia.
Qed.

Lemma sumZ_nonneg {A} (f : A -> Z) (l : list A) :
  (forall x, x ∈ l -> 0 <= f x) -> 0 <= sumZ f l.
Proof.
  induction l as [|x l IH]; intros H; simpl; [lia|].
  pose proof (H x ltac:(by left)).
  assert (0 <= sumZ f l) by (apply IH; intros y Hy; apply H; by right).
  lia.
Qed.

(** The number of elements of an array that lie in one cell is the
    product of the lengths of the flagged axes. *)
Lemma cell_size idim axis_flags shape c :
  Forall (fun d => 0 <= d) shape ->
  c ∈ coords (first_subarray_from idim axis_flags shape) ->
  sumZ (fun idx => if decide (cell_from idim axis_flags idx = c) then 1 else 0)
    (coords shape)
  = reduced_size_from idim axis_flags shape.
Proof.
  intros Hpos. revert idim c.
  induction Hpos as [|d rest Hd Hpos IH]; intros idim c Hc.
  { simpl in *. apply list_elem_of_singleton in Hc as ->. done. }
  apply elem_of_coords in Hc. cbn [first_subarray_from] in Hc.
  apply Forall2_cons_inv_r in Hc as (c0 & c' & Hc0 & Hc' & ->).
  apply elem_of_coords in Hc'. specialize (IH (S idim) c' Hc').
  cbn [coords reduced_size_from]. rewrite sumZ_bind.
  cbv beta in Hc0.
  destruct (flag_at axis_flags idim) eqn:Hf.
  - assert (c0 = 0) as -> by lia.
    rewrite (sumZ_ext _ (fun _ => reduced_size_from (S idim) axis_flags rest)).
    + rewrite sumZ_const, length_seqZ, Z2Nat.id by lia. lia.
    + intros i _. rewrite sumZ_fmap. rewrite <- IH. apply sumZ_ext.
      intros idx _. cbn [cell_from]. rewrite Hf.
      repeat case_decide; simplify_eq; done.
  - rewrite (sumZ_ext _ (fun i => if decide (c0 = i)
                                  then reduced_size_from (S idim) axis_flags rest
                                  else 0)).
    + rewrite sumZ_single; [lia|apply NoDup_seqZ|]. apply elem_of_seqZ. lia.
    + intros i _. rewrite sumZ_fmap. case_decide as Hi.
      * subst i. rewrite <- IH. apply sumZ_ext. intros idx _.
        cbn [cell_from]. rewrite Hf. repeat case_decide; simplify_eq; done.
      * apply sumZ_zero. intros idx _. cbn [cell_from]. rewrite Hf.
        case_decide; simplify_eq; done.
Qed.

Lemma contains_NA_exposed h operand m idx :
  maskna operand = Some m ->
  PyArray_ContainsNA h operand = false ->
  idx ∈ coords (dimensions operand) ->
  exposed_at h m idx = 1.
Proof.
  unfold PyArray_ContainsNA, exposed_at. intros -> Hna Hidx.
  destruct (NpyMaskValue_IsExposed (load h (mask_ptr m idx))) eqn:He; [done|].
  assert (existsb (fun idx => negb (NpyMaskValue_IsExposed (load h (mask_ptr m idx))))
            (coords (dimensions operand)) = true); [|congruence].
  apply existsb_exists. exists idx. split; [by apply list_elem_of_In|].
  by rewrite He.
Qed.

(** X7. The counts of an operand with a Boolean mask lie between 0 and
    the number the counter returns with [skipna] disabled, the product
    of the lengths of the flagged axes; when the operand holds no hidden
    element every count is that number.  The counts are the entries of
    the array the counter returns, or, when that array has no axis left,
    the one number it returns in its place. *)
Theorem X7_counts_within_reduced_size
    (operand : PyArrayObject) (axis_flags : list bool) (keepdims : bool)
    (s : state) (m : MaskNA) :
  maskna operand = Some m ->
  PyArray_HASFIELDS operand = false ->
  maskna_dtype m = NPY_BOOL ->
  length (maskna_strides m) = PyArray_NDIM operand ->
  (block (maskna_data m) < nextblock (st_heap s))%nat ->
  (forall idx, idx ∈ coords (dimensions operand) ->
     load (st_heap s) (mask_ptr m idx) = 0 \/
     load (st_heap s) (mask_ptr m idx) = 1) ->
  Forall (fun d => 0 <= d) (dimensions operand) ->
  exists n counts s',
    PyArray_CountReduceItems operand axis_flags false keepdims s
    = (Ok (Count_scalar n), s) /\
    PyArray_CountReduceItems operand axis_flags true keepdims s
    = (Ok (match dimensions counts with
           | [] => Count_scalar (load (st_heap s') (element_ptr counts []))
           | _ :: _ => Count_array counts
           end), s') /\
    forall c,
      c ∈ coords (dimensions counts) ->
      let entry := load (st_heap s') (element_ptr counts c) in
      0 <= entry <= n /\
      (PyArray_ContainsNA (st_heap s) operand = false -> entry = n).
Proof.
  intros Hm Hfields Hbool Hlen Hblock Hbytes Hpos.
  exists (reduced_size axis_flags (dimensions operand)).
  pose proof (count_reduce_items_run operand axis_flags keepdims s m
                Hm Hfields Hbool Hlen) as Hrun.
  pose proof (fun c => count_visits_load (st_heap s) operand axis_flags m c
                         Hblock Hbytes) as Hload.
  pose proof (allocate_reduce_result_flagged (st_heap s) operand axis_flags
                (Some NPY_INTP_descr) false) as Hflagged.
  pose proof (allocate_reduce_result_shape (st_heap s) operand axis_flags
                (Some NPY_INTP_descr) false) as Hshape.
  cbv zeta in *.
  set (result := (allocate_reduce_result (st_heap s) operand axis_flags
                    (Some NPY_INTP_descr) false).1) in *.
  set (h' := foldl count_step _ _) in *.
  set (counts := if keepdims then result
                 else PyArray_RemoveAxesInPlace result axis_flags) in *.
  exists counts, (State h' (st_trace s ++ [Ev_allocate_result])).
  split_and!.
  { unfold PyArray_CountReduceItems, ret. simpl.
    unfold PyArray_NDIM, PyArray_SHAPE. by rewrite count_product_whole. }
  { rewrite Hrun. f_equal. f_equal.
    unfold PyArray_Return, PyArray_NDIM, PyArray_DATA.
    destruct (dimensions counts); [|done].
    cbn [length Nat.eqb st_heap]. unfold element_ptr. cbn [index_offset].
    by rewrite ptr_add_0. }
  intros c Hc. cbn [st_heap].
  assert (exists c0,
            c0 ∈ coords (first_subarray_shape axis_flags (dimensions operand)) /\
            element_ptr counts c = element_ptr result c0) as (c0 & Hc0 & ->).
  { subst counts. destruct keepdims.
    - exists c. by rewrite Hshape in Hc.
    - cbn [PyArray_RemoveAxesInPlace dimensions] in Hc. rewrite Hshape in Hc.
      pose proof (coords_remove_axes 0 axis_flags (dimensions operand)) as Hco.
      rewrite drop_0 in Hco. unfold first_subarray_shape in Hc.
      rewrite Hco in Hc. apply list_elem_of_fmap in Hc as (c0 & -> & Hc0).
      exists c0. split; [done|]. unfold element_ptr. simpl.
      rewrite remove_axes_offset; [done|]. intros j Hj. apply Hflagged.
      unfold flag_at. by rewrite Hj. }
  rewrite Hload by done.
  pose proof (cell_size 0 axis_flags (dimensions operand) c0 Hpos Hc0) as Hsize.
  fold (reduced_size axis_flags (dimensions operand)) in Hsize.
  fold (cell_of axis_flags) in Hsize.
  split; [split|].
  - apply sumZ_nonneg. intros idx _. unfold exposed_at.
    destruct (decide _); [|lia]. destruct (NpyMaskValue_IsExposed _); lia.
  - rewrite <- Hsize. apply sumZ_le. intros idx _.
    unfold exposed_at, cell_of. cbv beta.
    destruct (decide _); [|lia]. destruct (NpyMaskValue_IsExposed _); lia.
  - intros Hna. rewrite <- Hsize. apply sumZ_ext. intros idx Hidx.
    unfold cell_of. destruct (decide _); [|done].
    by apply (contains_NA_exposed _ operand).
Qed.

(** X7, witness: [matrix_2x3_exposed], whose mask hides nothing, counted
    along axis 1: both counts are 3. *)
Lemma X7_witness :
  exists counts s',
    PyArray_CountReduceItems matrix_2x3_exposed [false; true] true false
      (start heap_2x3_exposed) = (Ok (Count_array counts), s') /\
    load (st_heap s') (element_ptr counts [0]) = 3 /\
    load (st_heap s') (element_ptr counts [1]) = 3.
Proof.
  destruct (X7_counts_within_reduced_size matrix_2x3_exposed [false; true] false
              (start heap_2x3_exposed) (Mask NPY_BOOL (Ptr 1 0) [3; 1]))
    as (n & counts & s' & Hscalar & Hrun & Hcells).
  - reflexivity.
  - reflexivity.
  - reflexivity.
  - reflexivity.
  - vm_compute. lia.
  - intros idx Hidx. vm_compute in Hidx.
    repeat (apply elem_of_cons in Hidx as [->|Hidx]; [vm_compute; auto|]).
    by apply elem_of_nil in Hidx.
  - repeat constructor; lia.
  - injection Hscalar as <-.
    assert (Hdims : dimensions counts = [2]).
    { destruct (dimensions counts) eqn:Hd; [discriminate Hrun|].
      injection Hrun as <- _. vm_compute in Hd. by rewrite <- Hd. }
    rewrite Hdims in Hrun, Hcells.
    exists counts, s'. split; [exact Hrun|].
    split.
    + apply (Hcells [0]); [|reflexivity].
      vm_compute. apply elem_of_cons. by left.
    + apply (Hcells [1]); [|reflexivity].
      vm_compute. apply elem_of_cons. right. apply elem_of_cons. by left.
Defined.

(** ** The cells of a freshly allocated result *)

Lemma radix_value_bound axis_flags shape c l :
  (forall i, i ∈ l ->
     0 <= intp_at c i < (if flag_at axis_flags i then 1 else intp_at shape i)) ->
  0 <= radix_value axis_flags shape c l < later_product axis_flags shape l.
Proof.
  induction l as [|j l IH]; intros Hdig; simpl; [lia|].
  pose proof (Hdig j ltac:(by left)) as Hj.
  assert (0 <= radix_value axis_flags shape c l < later_product axis_flags shape l)
    as Hl by (apply IH; intros i Hi; apply Hdig; by right).
  destruct (flag_at axis_flags j); nia.
Qed.

Lemma later_product_Permutation axis_flags shape l1 l2 :
  l1 ≡ₚ l2 -> later_product axis_flags shape l1 = later_product axis_flags shape l2.
Proof. induction 1; simpl; lia. Qed.

Lemma later_product_seq axis_flags pre rest :
  later_product axis_flags (pre ++ rest) (seq (length pre) (length rest))
  = PyArray_MultiplyList (first_subarray_from (length pre) axis_flags rest).
Proof.
  revert pre. induction rest as [|d rest IH]; intros pre; [done|].
  cbn [length seq later_product first_subarray_from].
  specialize (IH (pre ++ [d])).
  rewrite length_app, Nat.add_1_r, <- app_assoc in IH. simpl in IH.
  rewrite IH. unfold intp_at. rewrite list_lookup_middle by done. done.
Qed.

(** X8. The cells of a freshly allocated result tile its block: every
    cell lies at a multiple of the element size below the number of
    cells, counted from the start of the block, and no two cells lie at
    the same place. *)
Theorem X8_allocated_cells_tile_block
    (h : heap) (arr : PyArrayObject) (axis_flags : list bool)
    (dtype : option PyArray_Descr) (subok : bool) :
  let result := (allocate_reduce_result h arr axis_flags dtype subok).1 in
  let itemsize :=
    elsize (match dtype with Some d => d | None => PyArray_DTYPE arr end) in
  (forall c, c ∈ coords (dimensions result) ->
     exists k, 0 <= k < PyArray_SIZE result /\
       element_ptr result c = Ptr (nextblock h) (itemsize * k)) /\
  (itemsize ≠ 0 ->
   forall c c', c ∈ coords (dimensions result) -> c' ∈ coords (dimensions result) ->
     element_ptr result c = element_ptr result c' -> c = c').
Proof.
  intros result itemsize.
  pose proof (allocate_reduce_result_fields h arr axis_flags dtype subok)
    as (_ & _ & Hdata & _).
  pose proof (allocate_reduce_result_shape h arr axis_flags dtype subok) as Hshape.
  cbv zeta in Hdata. fold result in Hdata, Hshape.
  set (strideperm := PyArray_CreateSortedStridePerm (PyArray_NDIM arr)
                       (PyArray_SHAPE arr) (PyArray_STRIDES arr)).
  assert (Hperm : reverse strideperm ≡ₚ seq 0 (PyArray_NDIM arr)).
  { rewrite reverse_Permutation. apply sorted_stride_perm_permutation. }
  split.
  - intros c Hc. rewrite Hshape in Hc.
    exists (radix_value axis_flags (dimensions arr) c (reverse strideperm)).
    split.
    + unfold PyArray_SIZE. rewrite Hshape.
      pose proof (later_product_seq axis_flags [] (dimensions arr)) as Hprod.
      simpl in Hprod. fold (first_subarray_shape axis_flags (dimensions arr)) in Hprod.
      rewrite <- Hprod.
      rewrite <- (later_product_Permutation _ _ _ _ Hperm).
      apply radix_value_bound. intros i Hi. apply cell_digit; [done|].
      rewrite Hperm in Hi. apply elem_of_seq in Hi. unfold PyArray_NDIM in Hi. lia.
    + unfold element_ptr. rewrite Hdata. unfold ptr_add. simpl. f_equal.
      subst result itemsize strideperm.
      rewrite (result_offset_radix h arr axis_flags dtype subok c); [done|].
      apply coords_length in Hc. rewrite Hc.
      unfold first_subarray_shape. by rewrite first_subarray_from_length.
  - intros Hsize c c' Hc Hc' Heq. rewrite Hshape in Hc, Hc'.
    apply (cell_offset_injective h arr axis_flags dtype subok c c'); [done..|].
    unfold element_ptr in Heq. by apply ptr_add_inj in Heq.
Qed.

(** ** The first elements and the remainder, one flagged axis *)

Lemma bind_app_Permutation {A B} (f g : A -> list B) (l : list A) :
  l ≫= (fun x => f x ++ g x) ≡ₚ (l ≫= f) ++ (l ≫= g).
Proof.
  induction l as [|x l IH]; [done|]. rewrite !bind_cons, IH.
  rewrite <- !app_assoc. apply Permutation_app_head.
  rewrite !app_assoc. apply Permutation_app_tail. apply Permutation_app_comm.
Qed.

Lemma bind_Permutation_ext {A B} (f g : A -> list B) (l : list A) :
  (forall x, f x ≡ₚ g x) -> l ≫= f ≡ₚ l ≫= g.
Proof.
  intros H. induction l as [|x l IH]; [done|]. by rewrite !bind_cons, IH, H.
Qed.

(** The index vectors of an array, split along axis [k]: those with
    coordinate 0 on that axis, and the others. *)
Lemma coords_split k shape :
  (k < length shape)%nat -> 1 <= intp_at shape k ->
  coords shape
  ≡ₚ coords (<[k := 1]> shape)
     ++ (bump_index k <$> coords (<[k := intp_at shape k - 1]> shape)).
Proof.
  revert k. induction shape as [|d rest IH]; intros k Hk Hd; [simpl in Hk; lia|].
  destruct k as [|k].
  - unfold intp_at in *. simpl in *.
    rewrite (seqZ_cons 0 d) by lia. change (seqZ 0 1) with [0].
    rewrite !bind_cons. change ([] ≫= _) with (@nil (list Z)).
    rewrite app_nil_r. apply Permutation_app_head.
    replace (Z.succ 0) with (1 + 0) by lia. replace (Z.pred d) with (d - 1) by lia.
    rewrite <- fmap_add_seqZ, list_fmap_bind, list_fmap_of_bind.
    apply reflexive_eq, list_bind_ext; [|done].
    intros i. rewrite <- list_fmap_compose. apply list_fmap_ext.
    intros j idx _. unfold bump_index, intp_at. simpl. f_equal. lia.
  - assert (Hrest : intp_at (d :: rest) (S k) = intp_at rest k) by done.
    rewrite Hrest in *. simpl in Hk. cbn [coords].
    change (<[S k := ?x]> (d :: rest)) with (d :: <[k := x]> rest).
    cbn [coords].
    rewrite (bind_Permutation_ext _
               (fun i => ((i ::.) <$> coords (<[k := 1]> rest))
                         ++ ((i ::.) <$> (bump_index k
                               <$> coords (<[k := intp_at rest k - 1]> rest))))).
    2:{ intros i. rewrite <- fmap_app. apply fmap_Permutation, IH; [lia|done]. }
    rewrite bind_app_Permutation. apply Permutation_app_head.
    rewrite list_fmap_of_bind. apply reflexive_eq, list_bind_ext; [|done].
    intros i. rewrite <- !list_fmap_compose. apply list_fmap_ext.
    intros j idx _. done.
Qed.

Lemma index_offset_bump k idx strides :
  (k < length idx)%nat -> (k < length strides)%nat ->
  index_offset (bump_index k idx) strides
  = index_offset idx strides + intp_at strides k.
Proof.
  revert idx strides. induction k as [|k IH]; intros [|i idx] [|st strides] Hi Hs;
    simpl in *; try lia.
  - unfold bump_index, intp_at. simpl. lia.
  - specialize (IH idx strides ltac:(lia) ltac:(lia)).
    unfold bump_index, intp_at in *. simpl in *. lia.
Qed.

Section Partition.

Context
  (NpyIter_MultiNew :
     PyArrayObject -> PyArrayObject -> PyArrayObject -> option (list inner_chunk))
  (PyArray_AssignArray : heap -> PyArrayObject -> PyArrayObject -> option heap).

(** X9. One flagged axis, skipna disabled or no mask.  When the
    initializer succeeds, the first elements it has handed to
    PyArray_AssignArray and the elements of the view it returns are,
    together, the elements of the operand, each of them once: the main
    loop, run on the view, meets every element that was not copied and
    none that was. *)
Theorem X9_first_elements_and_remainder
    (result operand : PyArrayObject) (axis_flags : list bool)
    (reorderable skipna : bool) (s : state) (k : nat)
    (view : PyArrayObject) (skip_first_count : Z) :
  skipna = false \/ maskna operand = None ->
  flagged_axes (PyArray_NDIM operand) axis_flags = 1%nat ->
  (k < PyArray_NDIM operand)%nat -> flag_at axis_flags k = true ->
  length (strides operand) = PyArray_NDIM operand ->
  Forall (fun d => 0 <= d) (dimensions operand) ->
  (PyArray_InitializeReduceResult NpyIter_MultiNew PyArray_AssignArray
     result operand axis_flags reorderable skipna s).1
  = Ok (view, skip_first_count) ->
  let first := first_subarray axis_flags operand in
  PyArray_InitializeReduceResult NpyIter_MultiNew PyArray_AssignArray
    result operand axis_flags reorderable skipna s
  = after_copy PyArray_AssignArray s result first (view, 0) /\
  skip_first_count = 0 /\
  element_ptr operand <$> coords (dimensions operand)
  ≡ₚ (element_ptr first <$> coords (dimensions first))
     ++ (element_ptr view <$> coords (dimensions view)).
Proof.
  intros Hmask Hone Hk Hf Hlen Hpos Hrun first.
  assert (Hfilter : filter (fun idim => flag_at axis_flags idim = true)
                      (seq 0 (PyArray_NDIM operand)) = [k])
    by by apply filter_flagged_singleton.
  assert (Hform : PyArray_InitializeReduceResult NpyIter_MultiNew
                    PyArray_AssignArray result operand axis_flags reorderable skipna s
                  = if PyArray_SIZE operand =? 0 then (Raise ValueError_zero_size, s)
                    else after_copy PyArray_AssignArray s result first
                           (drop_first_element k operand, 0)).
  { unfold PyArray_InitializeReduceResult.
    rewrite check_nonreorderable_axes_spec, decide_True by lia.
    rewrite andb_false_r.
    assert (negb skipna || negb (PyArray_HASMASKNA operand) = true) as ->.
    { unfold PyArray_HASMASKNA. destruct Hmask as [->| ->]; [done|].
      by rewrite orb_true_r. }
    unfold raise. destruct (PyArray_SIZE operand =? 0); [done|].
    unfold PyArray_View.
    rewrite (copy_first_and_shrink_spec PyArray_AssignArray result operand operand).
    by rewrite Hfilter. }
  rewrite Hform in Hrun |- *.
  destruct (PyArray_SIZE operand =? 0) eqn:Hsize; [done|].
  apply Z.eqb_neq in Hsize.
  unfold after_copy in Hrun |- *.
  destruct (PyArray_AssignArray (st_heap s) result first) as [h'|]; [|done].
  simpl in Hrun. injection Hrun as <- <-.
  split_and!; [done..|].
  pose proof (multiply_nonzero_positive (dimensions operand) Hpos Hsize) as Hge.
  unfold PyArray_NDIM in *.
  assert (Hdk : 1 <= intp_at (dimensions operand) k).
  { destruct (lookup_lt_is_Some_2 _ _ Hk) as [d Hd].
    unfold intp_at. rewrite Hd. simpl.
    by apply (Forall_lookup_1 _ _ _ _ Hge Hd). }
  assert (Hfirst : dimensions first = <[k := 1]> (dimensions operand)).
  { subst first. unfold first_subarray, with_shape. simpl.
    rewrite <- (shorten_first_subarray axis_flags (dimensions operand) k 1 Hfilter).
    symmetry. apply list_insert_id. unfold first_subarray_shape.
    rewrite first_subarray_from_lookup. simpl. rewrite Hf.
    destruct (lookup_lt_is_Some_2 _ _ Hk) as [d ->]. done. }
  rewrite (coords_split k (dimensions operand) Hk Hdk), fmap_app, Hfirst.
  apply Permutation_app_head. apply reflexive_eq.
  unfold drop_first_element. simpl. rewrite <- list_fmap_compose.
  apply list_fmap_ext. intros j idx Hidx. simpl.
  apply list_elem_of_lookup_2, coords_length in Hidx.
  rewrite length_insert in Hidx.
  unfold element_ptr. simpl.
  rewrite index_offset_bump by lia. by rewrite ptr_add_add, Z.add_comm.
Qed.

End Partition.

(** X9, witness: the 2 x 3 array reduced along axis 1: the first column
    is copied and the view holds the other two. *)
Lemma X9_witness :
  element_ptr matrix_2x3 <$> coords [2; 3]
  ≡ₚ [Ptr 0 0; Ptr 0 24] ++ [Ptr 0 8; Ptr 0 16; Ptr 0 32; Ptr 0 40].
Proof.
  exact (proj2 (proj2
    (X9_first_elements_and_remainder NpyIter_MultiNew_reference
       PyArray_AssignArray_reference result_2x1 matrix_2x3 [false; true]
       true false (start heap_2x3) 1%nat
       (drop_first_element 1 matrix_2x3) 0
       (or_introl eq_refl) eq_refl ltac:(vm_compute; lia) eq_refl eq_refl
       ltac:(repeat constructor; lia) eq_refl))).
Defined.

(** ** The phases of a call *)

Section Phases.

Context
  (NpyIter_MultiNew :
     PyArrayObject -> PyArrayObject -> PyArrayObject -> option (list inner_chunk))
  (PyArray_AssignArray : heap -> PyArrayObject -> PyArrayObject -> option heap)
  (PyArray_ReduceMaskNAArray : heap -> PyArrayObject -> PyArrayObject -> option heap)
  (NpyIter : Type)
  (NpyIter_AdvancedNew :
     PyArrayObject -> PyArrayObject ->
     PyArray_Descr -> PyArray_Descr -> nat -> Z -> option NpyIter)
  (NpyIter_GetIterSize_main : NpyIter -> Z).




End Phases.


Section PhasesOfACall.

Context
  (NpyIter_MultiNew :
     PyArrayObject -> PyArrayObject -> PyArrayObject -> option (list inner_chunk))
  (PyArray_AssignArray : heap -> PyArrayObject -> PyArrayObject -> option heap)
  (PyArray_ReduceMaskNAArray : heap -> PyArrayObject -> PyArrayObject -> option heap)
  (NpyIter : Type)
  (NpyIter_AdvancedNew :
     PyArrayObject -> PyArrayObject ->
     PyArray_Descr -> PyArray_Descr -> nat -> Z -> option NpyIter)
  (NpyIter_GetIterSize_main : NpyIter -> Z).

Local Abbreviation ReduceWrapper :=
  (PyArray_ReduceWrapper NpyIter_MultiNew PyArray_AssignArray
     PyArray_ReduceMaskNAArray NpyIter NpyIter_AdvancedNew
     NpyIter_GetIterSize_main).
Local Abbreviation ReduceWith :=
  (reduce_with NpyIter_MultiNew PyArray_AssignArray
     PyArray_ReduceMaskNAArray NpyIter NpyIter_AdvancedNew
     NpyIter_GetIterSize_main).







End PhasesOfACall.

(** ** The scattered seeder, element by element *)

Lemma store_same_contents h1 h2 p v :
  same_contents h1 h2 -> same_contents (store h1 p v) (store h2 p v).
Proof.
  intros H q. destruct (decide (q = p)) as [->|Hne].
  - by rewrite !load_store_same.
  - by rewrite !load_store_other.
Qed.

Lemma seedable_same_contents h1 h2 v :
  same_contents h1 h2 -> seedable h1 v = seedable h2 v.
Proof. intros H. unfold seedable. by rewrite !(H _). Qed.

Lemma seed_step_same_contents h1 h2 v :
  same_contents h1 h2 -> same_contents (seed_step h1 v) (seed_step h2 v).
Proof.
  intros H. unfold seed_step. rewrite (seedable_same_contents h1 h2 v H).
  destruct (seedable h2 v); [|done]. rewrite (H (v_op v)).
  by do 2 apply store_same_contents.
Qed.

Lemma seed_steps_same_contents vs h1 h2 :
  same_contents h1 h2 ->
  same_contents (foldl seed_step h1 vs) (foldl seed_step h2 vs).
Proof.
  revert h1 h2. induction vs as [|v vs IH]; intros h1 h2 H; [done|].
  simpl. by apply IH, seed_step_same_contents.
Qed.

Lemma zero_flags_same_contents flags h1 h2 :
  same_contents h1 h2 -> zero_flags flags h1 = zero_flags flags h2.
Proof.
  intros H. unfold zero_flags. f_equal. f_equal.
  apply list_filter_iff. intros p. by rewrite (H p).
Qed.

Lemma stransfer_loop_same_contents N h1 h2 dst dst_stride src src_stride :
  same_contents h1 h2 ->
  same_contents (stransfer_loop N h1 dst dst_stride src src_stride)
    (stransfer_loop N h2 dst dst_stride src src_stride).
Proof.
  revert h1 h2 dst src. induction N as [|N IH]; intros h1 h2 dst src H; [done|].
  simpl. apply IH. rewrite (H src). by apply store_same_contents.
Qed.

Lemma mark_flags_same_contents k h1 h2 init_d init_s :
  same_contents h1 h2 ->
  same_contents (mark_flags k h1 init_d init_s) (mark_flags k h2 init_d init_s).
Proof.
  revert h1 h2 init_d. induction k as [|k IH]; intros h1 h2 init_d H; [done|].
  simpl. by apply IH, store_same_contents.
Qed.

Lemma mark_flags_load k h init_d init_s p :
  block p ≠ block init_d -> load (mark_flags k h init_d init_s) p = load h p.
Proof.
  revert h init_d. induction k as [|k IH]; intros h init_d Hne; [done|].
  simpl. rewrite IH by done. apply load_store_other. by intros ->.
Qed.

(** Stores into different blocks can be swapped. *)
Lemma store_mark_flags k h init_d init_s p v :
  block p ≠ block init_d ->
  same_contents (store (mark_flags k h init_d init_s) p v)
    (mark_flags k (store h p v) init_d init_s).
Proof.
  revert h init_d. induction k as [|k IH]; intros h init_d Hne; [done|].
  simpl. etrans; [apply IH; done|]. apply mark_flags_same_contents.
  intros q. unfold load, store. simpl.
  repeat case_decide; subst; done.
Qed.

Lemma filter_ext_elem {A} (P1 P2 : A -> Prop)
    `{!forall x, Decision (P1 x), !forall x, Decision (P2 x)} (l : list A) :
  (forall x, x ∈ l -> P1 x <-> P2 x) -> filter P1 l = filter P2 l.
Proof.
  induction l as [|x l IH]; intros Hext; [done|].
  assert (filter P1 l = filter P2 l) as Hl
    by (apply IH; intros y Hy; apply Hext; by right).
  pose proof (Hext x ltac:(by left)) as Hx.
  destruct (decide (P1 x)) as [Hp|Hp].
  - rewrite !filter_cons_True; [by rewrite Hl|by apply Hx|done].
  - rewrite !filter_cons_False; [done| |done].
    intros Hq. by apply Hp, Hx.
Qed.

Section SeedingSteps.

Context (flags : list pointer) (bR bI : nat).
Hypothesis flags_NoDup : NoDup flags.
Hypothesis flags_block : forall p, p ∈ flags -> block p = bI.
Hypothesis blocks_differ : bR ≠ bI.

Local Abbreviation ok := (visit_ok flags bR bI).

(** Every flag is 0 or 1. *)
Let flags01 (h : heap) : Prop :=
  forall p, p ∈ flags -> load h p = 0 \/ load h p = 1.

Lemma seed_step_frame h v p :
  ok v -> block p ≠ bR -> block p ≠ bI ->
  load (seed_step h v) p = load h p.
Proof.
  intros (_ & Hi & Hr & _) HpR HpI. unfold seed_step.
  destruct (seedable h v); [|done].
  rewrite !load_store_other; [done|intros ->; congruence..].
Qed.

Lemma seed_steps_frame vs h p :
  Forall ok vs -> block p ≠ bR -> block p ≠ bI ->
  load (foldl seed_step h vs) p = load h p.
Proof.
  intros Hok HpR HpI. revert h.
  induction Hok as [|v vs Hv Hok IH]; intros h; [done|].
  simpl. rewrite IH. by apply seed_step_frame.
Qed.

Lemma seedable_frame h h' v :
  load h' (v_init v) = load h (v_init v) ->
  load h' (v_mask v) = load h (v_mask v) ->
  seedable h' v = seedable h v.
Proof. intros Hi Hm. unfold seedable. by rewrite Hi, Hm. Qed.

Lemma seed_step_flags01 h v :
  ok v -> flags01 h -> flags01 (seed_step h v).
Proof.
  intros (_ & Hi & Hr & _) H01 p Hp. unfold seed_step.
  destruct (seedable h v); [|by apply H01].
  rewrite load_store_other.
  2:{ intros ->. apply flags_block in Hp. congruence. }
  destruct (decide (p = v_init v)) as [->|Hne].
  - rewrite load_store_same. by right.
  - rewrite load_store_other by done. by apply H01.
Qed.

Lemma seed_steps_flags01 vs h :
  Forall ok vs -> flags01 h -> flags01 (foldl seed_step h vs).
Proof.
  intros Hok. revert h. induction Hok as [|v vs Hv Hok IH]; intros h H01; [done|].
  simpl. by apply IH, seed_step_flags01.
Qed.

Lemma flags01_same_contents h1 h2 :
  same_contents h1 h2 -> flags01 h1 -> flags01 h2.
Proof. intros H H01 p Hp. rewrite <- (H p). by apply H01. Qed.

Lemma zero_flags_positive h q :
  q ∈ flags -> load h q = 0 -> 0 < zero_flags flags h.
Proof.
  intros Hq Hz. unfold zero_flags.
  assert (q ∈ filter (fun p => load h p = 0) flags) as Hin
    by (by apply list_elem_of_filter).
  destruct (filter _ flags); [by apply elem_of_nil in Hin|simpl; lia].
Qed.

(** Setting one flag that was 0 leaves one zero flag less. *)
Lemma zero_flags_store h q :
  q ∈ flags -> load h q = 0 ->
  zero_flags flags (store h q 1) = zero_flags flags h - 1.
Proof.
  intros Hq Hz. pose proof (zero_flags_positive h q Hq Hz) as Hpos.
  unfold zero_flags in *.
  assert (Hgen : forall l, NoDup l ->
    Z.of_nat (length (filter (fun p => load (store h q 1) p = 0) l))
    = Z.of_nat (length (filter (fun p => load h p = 0) l))
      - (if decide (q ∈ l) then 1 else 0)).
  { induction 1 as [|x l Hx Hnd IH].
    { rewrite decide_False by apply not_elem_of_nil. simpl. lia. }
    destruct (decide (x = q)) as [->|Hne].
    - rewrite filter_cons_False by (rewrite load_store_same; lia).
      rewrite filter_cons_True by done. rewrite IH.
      rewrite decide_False by done. rewrite decide_True by (by left).
      simpl. lia.
    - assert (load (store h q 1) x = load h x) as Hx' by by apply load_store_other.
      assert ((if decide (q ∈ x :: l) then 1 else 0)
              = (if decide (q ∈ l) then 1 else 0)) as ->.
      { destruct (decide (q ∈ x :: l)) as [Hin|Hnin],
          (decide (q ∈ l)) as [Hin'|Hnin']; try done.
        - apply elem_of_cons in Hin as [?|?]; congruence.
        - exfalso. apply Hnin. by right. }
      destruct (decide (load h x = 0)) as [Hz'|Hnz].
      + rewrite !filter_cons_True by congruence.
        rewrite !length_cons, !Nat2Z.inj_succ, IH. lia.
      + rewrite !filter_cons_False by congruence. done. }
  rewrite (Hgen flags flags_NoDup), decide_True by done. done.
Qed.

Lemma zero_flags_store_other h q x :
  block q ≠ bI -> zero_flags flags (store h q x) = zero_flags flags h.
Proof.
  intros Hq. unfold zero_flags. f_equal. f_equal.
  apply filter_ext_elem. intros p Hp. apply flags_block in Hp.
  rewrite load_store_other; [done|]. intros ->. congruence.
Qed.

Lemma zero_flags_seed_step h v :
  ok v ->
  zero_flags flags (seed_step h v)
  = zero_flags flags h - (if seedable h v then 1 else 0).
Proof.
  intros (Hin & Hi & Hr & _). unfold seed_step.
  destruct (seedable h v) eqn:Hs; [|lia].
  rewrite zero_flags_store_other by congruence.
  apply zero_flags_store; [done|].
  unfold seedable in Hs. apply andb_prop in Hs as [Hz _]. by apply Z.eqb_eq.
Qed.

Lemma zero_flags_nonneg h : 0 <= zero_flags flags h.
Proof. unfold zero_flags. lia. Qed.

(** Once every flag is set, no step seeds anything. *)
Lemma all_flagged_not_seedable h v :
  ok v -> zero_flags flags h = 0 -> seedable h v = false.
Proof.
  intros (Hin & _) Hz. unfold seedable.
  destruct (load h (v_init v) =? 0) eqn:Hf; [|done].
  apply Z.eqb_eq in Hf.
  pose proof (zero_flags_positive h _ Hin Hf). lia.
Qed.

Lemma all_flagged_steps vs h :
  Forall ok vs -> zero_flags flags h = 0 -> foldl seed_step h vs = h.
Proof.
  induction 1 as [|v vs Hv Hok IH]; intros Hz; [done|].
  simpl. unfold seed_step at 2. rewrite all_flagged_not_seedable by done.
  by apply IH.
Qed.

Lemma not_seedable_steps vs h :
  Forall (fun v => seedable h v = false) vs -> foldl seed_step h vs = h.
Proof.
  induction 1 as [|v vs Hv Hvs IH]; [done|].
  simpl. unfold seed_step at 2. by rewrite Hv.
Qed.

Lemma run_visits_app a b op_d res_d init_d op_namask_d
    op_s res_s init_s op_namask_s :
  run_visits (a + b) op_d res_d init_d op_namask_d op_s res_s init_s op_namask_s
  = run_visits a op_d res_d init_d op_namask_d op_s res_s init_s op_namask_s
    ++ run_visits b (op_d +ₚ Z.of_nat a * op_s) (res_d +ₚ Z.of_nat a * res_s)
         (init_d +ₚ Z.of_nat a * init_s)
         (op_namask_d +ₚ Z.of_nat a * op_namask_s)
         op_s res_s init_s op_namask_s.
Proof.
  revert op_d res_d init_d op_namask_d.
  induction a as [|a IH]; intros op_d res_d init_d op_namask_d.
  { simpl. by rewrite !Z.mul_0_l, !ptr_add_0. }
  simpl. f_equal. rewrite IH. rewrite !ptr_add_add. do 5 f_equal; lia.
Qed.

Lemma run_visits_init_block k op_d res_d init_d op_namask_d
    op_s res_s init_s op_namask_s v :
  v ∈ run_visits k op_d res_d init_d op_namask_d op_s res_s init_s op_namask_s ->
  block (v_init v) = block init_d /\ block (v_res v) = block res_d /\
  block (v_op v) = block op_d /\ block (v_mask v) = block op_namask_d.
Proof.
  revert op_d res_d init_d op_namask_d.
  induction k as [|k IH]; intros op_d res_d init_d op_namask_d Hv.
  { by apply elem_of_nil in Hv. }
  simpl in Hv. apply elem_of_cons in Hv as [->|Hv]; [done|].
  by apply IH in Hv.
Qed.

(** Marking the flags of a run and then copying its elements does what
    the steps of the run do one after the other. *)
Lemma copy_run k : forall h1 h2 op_d res_d init_d op_namask_d
    op_s res_s init_s op_namask_s,
  let vs := run_visits k op_d res_d init_d op_namask_d
              op_s res_s init_s op_namask_s in
  same_contents h1 h2 ->
  Forall ok vs -> NoDup (v_init <$> vs) ->
  Forall (fun v => seedable h2 v = true) vs ->
  same_contents
    (stransfer_loop k (mark_flags k h1 init_d init_s) res_d res_s op_d op_s)
    (foldl seed_step h2 vs) /\
  zero_flags flags (foldl seed_step h2 vs) = zero_flags flags h2 - Z.of_nat k.
Proof.
  induction k as [|k IH];
    intros h1 h2 op_d res_d init_d op_namask_d op_s res_s init_s op_namask_s
      vs Hh Hok Hnd Hseed.
  { simpl. split; [done|lia]. }
  subst vs. cbn [run_visits] in *.
  apply Forall_cons in Hok as [Hv Hok]. apply Forall_cons in Hseed as [Hs Hseed].
  rewrite fmap_cons in Hnd. apply NoDup_cons in Hnd as [Hfresh Hnd].
  set (v := Visit op_d res_d init_d op_namask_d) in *.
  set (vs := run_visits k (op_d +ₚ op_s) (res_d +ₚ res_s) (init_d +ₚ init_s)
               (op_namask_d +ₚ op_namask_s) op_s res_s init_s op_namask_s) in *.
  destruct Hv as (Hin & Hi & Hr & HoI & HmR & HmI). simpl in *.
  cbn [foldl stransfer_loop mark_flags].
  assert (Hstep : seed_step h2 v = store (store h2 init_d 1) res_d (load h2 op_d)).
  { unfold seed_step. by rewrite Hs. }
  rewrite Hstep.
  set (h2' := store (store h2 init_d 1) res_d (load h2 op_d)).
  assert (Hload : load (mark_flags k (store h1 init_d 1) (init_d +ₚ init_s) init_s)
                    op_d = load h2 op_d).
  { rewrite mark_flags_load by (simpl; congruence).
    rewrite load_store_other by (intros ->; congruence). apply Hh. }
  rewrite Hload.
  assert (Hseed' : Forall (fun w => seedable h2' w = true) vs).
  { apply Forall_forall. intros w Hw.
    rewrite <- (proj1 (Forall_forall _ _) Hseed w Hw).
    pose proof (proj1 (Forall_forall _ _) Hok w Hw)
      as (_ & Hwi & _ & _ & HwmR & HwmI).
    apply seedable_frame; subst h2'.
    - rewrite load_store_other by (intros Heq; rewrite Heq in Hwi; congruence).
      apply load_store_other. intros Heq. apply Hfresh.
      apply list_elem_of_fmap. by exists w.
    - rewrite !load_store_other; [done|intros Heq; rewrite Heq in *; congruence..]. }
  destruct (IH (store (store h1 init_d 1) res_d (load h2 op_d)) h2'
              (op_d +ₚ op_s) (res_d +ₚ res_s) (init_d +ₚ init_s)
              (op_namask_d +ₚ op_namask_s) op_s res_s init_s op_namask_s)
    as [Hsame Hzero]; try done.
  { subst h2'. by do 2 apply store_same_contents. }
  split.
  - etrans; [|exact Hsame]. apply stransfer_loop_same_contents.
    apply store_mark_flags. simpl. congruence.
  - fold vs in Hzero. rewrite Hzero. subst h2'.
    rewrite zero_flags_store_other by congruence.
    rewrite zero_flags_store; [lia|done|].
    unfold seedable in Hs. apply andb_prop in Hs as [Hz _]. by apply Z.eqb_eq.
Qed.

(** "Skip values that are initialized or masked": the loop passes over
    [k] steps, none of which seeds, and stops at the end of the run or
    at an exposed element whose flag is not 1. *)
Lemma skip_run_steps n : forall subcount count h init_d op_namask_d
    init_s op_namask_s,
  exists k : nat, (k ≤ n)%nat /\
    skip_run n subcount count h init_d op_namask_d init_s op_namask_s
    = (subcount + Z.of_nat k, init_d +ₚ Z.of_nat k * init_s,
       op_namask_d +ₚ Z.of_nat k * op_namask_s) /\
    (subcount <= count -> subcount + Z.of_nat k <= count) /\
    (forall op_d res_d op_s res_s,
       Forall (fun v => seedable h v = false)
         (run_visits k op_d res_d init_d op_namask_d
            op_s res_s init_s op_namask_s)) /\
    ((k < n)%nat -> subcount + Z.of_nat k < count ->
     load h (init_d +ₚ Z.of_nat k * init_s) ≠ 1 /\
     NpyMaskValue_IsExposed
       (load h (op_namask_d +ₚ Z.of_nat k * op_namask_s)) = true).
Proof.
  induction n as [|n IH];
    intros subcount count h init_d op_namask_d init_s op_namask_s.
  { exists 0%nat. simpl. rewrite !Z.mul_0_l, !ptr_add_0, Z.add_0_r.
    split_and!; [done|done|lia|by constructor|lia]. }
  simpl.
  destruct ((subcount <? count) && _) eqn:Hcond.
  - apply andb_prop in Hcond as [Hlt Hskip]. apply Z.ltb_lt in Hlt.
    destruct (IH (subcount + 1) count h (init_d +ₚ init_s)
                (op_namask_d +ₚ op_namask_s) init_s op_namask_s)
      as (k & Hk & Hrun & Hle & Hnot & Hstop).
    exists (S k). rewrite Hrun, !ptr_add_add.
    split_and!.
    + lia.
    + f_equal; [f_equal|]; [lia|f_equal; lia|f_equal; lia].
    + lia.
    + intros op_d res_d op_s res_s. simpl. constructor; [|apply Hnot].
      unfold seedable. simpl.
      apply orb_prop in Hskip as [Hone|Hhidden].
      * apply Z.eqb_eq in Hone. rewrite Hone. done.
      * apply negb_true_iff in Hhidden. rewrite Hhidden. apply andb_false_r.
    + intros Hkn Hc.
      replace (Z.of_nat (S k) * init_s) with (init_s + Z.of_nat k * init_s) by lia.
      replace (Z.of_nat (S k) * op_namask_s)
        with (op_namask_s + Z.of_nat k * op_namask_s) by lia.
      rewrite <- !ptr_add_add. apply Hstop; lia.
  - exists 0%nat. rewrite !Z.mul_0_l, !ptr_add_0, Z.add_0_r.
    split_and!; [lia|done|lia|by constructor|].
    intros _ Hc.
    rewrite (proj2 (Z.ltb_lt subcount count)) in Hcond by lia. simpl in Hcond.
    apply orb_false_elim in Hcond as [Hone Hhidden].
    apply Z.eqb_neq in Hone. apply negb_false_iff in Hhidden. done.
Qed.

(** "Transfer values that are uninitialized and exposed": the loop sets
    the flags of [k] steps, each of which seeds, and when it moves
    nowhere it stands at an element that does not seed. *)
Lemma mark_run_steps n : forall subcount count h op_d res_d init_d op_namask_d
    op_s res_s init_s op_namask_s,
  Forall ok (run_visits n op_d res_d init_d op_namask_d
               op_s res_s init_s op_namask_s) ->
  NoDup (v_init <$> run_visits n op_d res_d init_d op_namask_d
                      op_s res_s init_s op_namask_s) ->
  exists k : nat, (k ≤ n)%nat /\
    mark_run n subcount count h init_d op_namask_d init_s op_namask_s
    = (subcount + Z.of_nat k, mark_flags k h init_d init_s,
       init_d +ₚ Z.of_nat k * init_s,
       op_namask_d +ₚ Z.of_nat k * op_namask_s) /\
    (subcount <= count -> subcount + Z.of_nat k <= count) /\
    Forall (fun v => seedable h v = true)
      (run_visits k op_d res_d init_d op_namask_d
         op_s res_s init_s op_namask_s) /\
    (k = 0%nat -> (0 < n)%nat -> subcount < count ->
     seedable h (Visit op_d res_d init_d op_namask_d) = false).
Proof.
  induction n as [|n IH];
    intros subcount count h op_d res_d init_d op_namask_d
      op_s res_s init_s op_namask_s Hok Hnd.
  { exists 0%nat. simpl. rewrite !Z.mul_0_l, !ptr_add_0, Z.add_0_r.
    split_and!; [done|done|lia|by constructor|lia]. }
  cbn [run_visits] in Hok, Hnd.
  apply Forall_cons in Hok as [Hv Hok].
  rewrite fmap_cons in Hnd. apply NoDup_cons in Hnd as [Hfresh Hnd].
  simpl.
  destruct ((subcount <? count) && _) eqn:Hcond.
  - apply andb_prop in Hcond as [Hlt Hmark]. apply Z.ltb_lt in Hlt.
    destruct (IH (subcount + 1) count (store h init_d 1)
                (op_d +ₚ op_s) (res_d +ₚ res_s) (init_d +ₚ init_s)
                (op_namask_d +ₚ op_namask_s) op_s res_s init_s op_namask_s
                Hok Hnd)
      as (k & Hk & Hrun & Hle & Hseed & _).
    exists (S k). rewrite Hrun, !ptr_add_add.
    split_and!.
    + lia.
    + f_equal; [f_equal; [f_equal|]|]; [lia|f_equal; lia|f_equal; lia].
    + lia.
    + cbn [run_visits]. constructor; [done|].
      apply Forall_forall. intros w Hw.
      rewrite <- (proj1 (Forall_forall _ _) Hseed w Hw). symmetry.
      assert (Hwn : w ∈ run_visits n (op_d +ₚ op_s) (res_d +ₚ res_s)
                      (init_d +ₚ init_s) (op_namask_d +ₚ op_namask_s)
                      op_s res_s init_s op_namask_s).
      { replace n with (k + (n - k))%nat by lia. rewrite run_visits_app.
        apply elem_of_app. by left. }
      pose proof (proj1 (Forall_forall _ _) Hok w Hwn)
        as (_ & Hwi & _ & _ & _ & HwmI).
      destruct Hv as (_ & Hi & _). simpl in Hi.
      apply seedable_frame.
      * apply load_store_other. intros Heq. apply Hfresh.
        apply list_elem_of_fmap. by exists w.
      * apply load_store_other. intros Heq. rewrite Heq in HwmI. congruence.
    + lia.
  - exists 0%nat. rewrite !Z.mul_0_l, !ptr_add_0, Z.add_0_r.
    split_and!; [lia|done|lia|by constructor|].
    intros _ _ Hc. rewrite (proj2 (Z.ltb_lt _ _) Hc) in Hcond. done.
Qed.

(** "If the result stride is 0, copy at most one value": the loop does
    what the steps of the run do one after the other. *)
Lemma seed_one_value_steps n : forall i h op_d res_d init_d op_namask_d
    op_s init_s op_namask_s countdown,
  let vs := run_visits n (op_d +ₚ i * op_s) res_d init_d op_namask_d
              op_s 0 init_s op_namask_s in
  Forall ok vs ->
  (forall v w, v ∈ vs -> w ∈ vs -> v_init v = v_init w) ->
  countdown = zero_flags flags h ->
  let r := seed_one_value n i h op_d res_d init_d op_namask_d
             op_s init_s op_namask_s countdown in
  same_contents r.1.1 (foldl seed_step h vs) /\
  r.1.2 = zero_flags flags r.1.1 /\
  (r.2 = true -> r.1.2 = 0).
Proof.
  induction n as [|n IH];
    intros i h op_d res_d init_d op_namask_d op_s init_s op_namask_s countdown
      vs Hok Hsame Hcd r.
  { subst r vs. simpl. done. }
  subst r vs. cbn [run_visits seed_one_value] in *.
  apply Forall_cons in Hok as [Hv Hok].
  set (v := Visit (op_d +ₚ i * op_s) res_d init_d op_namask_d) in *.
  set (vs := run_visits n (op_d +ₚ i * op_s +ₚ op_s) (res_d +ₚ 0)
               (init_d +ₚ init_s) (op_namask_d +ₚ op_namask_s)
               op_s 0 init_s op_namask_s) in *.
  change ((load h init_d =? 0) && NpyMaskValue_IsExposed (load h op_namask_d))
    with (seedable h v).
  cbn [foldl].
  pose proof (zero_flags_seed_step h v Hv) as Hzero.
  unfold seed_step in *.
  destruct (seedable h v) eqn:Hs.
  - (* the first step seeds; the others find the flag set *)
    destruct Hv as (Hin & Hi & Hr & HoI & HmR & HmI). simpl in *.
    unfold stransfer. change (Z.to_nat 1) with 1%nat. cbn [stransfer_loop].
    rewrite (load_store_other h init_d 1 (op_d +ₚ i * op_s))
      by (intros Heq; apply (f_equal block) in Heq; simpl in Heq; congruence).
    set (h1 := store (store h init_d 1) res_d (load h (op_d +ₚ i * op_s))) in *.
    rewrite not_seedable_steps.
    2:{ apply Forall_forall. intros w Hw. unfold seedable.
        assert (v_init w = init_d) as ->
          by (symmetry; apply (Hsame v w); [by left|by right]).
        subst h1. rewrite load_store_other by (intros Heq; congruence).
        by rewrite load_store_same. }
    split_and!; [done|lia|]. intros Hfin. by apply Z.eqb_eq.
  - subst vs. rewrite (ptr_add_0 res_d) in *.
    assert (Hop : op_d +ₚ i * op_s +ₚ op_s = op_d +ₚ (i + 1) * op_s)
      by (rewrite ptr_add_add; f_equal; lia).
    rewrite Hop in *.
    apply IH; [done| |done].
    intros x y Hx Hy. apply Hsame; by right.
Qed.

(** "Otherwise process the data in runs as large as possible": with
    fuel for one pass more than there are elements, the loop ends and
    does what the steps of the run do one after the other. *)
Lemma seed_runs_steps fuel : forall n h op_d res_d init_d op_namask_d
    op_s res_s init_s op_namask_s count countdown,
  let vs := run_visits n op_d res_d init_d op_namask_d
              op_s res_s init_s op_namask_s in
  n = Z.to_nat count -> (n < fuel)%nat ->
  Forall ok vs -> NoDup (v_init <$> vs) ->
  flags01 h -> countdown = zero_flags flags h ->
  exists h' countdown' fin,
    seed_runs fuel h op_d res_d init_d op_namask_d
      op_s res_s init_s op_namask_s count countdown
    = Some (h', countdown', fin) /\
    same_contents h' (foldl seed_step h vs) /\
    countdown' = zero_flags flags h' /\
    (fin = true -> countdown' = 0).
Proof.
  induction fuel as [|fuel IH];
    intros n h op_d res_d init_d op_namask_d op_s res_s init_s op_namask_s
      count countdown vs Hn Hfuel Hok Hnd H01 Hcd; [lia|].
  cbn [seed_runs].
  (* the skipped steps *)
  destruct (skip_run_steps (Z.to_nat count) 0 count h init_d op_namask_d
              init_s op_namask_s) as (k1 & Hk1 & -> & Hle1 & Hskip & Hstop1).
  rewrite Z.add_0_l in *. rewrite <- Hn in Hk1, Hstop1.
  assert (Hn1 : Z.to_nat (count - Z.of_nat k1) = (n - k1)%nat) by lia.
  rewrite Hn1.
  assert (Hvs : vs = run_visits k1 op_d res_d init_d op_namask_d
                       op_s res_s init_s op_namask_s
                     ++ run_visits (n - k1) (op_d +ₚ Z.of_nat k1 * op_s)
                          (res_d +ₚ Z.of_nat k1 * res_s)
                          (init_d +ₚ Z.of_nat k1 * init_s)
                          (op_namask_d +ₚ Z.of_nat k1 * op_namask_s)
                          op_s res_s init_s op_namask_s).
  { subst vs. rewrite <- run_visits_app. f_equal. lia. }
  set (op1 := op_d +ₚ Z.of_nat k1 * op_s) in *.
  set (res1 := res_d +ₚ Z.of_nat k1 * res_s) in *.
  set (init1 := init_d +ₚ Z.of_nat k1 * init_s) in *.
  set (mask1 := op_namask_d +ₚ Z.of_nat k1 * op_namask_s) in *.
  assert (Hok1 : Forall ok (run_visits (n - k1) op1 res1 init1 mask1
                              op_s res_s init_s op_namask_s)).
  { rewrite Hvs in Hok. by apply Forall_app in Hok as [_ ?]. }
  assert (Hnd1 : NoDup (v_init <$> run_visits (n - k1) op1 res1 init1 mask1
                                     op_s res_s init_s op_namask_s)).
  { rewrite Hvs, fmap_app in Hnd. by apply NoDup_app in Hnd as (_ & _ & ?). }
  (* the run that is marked and copied *)
  destruct (mark_run_steps (n - k1) 0 (count - Z.of_nat k1) h op1 res1 init1 mask1
              op_s res_s init_s op_namask_s Hok1 Hnd1)
    as (k2 & Hk2 & -> & Hle2 & Hseed & Hstop2).
  rewrite Z.add_0_l in *.
  unfold stransfer. rewrite Nat2Z.id.
  assert (Hrest : run_visits (n - k1) op1 res1 init1 mask1
                    op_s res_s init_s op_namask_s
                  = run_visits k2 op1 res1 init1 mask1 op_s res_s init_s op_namask_s
                    ++ run_visits (n - k1 - k2) (op1 +ₚ Z.of_nat k2 * op_s)
                         (res1 +ₚ Z.of_nat k2 * res_s)
                         (init1 +ₚ Z.of_nat k2 * init_s)
                         (mask1 +ₚ Z.of_nat k2 * op_namask_s)
                         op_s res_s init_s op_namask_s).
  { rewrite <- run_visits_app. f_equal. lia. }
  rewrite Hrest in Hok1, Hnd1.
  apply Forall_app in Hok1 as [Hok2 Hok3].
  rewrite fmap_app in Hnd1. apply NoDup_app in Hnd1 as (Hnd2 & _ & Hnd3).
  destruct (copy_run k2 h h op1 res1 init1 mask1 op_s res_s init_s op_namask_s
              ltac:(done) Hok2 Hnd2 Hseed) as [Hcopy Hzero].
  set (h1 := stransfer_loop k2 (mark_flags k2 h init1 init_s) res1 res_s op1 op_s)
    in *.
  set (run := run_visits k2 op1 res1 init1 mask1 op_s res_s init_s op_namask_s)
    in *.
  set (rest := run_visits (n - k1 - k2) (op1 +ₚ Z.of_nat k2 * op_s)
                 (res1 +ₚ Z.of_nat k2 * res_s) (init1 +ₚ Z.of_nat k2 * init_s)
                 (mask1 +ₚ Z.of_nat k2 * op_namask_s)
                 op_s res_s init_s op_namask_s) in *.
  assert (Hfold : foldl seed_step h vs = foldl seed_step (foldl seed_step h run) rest).
  { rewrite Hvs, Hrest, !foldl_app. by rewrite (not_seedable_steps _ h (Hskip _ _ _ _)). }
  assert (Hcd1 : countdown - Z.of_nat k2 = zero_flags flags h1).
  { rewrite (zero_flags_same_contents _ _ _ Hcopy), Hzero. lia. }
  assert (H011 : flags01 h1).
  { apply (flags01_same_contents (foldl seed_step h run)); [done|].
    by apply seed_steps_flags01. }
  destruct (countdown - Z.of_nat k2 =? 0) eqn:Hdone.
  { apply Z.eqb_eq in Hdone.
    eexists _, _, _. split_and!; [done| |done|done].
    rewrite Hfold. rewrite all_flagged_steps; [done|done|].
    rewrite <- (zero_flags_same_contents _ _ _ Hcopy). lia. }
  destruct (0 <? count - Z.of_nat k1 - Z.of_nat k2) eqn:Hmore.
  - apply Z.ltb_lt in Hmore.
    (* some step was passed: the first step of a pass is skipped or seeds *)
    assert (Hprogress : (0 < k1 + k2)%nat).
    { destruct k1 as [|k1]; [|lia]. destruct k2 as [|k2]; [|lia]. exfalso.
      destruct Hstop1 as [Hone Hexposed]; [lia|lia|].
      specialize (Hstop2 eq_refl ltac:(lia) ltac:(lia)).
      subst op1 res1 init1 mask1. simpl in *.
      rewrite !Z.mul_0_l, !ptr_add_0 in *.
      unfold seedable in Hstop2. simpl in Hstop2.
      rewrite Hexposed, andb_true_r in Hstop2. apply Z.eqb_neq in Hstop2.
      assert (Hin : init_d ∈ flags).
      { assert (Hv : ok (Visit op_d res_d init_d op_namask_d)).
        { apply (proj1 (Forall_forall _ _) Hok). subst vs.
          destruct n; [lia|]. by left. }
        by destruct Hv. }
      destruct (H01 _ Hin); congruence. }
    destruct (IH (n - k1 - k2)%nat h1 (op1 +ₚ Z.of_nat k2 * op_s)
                (res1 +ₚ Z.of_nat k2 * res_s) (init1 +ₚ Z.of_nat k2 * init_s)
                (mask1 +ₚ Z.of_nat k2 * op_namask_s) op_s res_s init_s op_namask_s
                (count - Z.of_nat k1 - Z.of_nat k2) (countdown - Z.of_nat k2))
      as (h' & cd' & fin & Hrun & Hsame & Hcd' & Hfin); try done; try lia.
    exists h', cd', fin. split_and!; [done| |done|done].
    rewrite Hfold. etrans; [exact Hsame|]. by apply seed_steps_same_contents.
  - apply Z.ltb_ge in Hmore.
    eexists _, _, _. split_and!; [done| |done|done].
    rewrite Hfold. subst rest.
    assert (n - k1 - k2 = 0)%nat as -> by lia.
    cbn [run_visits foldl]. exact Hcopy.
Qed.

(** The steps of an inner run are the steps the loops take. *)
Lemma run_visits_seqZ n : forall i d0 d1 d2 d3 s0 s1 s2 s3,
  run_visits n (d0 +ₚ i * s0) (d1 +ₚ i * s1) (d2 +ₚ i * s2) (d3 +ₚ i * s3)
    s0 s1 s2 s3
  = (fun j => Visit (d0 +ₚ j * s0) (d1 +ₚ j * s1) (d2 +ₚ j * s2) (d3 +ₚ j * s3))
    <$> seqZ i (Z.of_nat n).
Proof.
  induction n as [|n IH]; intros i d0 d1 d2 d3 s0 s1 s2 s3; [done|].
  rewrite seqZ_cons by lia. cbn [run_visits fmap list_fmap]. f_equal.
  replace (Z.pred (Z.of_nat (S n))) with (Z.of_nat n) by lia.
  rewrite <- IH. rewrite !ptr_add_add.
  by replace (Z.succ i * s0) with (i * s0 + s0) by lia;
     replace (Z.succ i * s1) with (i * s1 + s1) by lia;
     replace (Z.succ i * s2) with (i * s2 + s2) by lia;
     replace (Z.succ i * s3) with (i * s3 + s3) by lia.
Qed.

Lemma chunk_visits_run c :
  chunk_visits c
  = run_visits (Z.to_nat (countptr c))
      (dataptr0 c) (dataptr1 c) (dataptr2 c) (dataptr3 c)
      (strideptr0 c) (strideptr1 c) (strideptr2 c) (strideptr3 c).
Proof.
  pose proof (run_visits_seqZ (Z.to_nat (countptr c)) 0
                (dataptr0 c) (dataptr1 c) (dataptr2 c) (dataptr3 c)
                (strideptr0 c) (strideptr1 c) (strideptr2 c) (strideptr3 c)) as H.
  rewrite !Z.mul_0_l, !ptr_add_0 in H. rewrite H. unfold chunk_visits.
  destruct (decide (0 <= countptr c)) as [Hc|Hc].
  - by rewrite Z2Nat.id.
  - unfold seqZ. by replace (Z.to_nat (countptr c)) with 0%nat by lia.
Qed.

(** One inner run: the code ends and does what its steps do one after
    the other. *)
Lemma seed_chunk_steps c h countdown :
  Forall ok (chunk_visits c) -> lockstep (chunk_visits c) ->
  flags01 h -> countdown = zero_flags flags h ->
  exists h' countdown' fin,
    seed_chunk c h countdown = Some (h', countdown', fin) /\
    same_contents h' (foldl seed_step h (chunk_visits c)) /\
    countdown' = zero_flags flags h' /\
    (fin = true -> countdown' = 0).
Proof.
  intros Hok Hlock H01 Hcd. unfold seed_chunk.
  destruct (strideptr1 c =? 0) eqn:Hs.
  - apply Z.eqb_eq in Hs.
    pose proof (seed_one_value_steps (Z.to_nat (countptr c)) 0 h
                  (dataptr0 c) (dataptr1 c) (dataptr2 c) (dataptr3 c)
                  (strideptr0 c) (strideptr2 c) (strideptr3 c) countdown) as H.
    cbv zeta in H. rewrite Z.mul_0_l, ptr_add_0 in H.
    assert (Hcv : chunk_visits c
                  = run_visits (Z.to_nat (countptr c))
                      (dataptr0 c) (dataptr1 c) (dataptr2 c) (dataptr3 c)
                      (strideptr0 c) 0 (strideptr2 c) (strideptr3 c))
      by (by rewrite chunk_visits_run, Hs).
    rewrite <- Hcv in H.
    destruct H as (H1 & H2 & H3); [done| |done|].
    { intros v w Hv Hw. apply (Hlock v w Hv Hw).
      unfold chunk_visits in Hv, Hw.
      apply list_elem_of_fmap in Hv as (j & -> & _).
      apply list_elem_of_fmap in Hw as (j' & -> & _).
      simpl. by rewrite Hs, !Z.mul_0_r. }
    destruct (seed_one_value _ _ _ _ _ _ _ _ _ _ _) as [[h' cd'] fin].
    simpl in H1, H2, H3. by exists h', cd', fin.
  - apply Z.eqb_neq in Hs.
    pose proof (seed_runs_steps (S (Z.to_nat (countptr c))) (Z.to_nat (countptr c)) h
                  (dataptr0 c) (dataptr1 c) (dataptr2 c) (dataptr3 c)
                  (strideptr0 c) (strideptr1 c) (strideptr2 c) (strideptr3 c)
                  (countptr c) countdown) as H.
    cbv zeta in H. rewrite <- chunk_visits_run in H.
    apply H; [done|lia|done| |done|done].
    unfold chunk_visits. rewrite <- list_fmap_compose.
    apply NoDup_fmap_2_strong; [|apply NoDup_seqZ].
    intros j j' Hj Hj' Heq. simpl in Heq.
    assert (Hres : v_res (chunk_visit c j) = v_res (chunk_visit c j')).
    { apply (Hlock (chunk_visit c j) (chunk_visit c j')); [| |done];
        unfold chunk_visits; by apply list_elem_of_fmap_2. }
    simpl in Hres. apply ptr_add_inj in Hres. nia.
Qed.

(** The outer loop: the code ends and does what the steps of the whole
    iteration do one after the other; stopping early leaves out only
    steps that do nothing. *)
Lemma seed_chunks_steps chunks : forall h countdown,
  Forall ok (iter_visits chunks) ->
  Forall (fun c => lockstep (chunk_visits c)) chunks ->
  flags01 h -> countdown = zero_flags flags h ->
  exists h' countdown',
    seed_chunks chunks h countdown = Some (h', countdown') /\
    same_contents h' (foldl seed_step h (iter_visits chunks)) /\
    countdown' = zero_flags flags h'.
Proof.
  induction chunks as [|c chunks IH]; intros h countdown Hok Hlock H01 Hcd.
  { by exists h, countdown. }
  unfold iter_visits in Hok. rewrite bind_cons in Hok.
  apply Forall_app in Hok as [Hokc Hok].
  apply Forall_cons in Hlock as [Hlockc Hlock].
  destruct (seed_chunk_steps c h countdown Hokc Hlockc H01 Hcd)
    as (h1 & cd1 & fin & Hrun & Hsame & Hcd1 & Hfin).
  cbn [seed_chunks]. rewrite Hrun.
  assert (H011 : flags01 h1).
  { apply (flags01_same_contents (foldl seed_step h (chunk_visits c)));
      [done|by apply seed_steps_flags01]. }
  unfold iter_visits. rewrite bind_cons, foldl_app.
  destruct fin.
  - exists h1, cd1. split_and!; [done| |done].
    etrans; [exact Hsame|].
    rewrite (all_flagged_steps (chunks ≫= chunk_visits)); [done|done|].
    rewrite <- (zero_flags_same_contents _ _ _ Hsame), <- Hcd1. by apply Hfin.
  - destruct (IH h1 cd1 Hok Hlock H011 Hcd1) as (h' & cd' & Hrun' & Hsame' & Hcd').
    exists h', cd'. split_and!; [done| |done].
    etrans; [exact Hsame'|]. by apply seed_steps_same_contents.
Qed.

Lemma find_ext_elem {A} (f g : A -> bool) (l : list A) :
  (forall x, x ∈ l -> f x = g x) -> find f l = find g l.
Proof.
  induction l as [|x l IH]; intros Hext; [done|].
  simpl. rewrite (Hext x) by by left. rewrite IH; [done|].
  intros y Hy. apply Hext. by right.
Qed.

Lemma find_none_elem {A} (f : A -> bool) (l : list A) :
  (forall x, x ∈ l -> f x = false) -> find f l = None.
Proof.
  induction l as [|x l IH]; intros Hall; [done|].
  simpl. rewrite (Hall x) by by left. apply IH.
  intros y Hy. apply Hall. by right.
Qed.

Lemma existsb_ext_elem {A} (f g : A -> bool) (l : list A) :
  (forall x, x ∈ l -> f x = g x) -> existsb f l = existsb g l.
Proof.
  induction l as [|x l IH]; intros Hext; [done|].
  simpl. rewrite (Hext x) by by left. rewrite IH; [done|].
  intros y Hy. apply Hext. by right.
Qed.

Lemma lockstep_cons v vs : lockstep (v :: vs) -> lockstep vs.
Proof. intros H x y Hx Hy. apply H; by right. Qed.

(** A step at another flag does not change whether a step can seed. *)
Lemma seedable_after_seed h v w :
  ok v -> ok w -> v_init w ≠ v_init v ->
  seedable (store (store h (v_init v) 1) (v_res v) (load h (v_op v))) w
  = seedable h w.
Proof.
  intros (_ & Hvi & Hvr & _) (_ & Hwi & Hwr & _ & HmR & HmI) Hne.
  unfold seedable.
  rewrite !(load_store_other _ (v_res v)) by (intros Heq; congruence).
  rewrite !(load_store_other _ (v_init v)); [done| |done].
  intros Heq. congruence.
Qed.

(** The value of a cell after the steps [vs]: the element of the first
    step at this cell that can seed. *)
Lemma seed_steps_value vs : forall h q,
  Forall ok vs -> Forall (fun v => block (v_op v) ≠ bR) vs ->
  lockstep vs -> block q = bR ->
  load (foldl seed_step h vs) q
  = match find (fun v => bool_decide (v_res v = q) && seedable h v) vs with
    | Some v => load h (v_op v)
    | None => load h q
    end.
Proof.
  induction vs as [|v vs IH]; intros h q Hok Hsep Hlock Hq; [done|].
  apply Forall_cons in Hok as [Hv Hok].
  apply Forall_cons in Hsep as [HoR Hsep].
  pose proof (lockstep_cons _ _ Hlock) as Hlock'.
  cbn [foldl find]. unfold seed_step. destruct (seedable h v) eqn:Hs.
  - rewrite IH by done.
    destruct Hv as (Hin & Hvi & Hvr & HoI & HmR & HmI).
    destruct (decide (v_res v = q)) as [Heq|Hne].
    + rewrite bool_decide_eq_true_2 by done. cbn [andb].
      rewrite find_none_elem.
      { rewrite <- Heq. by rewrite load_store_same. }
      intros w Hw. destruct (decide (v_res w = q)) as [Hwq|Hwq];
        [|by rewrite bool_decide_eq_false_2].
      rewrite bool_decide_eq_true_2 by done. cbn [andb].
      assert (Hiw : v_init w = v_init v).
      { apply (Hlock w v); [by right|by left|congruence]. }
      unfold seedable. rewrite Hiw.
      rewrite load_store_other by (intros Hx; congruence).
      by rewrite load_store_same.
    + rewrite bool_decide_eq_false_2 by done. cbn [andb].
      rewrite (find_ext_elem _
                 (fun w => bool_decide (v_res w = q) && seedable h w)).
      2:{ intros w Hw. destruct (decide (v_res w = q)) as [Hwq|Hwq];
            [|by rewrite !bool_decide_eq_false_2].
          rewrite !bool_decide_eq_true_2 by done. cbn [andb].
          apply seedable_after_seed; [done| |].
          - by apply (proj1 (Forall_forall _ _) Hok).
          - intros Hiw. apply Hne. rewrite <- Hwq. symmetry.
            apply (Hlock w v); [by right|by left|done]. }
      destruct (find _ vs) as [w|] eqn:Hfind.
      * apply find_some in Hfind as [Hw _]. apply list_elem_of_In in Hw.
        destruct (proj1 (Forall_forall _ _) Hok w Hw)
          as (_ & _ & _ & HwI & _).
        pose proof (proj1 (Forall_forall _ _) Hsep w Hw) as HwR.
        rewrite !load_store_other; [done|intros Hx; congruence..].
      * rewrite !load_store_other; [done| |done].
        intros Hx. congruence.
  - rewrite andb_false_r. by apply IH.
Qed.

(** The value of a flag after the steps [vs]: set when one of the steps
    at this flag can seed. *)
Lemma seed_steps_flag vs : forall h p,
  Forall ok vs -> block p = bI ->
  load (foldl seed_step h vs) p
  = if existsb (fun v => bool_decide (v_init v = p) && seedable h v) vs
    then 1 else load h p.
Proof.
  induction vs as [|v vs IH]; intros h p Hok Hp; [done|].
  apply Forall_cons in Hok as [Hv Hok].
  cbn [foldl existsb]. unfold seed_step. destruct (seedable h v) eqn:Hs.
  - rewrite IH by done.
    destruct (decide (v_init v = p)) as [Heq|Hne].
    + rewrite bool_decide_eq_true_2 by done. cbn [andb orb].
      destruct Hv as (_ & Hvi & Hvr & _).
      rewrite load_store_other by (intros Hx; congruence).
      rewrite <- Heq, load_store_same. by destruct (existsb _ vs).
    + rewrite bool_decide_eq_false_2 by done. cbn [andb orb].
      rewrite (existsb_ext_elem _
                 (fun w => bool_decide (v_init w = p) && seedable h w)).
      2:{ intros w Hw. destruct (decide (v_init w = p)) as [Hwp|Hwp];
            [|by rewrite !bool_decide_eq_false_2].
          rewrite !bool_decide_eq_true_2 by done. cbn [andb].
          apply seedable_after_seed; [done| |congruence].
          by apply (proj1 (Forall_forall _ _) Hok). }
      destruct Hv as (_ & Hvi & Hvr & _).
      rewrite !load_store_other; [done|intros Hx; congruence..].
  - rewrite andb_false_r. cbn [orb]. by apply IH.
Qed.

End SeedingSteps.

Lemma zero_flags_zero flags h :
  zero_flags flags h = 0 <-> forall p, p ∈ flags -> load h p ≠ 0.
Proof.
  unfold zero_flags. split.
  - intros Hz p Hp Hload.
    assert (p ∈ filter (fun p => load h p = 0) flags) as Hin
      by (by apply list_elem_of_filter).
    destruct (filter _ flags); [by apply elem_of_nil in Hin|simpl in Hz; lia].
  - intros Hall. rewrite (filter_ext_elem _ (fun _ => False)).
    + assert (forall l : list pointer, filter (fun _ => False) l = []) as ->
        by (intros l; by induction l).
      done.
    + intros p Hp. split; [by apply Hall|done].
Qed.

Lemma zero_flags_all flags h :
  (forall p, p ∈ flags -> load h p = 0) ->
  zero_flags flags h = Z.of_nat (length flags).
Proof.
  intros Hall. unfold zero_flags.
  rewrite (filter_ext_elem _ (fun _ => True)).
  - assert (forall l : list pointer, filter (fun _ => True) l = l) as ->
      by (intros l; induction l as [|p l IH];
          [done|by rewrite filter_cons_True, IH]).
    done.
  - intros p Hp. split; [done|intros _; by apply Hall].
Qed.

Lemma length_bind_const {A B} (f : A -> list B) (l : list A) (k : nat) :
  (forall x, x ∈ l -> length (f x) = k) -> length (l ≫= f) = (length l * k)%nat.
Proof.
  induction l as [|x l IH]; intros Hk; [done|].
  rewrite bind_cons, length_app, (Hk x) by by left.
  rewrite IH; [simpl; lia|]. intros y Hy. apply Hk. by right.
Qed.

(** An array has as many index vectors as its shape multiplies to. *)
Lemma coords_size shape :
  Forall (fun d => 0 <= d) shape ->
  Z.of_nat (length (coords shape)) = PyArray_MultiplyList shape.
Proof.
  induction 1 as [|n rest Hn _ IH]; [done|].
  cbn [coords PyArray_MultiplyList foldr].
  rewrite (length_bind_const _ _ (length (coords rest)))
    by (intros; by rewrite length_fmap).
  rewrite length_seqZ, Nat2Z.inj_mul, IH, Z2Nat.id by done. done.
Qed.

(** In a C-contiguous array the offsets of the elements stay within the
    buffer. *)
Lemma c_strides_offset_bound shape sz : forall idx,
  0 < sz -> idx ∈ coords shape ->
  0 <= index_offset idx (c_strides shape sz)
    <= sz * (PyArray_MultiplyList shape - 1).
Proof.
  induction shape as [|n rest IH]; intros idx Hsz Hidx.
  { apply elem_of_coords, Forall2_nil_inv_r in Hidx as ->. simpl. lia. }
  apply elem_of_coords, Forall2_cons_inv_r in Hidx
    as (i & idx' & Hi & Hidx' & ->).
  apply elem_of_coords in Hidx'. specialize (IH idx' Hsz Hidx').
  cbn [index_offset c_strides PyArray_MultiplyList foldr].
  fold (PyArray_MultiplyList rest).
  set (M := PyArray_MultiplyList rest) in *.
  set (off := index_offset idx' (c_strides rest sz)) in *.
  assert (1 <= M) by nia. nia.
Qed.

(** Two elements of a C-contiguous array lie at different offsets. *)
Lemma c_strides_injective shape sz : forall idx idx',
  0 < sz -> idx ∈ coords shape -> idx' ∈ coords shape ->
  index_offset idx (c_strides shape sz) = index_offset idx' (c_strides shape sz) ->
  idx = idx'.
Proof.
  induction shape as [|n rest IH]; intros idx idx' Hsz Hidx Hidx' Heq.
  { apply elem_of_coords, Forall2_nil_inv_r in Hidx as ->.
    by apply elem_of_coords, Forall2_nil_inv_r in Hidx' as ->. }
  apply elem_of_coords, Forall2_cons_inv_r in Hidx
    as (i & r & Hi & Hr & ->).
  apply elem_of_coords, Forall2_cons_inv_r in Hidx'
    as (i' & r' & Hi' & Hr' & ->).
  apply elem_of_coords in Hr, Hr'.
  pose proof (c_strides_offset_bound rest sz r Hsz Hr) as Hb.
  pose proof (c_strides_offset_bound rest sz r' Hsz Hr') as Hb'.
  cbn [index_offset c_strides] in Heq.
  set (M := PyArray_MultiplyList rest) in *.
  set (off := index_offset r (c_strides rest sz)) in *.
  set (off' := index_offset r' (c_strides rest sz)) in *.
  assert (i = i') as -> by nia.
  f_equal. apply IH; [done..|]. subst off off'. lia.
Qed.

Lemma NoDup_c_cells (a : PyArrayObject) sz :
  0 < sz -> strides a = c_strides (dimensions a) sz ->
  NoDup (element_ptr a <$> coords (dimensions a)).
Proof.
  intros Hsz Hst. apply NoDup_fmap_2_strong; [|apply NoDup_coords].
  intros idx idx' Hidx Hidx' Heq. unfold element_ptr in Heq.
  apply ptr_add_inj in Heq. rewrite Hst in Heq.
  by apply (c_strides_injective (dimensions a) sz).
Qed.

(** Stores at different addresses: each address holds its own value. *)
Lemma stores_load {A} (g : A -> pointer) (f : A -> Z) (l : list A) y : forall h,
  y ∈ l -> (forall x, x ∈ l -> g x = g y -> x = y) ->
  load (foldl (fun hh x => store hh (g x) (f x)) h l) (g y) = f y.
Proof.
  induction l as [|x l IH] using rev_ind; intros h Hy Hinj.
  { by apply elem_of_nil in Hy. }
  rewrite foldl_app. cbn [foldl].
  destruct (decide (g x = g y)) as [Heq|Hne].
  - assert (x = y) as -> by (apply Hinj; [apply elem_of_app; right; by left|done]).
    by rewrite load_store_same.
  - rewrite load_store_other by done.
    apply IH.
    + apply elem_of_app in Hy as [Hy|Hy]; [done|].
      apply list_elem_of_singleton in Hy. by subst.
    + intros z Hz. apply Hinj. apply elem_of_app. by left.
Qed.

(** ** The scattered seeder as a whole *)

Lemma stores_nextblock {A} (g : A -> pointer) (f : A -> Z) (l : list A) : forall h,
  nextblock (foldl (fun hh x => store hh (g x) (f x)) h l) = nextblock h.
Proof. induction l as [|x l IH]; intros h; [done|]. simpl. by rewrite IH. Qed.

Lemma allocate_mask_spec h arr :
  let r := PyArray_AllocateMaskNA h arr in
  dimensions r.1 = dimensions arr /\ strides r.1 = strides arr /\
  data r.1 = data arr /\ descr r.1 = descr arr /\
  maskna r.1 = Some (Mask NPY_BOOL (Ptr (nextblock h) 0)
                       (c_strides (dimensions arr) 1)) /\
  nextblock r.2 = S (nextblock h).
Proof.
  unfold PyArray_AllocateMaskNA. simpl. split_and!; try done.
  by rewrite stores_nextblock.
Qed.

(** The mask the view gets is a copy of the mask of the array, or is
    fully exposed when the array has none. *)
Lemma allocate_mask_copy h arr idx :
  idx ∈ coords (dimensions arr) ->
  load (PyArray_AllocateMaskNA h arr).2
    (Ptr (nextblock h) 0 +ₚ index_offset idx (c_strides (dimensions arr) 1))
  = match maskna arr with
    | Some m => load h (mask_ptr m idx)
    | None => 1
    end.
Proof.
  intros Hidx. unfold PyArray_AllocateMaskNA. simpl.
  set (own := Mask NPY_BOOL (Ptr (nextblock h) 0) (c_strides (dimensions arr) 1)).
  change (Ptr (nextblock h) 0 +ₚ index_offset idx (c_strides (dimensions arr) 1))
    with (mask_ptr own idx).
  apply (stores_load (mask_ptr own)
           (fun idx => match maskna arr with
                       | Some m => load h (mask_ptr m idx)
                       | None => 1
                       end)); [done|].
  intros idx' Hidx' Heq. unfold mask_ptr in Heq. simpl in Heq.
  apply ptr_add_inj in Heq.
  by apply (c_strides_injective (dimensions arr) 1).
Qed.

Lemma seeding_setup_spec h operand result view initialized h3 :
  seeding_setup h operand result = (view, initialized, h3) ->
  view = (PyArray_AllocateMaskNA h operand).1 /\
  initialized = Array (dimensions result) (c_strides (dimensions result) 1)
                  (Ptr (S (nextblock h)) 0) (Descr 1 false) None /\
  (forall p, p ∈ flag_cells initialized -> load h3 p = 0) /\
  (forall p, block p ≠ S (nextblock h) ->
     load h3 p = load (PyArray_AllocateMaskNA h operand).2 p).
Proof.
  unfold seeding_setup, PyArray_View.
  pose proof (allocate_mask_spec h operand) as (_ & _ & _ & _ & _ & Hnext).
  destruct (PyArray_AllocateMaskNA h operand) as [view' h1]. simpl in Hnext.
  unfold PyArray_NewLikeArray_bool, PyArray_NewFromDescr, alloc.
  rewrite Hnext. intros [= <- <- <-]. split_and!; [done|done| |].
  - intros p Hp. unfold PyArray_AssignZero. rewrite stores_zero_load.
    by rewrite decide_True.
  - intros p Hp. rewrite assign_zero_frame; [done|]. simpl. congruence.
Qed.

Lemma lockstep_chunks chunks :
  lockstep (iter_visits chunks) ->
  Forall (fun c => lockstep (chunk_visits c)) chunks.
Proof.
  intros Hlock. apply Forall_forall. intros c Hc v w Hv Hw.
  apply Hlock; unfold iter_visits; apply list_elem_of_bind; by exists c.
Qed.

Lemma no_steps_of_size_zero chunks :
  Forall (fun c => 0 <= countptr c) chunks ->
  NpyIter_GetIterSize chunks = 0 -> iter_visits chunks = [].
Proof.
  unfold NpyIter_GetIterSize, iter_visits.
  induction 1 as [|c chunks Hc Hcs IH]; [done|].
  cbn [foldr]. rewrite bind_cons. intros Hsum.
  assert (0 <= foldr (fun c n => countptr c + n) 0 chunks).
  { clear -Hcs. induction Hcs; simpl; lia. }
  rewrite IH by lia. unfold chunk_visits.
  replace (countptr c) with 0 by lia. done.
Qed.

Section SeederCall.

Context (NpyIter_MultiNew :
           PyArrayObject -> PyArrayObject -> PyArrayObject ->
           option (list inner_chunk)).
Context (operand result : PyArrayObject) (axis_flags : list bool) (s : state).
Context (view initialized : PyArrayObject) (h : heap) (iter : list inner_chunk).

Hypothesis setup :
  seeding_setup (st_heap s) operand result = (view, initialized, h).
Hypothesis iterator : NpyIter_MultiNew view result initialized = Some iter.
Hypothesis iterator_ok : seeding_iterator iter view result initialized.
Hypothesis operand_allocated : (block (data operand) < nextblock (st_heap s))%nat.
Hypothesis result_allocated : (block (data result) < nextblock (st_heap s))%nat.
Hypothesis result_shape : Forall (fun d => 0 <= d) (dimensions result).

Local Abbreviation flags := (flag_cells initialized).
Local Abbreviation bR := (block (data result)).
Local Abbreviation bI := (S (nextblock (st_heap s))).

Lemma seeder_flags_NoDup : NoDup flags.
Proof.
  destruct (seeding_setup_spec _ _ _ _ _ _ setup) as (_ & -> & _).
  by apply (NoDup_c_cells _ 1).
Qed.

Lemma seeder_flags_block p : p ∈ flags -> block p = bI.
Proof.
  destruct (seeding_setup_spec _ _ _ _ _ _ setup) as (_ & -> & _).
  unfold flag_cells. intros (idx & -> & _)%list_elem_of_fmap. done.
Qed.

Lemma seeder_blocks_differ : bR ≠ bI.
Proof. lia. Qed.

Lemma seeder_visits_ok : Forall (visit_ok flags bR bI) (iter_visits iter).
Proof.
  destruct iterator_ok as (_ & Hvs & _).
  destruct (seeding_setup_spec _ _ _ _ _ _ setup) as (Hview & _).
  pose proof (allocate_mask_spec (st_heap s) operand)
    as (_ & _ & Hdata & _ & Hmask & _).
  rewrite <- Hview in Hdata, Hmask.
  unfold PyArray_MASKNA_DATA in Hvs. rewrite Hmask, Hdata in Hvs. simpl in Hvs.
  eapply Forall_impl; [exact Hvs|]. intros v (Ho & Hr & Hi & Hm). simpl in *.
  pose proof (seeder_flags_block _ Hi).
  unfold visit_ok. split_and!; first [done|congruence|lia].
Qed.

Lemma seeder_flags_zero p : p ∈ flags -> load h p = 0.
Proof.
  destruct (seeding_setup_spec _ _ _ _ _ _ setup) as (_ & _ & Hzero & _).
  apply Hzero.
Qed.

Lemma seeder_countdown : PyArray_SIZE result = zero_flags flags h.
Proof.
  rewrite (zero_flags_all flags h seeder_flags_zero).
  destruct (seeding_setup_spec _ _ _ _ _ _ setup) as (_ & -> & _).
  unfold flag_cells. simpl. rewrite length_fmap.
  by rewrite coords_size.
Qed.

(** The loop of the seeder ends, and leaves the heap the steps of the
    iteration give one after the other. *)
Lemma seeder_loop :
  exists h' countdown',
    (if negb (NpyIter_GetIterSize iter =? 0)
     then seed_chunks iter h (PyArray_SIZE result)
     else Some (h, PyArray_SIZE result)) = Some (h', countdown') /\
    same_contents h' (foldl seed_step h (iter_visits iter)) /\
    countdown' = zero_flags flags h'.
Proof.
  destruct (NpyIter_GetIterSize iter =? 0) eqn:Hsize; cbn [negb].
  - apply Z.eqb_eq in Hsize. destruct iterator_ok as (Hcounts & _).
    rewrite (no_steps_of_size_zero iter Hcounts Hsize).
    exists h, (PyArray_SIZE result). split_and!; [done|done|].
    apply seeder_countdown.
  - apply (seed_chunks_steps flags bR bI).
    + apply seeder_flags_NoDup.
    + apply seeder_flags_block.
    + apply seeder_blocks_differ.
    + apply seeder_visits_ok.
    + apply lockstep_chunks. by destruct iterator_ok as (_ & _ & ?).
    + intros p Hp. left. by apply seeder_flags_zero.
    + apply seeder_countdown.
Qed.

(** A flag is set by the steps exactly when one of the steps at it has
    an exposed element. *)
Lemma seeder_flag_after p :
  p ∈ flags ->
  load (foldl seed_step h (iter_visits iter)) p
  = if has_exposed h (iter_visits iter) p then 1 else 0.
Proof.
  intros Hp.
  rewrite (seed_steps_flag flags bR bI seeder_blocks_differ)
    by (apply seeder_visits_ok || by apply seeder_flags_block).
  rewrite (seeder_flags_zero p Hp). unfold has_exposed.
  rewrite (existsb_ext_elem _
             (fun v => bool_decide (v_init v = p) && exposed_step h v)); [done|].
  intros v Hv. destruct (decide (v_init v = p)) as [Heq|Hne];
    [|by rewrite !bool_decide_eq_false_2].
  rewrite !bool_decide_eq_true_2 by done. cbn [andb].
  unfold seedable, exposed_step. by rewrite Heq, (seeder_flags_zero p Hp).
Qed.

Lemma seeder_countdown_after h' :
  same_contents h' (foldl seed_step h (iter_visits iter)) ->
  (zero_flags flags h' =? 0) = forallb (has_exposed h (iter_visits iter)) flags.
Proof.
  intros Hsame.
  destruct (forallb _ flags) eqn:Hall.
  - apply Z.eqb_eq, zero_flags_zero. intros p Hp.
    rewrite (Hsame p), (seeder_flag_after p Hp).
    rewrite forallb_forall in Hall.
    by rewrite (Hall p) by by apply list_elem_of_In.
  - apply Z.eqb_neq. intros Hzero.
    assert (forallb (has_exposed h (iter_visits iter)) flags = true);
      [|congruence].
    apply forallb_forall. intros p Hp%list_elem_of_In.
    pose proof (proj1 (zero_flags_zero flags h') Hzero p Hp) as Hload.
    rewrite (Hsame p), (seeder_flag_after p Hp) in Hload.
    by destruct (has_exposed _ _ p).
Qed.

Lemma seeder_setup_load p :
  (block p < nextblock (st_heap s))%nat -> load h p = load (st_heap s) p.
Proof.
  intros Hp.
  destruct (seeding_setup_spec _ _ _ _ _ _ setup) as (_ & _ & _ & Hframe).
  rewrite Hframe by lia. by apply allocate_mask_load.
Qed.

(** When the result shares no block with the operand, a cell holds,
    after the steps, the element of the first step at it whose element
    is exposed. *)
Lemma seeder_cell_after q :
  block (data operand) ≠ bR ->
  block q = bR ->
  load (foldl seed_step h (iter_visits iter)) q
  = match first_exposed h (iter_visits iter) q with
    | Some v => load (st_heap s) (v_op v)
    | None => load (st_heap s) q
    end.
Proof.
  intros Hseparate Hq.
  assert (Hsep : Forall (fun v => block (v_op v) ≠ bR) (iter_visits iter)).
  { destruct iterator_ok as (_ & Hvs & _).
    destruct (seeding_setup_spec _ _ _ _ _ _ setup) as (Hview & _).
    pose proof (allocate_mask_spec (st_heap s) operand) as (_ & _ & Hdata & _).
    rewrite <- Hview in Hdata.
    eapply Forall_impl; [exact Hvs|]. intros v (Hop & _). cbv beta.
    by rewrite Hop, Hdata. }
  rewrite (seed_steps_value flags bR bI seeder_blocks_differ)
    by first [apply seeder_visits_ok|exact Hsep
             |by destruct iterator_ok as (_ & _ & ?)|done].
  unfold first_exposed.
  rewrite (find_ext_elem _
             (fun v => bool_decide (v_res v = q) && exposed_step h v)).
  2:{ intros v Hv. f_equal. unfold seedable, exposed_step.
      destruct (proj1 (Forall_forall _ _) seeder_visits_ok v Hv) as (Hin & _).
      by rewrite (seeder_flags_zero _ Hin). }
  destruct (find _ _) as [v|] eqn:Hfind.
  - apply find_some in Hfind as [Hv _]. apply list_elem_of_In in Hv.
    destruct iterator_ok as (_ & Hvs & _).
    destruct (proj1 (Forall_forall _ _) Hvs v Hv) as (Hop & _).
    destruct (seeding_setup_spec _ _ _ _ _ _ setup) as (Hview & _).
    pose proof (allocate_mask_spec (st_heap s) operand) as (_ & _ & Hdata & _).
    rewrite <- Hview in Hdata.
    apply seeder_setup_load. rewrite Hop, Hdata. exact operand_allocated.
  - apply seeder_setup_load. rewrite Hq. exact result_allocated.
Qed.

(** The whole call: what it returns and the heap it leaves. *)
Lemma seeder_run :
  exists h',
    initialize_reduce_result_noidentity_skipna NpyIter_MultiNew
      operand result axis_flags s
    = (if forallb (has_exposed h (iter_visits iter)) flags
       then (Ok view,
             State (if PyArray_HASMASKNA result
                    then PyArray_AssignMaskNA_exposed h' result else h')
               (st_trace s ++ [Ev_seed_scattered]))
       else (Raise ValueError_all_inputs_NA,
             State h' (st_trace s ++ [Ev_seed_scattered]))) /\
    same_contents h' (foldl seed_step h (iter_visits iter)).
Proof.
  destruct seeder_loop as (h' & cd' & Hloop & Hsame & ->).
  exists h'. split; [|done].
  rewrite <- (seeder_countdown_after h' Hsame).
  pose proof setup as Hsetup.
  unfold initialize_reduce_result_noidentity_skipna, bind, with_heap, get_heap,
    put_heap, log, ret, raise.
  unfold seeding_setup in Hsetup.
  destruct (PyArray_AllocateMaskNA _ _) as [view' h1]. cbn [st_heap st_trace].
  destruct (PyArray_NewLikeArray_bool h1 result) as [initialized' h2].
  cbn [st_heap st_trace].
  injection Hsetup as -> -> Hh. rewrite Hh, iterator.
  cbn [st_heap st_trace]. rewrite Hloop.
  cbn [st_heap st_trace].
  destruct (zero_flags flags h' =? 0); cbn [negb]; [|done].
  by destruct (PyArray_HASMASKNA result).
Qed.

End SeederCall.

Lemma assign_mask_exposed_frame h arr p :
  (forall m, maskna arr = Some m -> block (maskna_data m) ≠ block p) ->
  load (PyArray_AssignMaskNA_exposed h arr) p = load h p.
Proof.
  unfold PyArray_AssignMaskNA_exposed. intros Hmask.
  destruct (maskna arr) as [m|]; [|done].
  specialize (Hmask m eq_refl).
  generalize (coords (dimensions arr)). intros l. revert h.
  induction l as [|idx l IH]; intros h; [done|].
  cbn [foldl]. rewrite IH. by apply load_store_other_block.
Qed.

(** X11: for an operand and a result that lie in blocks allocated before
    the call, whether they overlap or not, and an iterator that keeps to
    the arrays and walks the result and the flag array together, the
    scattered seeder returns the view of the operand when every flag,
    that is every cell of the result, has a step with an exposed
    element, and raises the error for a cell with only NA inputs when
    some cell has none.  It does not hang and raises nothing else. *)
Theorem X11_seeder_outcome
    (NpyIter_MultiNew :
       PyArrayObject -> PyArrayObject -> PyArrayObject -> option (list inner_chunk))
    (operand result : PyArrayObject) (axis_flags : list bool) (s : state)
    (view initialized : PyArrayObject) (h : heap) (iter : list inner_chunk) :
  seeding_setup (st_heap s) operand result = (view, initialized, h) ->
  NpyIter_MultiNew view result initialized = Some iter ->
  seeding_iterator iter view result initialized ->
  (block (data operand) < nextblock (st_heap s))%nat ->
  (block (data result) < nextblock (st_heap s))%nat ->
  Forall (fun d => 0 <= d) (dimensions result) ->
  (initialize_reduce_result_noidentity_skipna NpyIter_MultiNew
     operand result axis_flags s).1
  = if forallb (has_exposed h (iter_visits iter)) (flag_cells initialized)
    then Ok view else Raise ValueError_all_inputs_NA.
Proof.
  intros Hsetup Hiter Hok Hop Hres Hshape.
  destruct (seeder_run NpyIter_MultiNew operand result axis_flags s
              view initialized h iter Hsetup Hiter Hok Hop Hres Hshape)
    as (h' & -> & _).
  by destruct (forallb _ _).
Qed.

(** X12: when the result shares no block with the operand, nor with
    its own mask, then whatever the seeder returns, a cell of the result
    holds the element of the first step at this cell, in the order of
    the iteration, whose element is exposed; a cell without such a step
    is left as it was.  (A result that overlaps the operand can receive
    an element that an earlier step has overwritten.) *)
Theorem X12_seeder_first_exposed
    (NpyIter_MultiNew :
       PyArrayObject -> PyArrayObject -> PyArrayObject -> option (list inner_chunk))
    (operand result : PyArrayObject) (axis_flags : list bool) (s : state)
    (view initialized : PyArrayObject) (h : heap) (iter : list inner_chunk)
    (q : pointer) :
  seeding_setup (st_heap s) operand result = (view, initialized, h) ->
  NpyIter_MultiNew view result initialized = Some iter ->
  seeding_iterator iter view result initialized ->
  (block (data operand) < nextblock (st_heap s))%nat ->
  (block (data result) < nextblock (st_heap s))%nat ->
  block (data operand) ≠ block (data result) ->
  Forall (fun d => 0 <= d) (dimensions result) ->
  (forall m, maskna result = Some m -> block (maskna_data m) ≠ block (data result)) ->
  block q = block (data result) ->
  load (st_heap (initialize_reduce_result_noidentity_skipna NpyIter_MultiNew
                   operand result axis_flags s).2) q
  = match first_exposed h (iter_visits iter) q with
    | Some v => load (st_heap s) (v_op v)
    | None => load (st_heap s) q
    end.
Proof.
  intros Hsetup Hiter Hok Hop Hres Hsep Hshape Hmask Hq.
  destruct (seeder_run NpyIter_MultiNew operand result axis_flags s
              view initialized h iter Hsetup Hiter Hok Hop Hres Hshape)
    as (h' & -> & Hsame).
  assert (Hcell : load (foldl seed_step h (iter_visits iter)) q
                  = match first_exposed h (iter_visits iter) q with
                    | Some v => load (st_heap s) (v_op v)
                    | None => load (st_heap s) q
                    end)
    by (eapply seeder_cell_after; eassumption).
  rewrite <- Hcell, <- (Hsame q).
  destruct (forallb _ _); cbn [snd st_heap]; [|done].
  destruct (PyArray_HASMASKNA result); [|done].
  apply assign_mask_exposed_frame. intros m Hm. rewrite Hq. by apply Hmask.
Qed.

(** A result inside the operand: the cell of row 1 receives 10, the
    seed of row 0 that the first step stored over the element 20, the
    first element of row 1. *)
Example seeds_of_overlapping_result :
  load heap_10_21 (Ptr 0 16) = 20 /\
  load (st_heap run_seed_inside.2) (Ptr 0 16) = 10 /\
  load (st_heap run_seed_inside.2) (Ptr 0 0) = 10.
Proof. vm_compute. done. Qed.

Lemma X11_witness :
  run_seed_inside.1
  = Ok (Array [2; 2] [16; 8] (Ptr 0 0) float64
          (Some (Mask NPY_BOOL (Ptr 4 0) [2; 1]))).
Proof.
  exact (X11_seeder_outcome NpyIter_MultiNew_reference
           matrix_10_21 result_inside [false; true] (start heap_10_21)
           (seeding_setup heap_10_21 matrix_10_21 result_inside).1.1
           (seeding_setup heap_10_21 matrix_10_21 result_inside).1.2
           (seeding_setup heap_10_21 matrix_10_21 result_inside).2
           (default [] (NpyIter_MultiNew_reference
                          (seeding_setup heap_10_21 matrix_10_21 result_inside).1.1
                          result_inside
                          (seeding_setup heap_10_21 matrix_10_21 result_inside).1.2))
           eq_refl eq_refl
           ltac:(apply (bool_decide_unpack _); vm_compute; exact I)
           ltac:(vm_compute; lia) ltac:(vm_compute; lia)
           ltac:(repeat constructor; lia)).
Defined.

(** Whatever the seeder does after its set-up, it stores only into the
    result, its mask and the flag array, and it returns the view it set
    up. *)
Lemma seeder_stores
    (NpyIter_MultiNew :
       PyArrayObject -> PyArrayObject -> PyArrayObject -> option (list inner_chunk))
    (operand result : PyArrayObject) (axis_flags : list bool) (s : state)
    (view initialized : PyArrayObject) (h : heap) (p : pointer) :
  seeding_setup (st_heap s) operand result = (view, initialized, h) ->
  (forall iter, NpyIter_MultiNew view result initialized = Some iter ->
     stays_in_arrays iter result initialized) ->
  block p ≠ block (data result) ->
  block p ≠ block (data initialized) ->
  (forall m, maskna result = Some m -> block (maskna_data m) ≠ block p) ->
  let r := initialize_reduce_result_noidentity_skipna NpyIter_MultiNew
             operand result axis_flags s in
  load (st_heap r.2) p = load h p /\
  forall v, r.1 = Ok v -> v = view.
Proof.
  intros Hsetup Hiter HpR HpI Hmask.
  unfold initialize_reduce_result_noidentity_skipna, bind, with_heap, get_heap,
    put_heap, log, ret, raise.
  unfold seeding_setup in Hsetup.
  destruct (PyArray_AllocateMaskNA _ _) as [view' h1]. cbn [st_heap st_trace].
  destruct (PyArray_NewLikeArray_bool h1 result) as [initialized' h2].
  cbn [st_heap st_trace].
  injection Hsetup as -> -> Hh. rewrite Hh.
  destruct (NpyIter_MultiNew view result initialized) as [iter|] eqn:Hnew;
    [|by cbn].
  specialize (Hiter iter eq_refl). cbn [st_heap st_trace].
  destruct (if negb (NpyIter_GetIterSize iter =? 0) then _ else _)
    as [[h' cd']|] eqn:Hloop; [|by cbn].
  assert (Hh' : load h' p = load h p).
  { destruct (negb _).
    - apply (seed_chunks_frame iter h (PyArray_SIZE result) h' cd' p); [|done].
      intros c Hc. destruct (proj1 (Forall_forall _ _) Hiter c Hc) as [-> ->].
      split; congruence.
    - by injection Hloop as -> _. }
  cbn [st_heap st_trace].
  destruct (negb (cd' =? 0)); [by cbn|].
  destruct (PyArray_HASMASKNA result); cbn.
  - rewrite assign_mask_exposed_frame by done. split; [done|congruence].
  - split; [done|congruence].
Qed.

(** X13: the scattered seeder writes to the result and to nothing else
    the caller can see: whatever it returns, an address in a block that
    was allocated before the call, outside the data and the mask of the
    result, holds what it held; this covers the data and the mask of the
    operand. *)
Theorem X13_seeder_frame
    (NpyIter_MultiNew :
       PyArrayObject -> PyArrayObject -> PyArrayObject -> option (list inner_chunk))
    (operand result : PyArrayObject) (axis_flags : list bool) (s : state)
    (view initialized : PyArrayObject) (h : heap) (p : pointer) :
  seeding_setup (st_heap s) operand result = (view, initialized, h) ->
  (forall iter, NpyIter_MultiNew view result initialized = Some iter ->
     stays_in_arrays iter result initialized) ->
  (block p < nextblock (st_heap s))%nat ->
  block p ≠ block (data result) ->
  (forall m, maskna result = Some m -> block (maskna_data m) ≠ block p) ->
  load (st_heap (initialize_reduce_result_noidentity_skipna NpyIter_MultiNew
                   operand result axis_flags s).2) p
  = load (st_heap s) p.
Proof.
  intros Hsetup Hiter Hp HpR Hmask.
  destruct (seeding_setup_spec _ _ _ _ _ _ Hsetup) as (_ & Hinit & _ & Hframe).
  destruct (seeder_stores NpyIter_MultiNew operand result axis_flags s
              view initialized h p Hsetup Hiter HpR) as [-> _]; [|done|].
  { rewrite Hinit. simpl. lia. }
  rewrite Hframe by lia. by apply allocate_mask_load.
Qed.

(** X14: the view the scattered seeder returns has a mask of its own
    that is, byte for byte, the mask of the operand, or exposes every
    element when the operand has no mask: the seeder hides no element
    in it. *)
Theorem X14_seeder_view_mask
    (NpyIter_MultiNew :
       PyArrayObject -> PyArrayObject -> PyArrayObject -> option (list inner_chunk))
    (operand result : PyArrayObject) (axis_flags : list bool) (s : state)
    (view initialized : PyArrayObject) (h : heap) (v : PyArrayObject) :
  seeding_setup (st_heap s) operand result = (view, initialized, h) ->
  (forall iter, NpyIter_MultiNew view result initialized = Some iter ->
     stays_in_arrays iter result initialized) ->
  (block (data result) < nextblock (st_heap s))%nat ->
  (forall m, maskna result = Some m ->
     (block (maskna_data m) < nextblock (st_heap s))%nat) ->
  let r := initialize_reduce_result_noidentity_skipna NpyIter_MultiNew
             operand result axis_flags s in
  r.1 = Ok v ->
  exists own,
    maskna v = Some own /\
    forall idx, idx ∈ coords (dimensions operand) ->
      load (st_heap r.2) (mask_ptr own idx)
      = match maskna operand with
        | Some m => load (st_heap s) (mask_ptr m idx)
        | None => 1
        end.
Proof.
  intros Hsetup Hiter Hres Hmask r Hok.
  destruct (seeding_setup_spec _ _ _ _ _ _ Hsetup) as (Hview & Hinit & _ & Hframe).
  pose proof (allocate_mask_spec (st_heap s) operand)
    as (_ & _ & _ & _ & Hown & _).
  rewrite <- Hview in Hown.
  set (own := Mask NPY_BOOL (Ptr (nextblock (st_heap s)) 0)
                (c_strides (dimensions operand) 1)) in *.
  exists own. split.
  { destruct (seeder_stores NpyIter_MultiNew operand result axis_flags s
                view initialized h (Ptr (nextblock (st_heap s)) 0) Hsetup Hiter)
      as [_ Hv].
    - simpl. lia.
    - rewrite Hinit. simpl. lia.
    - intros m Hm. specialize (Hmask m Hm). simpl. lia.
    - by rewrite (Hv v Hok). }
  intros idx Hidx.
  destruct (seeder_stores NpyIter_MultiNew operand result axis_flags s
              view initialized h (mask_ptr own idx) Hsetup Hiter) as [Hload _].
  - simpl. lia.
  - rewrite Hinit. simpl. lia.
  - intros m Hm. specialize (Hmask m Hm). simpl. lia.
  - subst r. rewrite Hload, Hframe by (simpl; lia).
    by apply allocate_mask_copy.
Qed.

Lemma X12_witness :
  load (st_heap run_seed_NA.2) (Ptr 2 8) = load heap_NA (Ptr 0 16).
Proof.
  exact (X12_seeder_first_exposed NpyIter_MultiNew_reference
           matrix_NA result_2x1 [false; true] (start heap_NA)
           (seeding_setup heap_NA matrix_NA result_2x1).1.1
           (seeding_setup heap_NA matrix_NA result_2x1).1.2
           (seeding_setup heap_NA matrix_NA result_2x1).2
           (default [] (NpyIter_MultiNew_reference
                          (seeding_setup heap_NA matrix_NA result_2x1).1.1
                          result_2x1
                          (seeding_setup heap_NA matrix_NA result_2x1).1.2))
           (Ptr 2 8)
           eq_refl eq_refl
           ltac:(apply (bool_decide_unpack _); vm_compute; exact I)
           ltac:(vm_compute; lia) ltac:(vm_compute; lia)
           ltac:(vm_compute; lia) ltac:(repeat constructor; lia)
           ltac:(intros m Hm; discriminate Hm) eq_refl).
Defined.

Lemma X13_witness :
  load (st_heap run_seed_NA.2) (Ptr 1 1) = load heap_NA (Ptr 1 1).
Proof.
  apply (X13_seeder_frame NpyIter_MultiNew_reference
           matrix_NA result_2x1 [false; true] (start heap_NA)
           (seeding_setup heap_NA matrix_NA result_2x1).1.1
           (seeding_setup heap_NA matrix_NA result_2x1).1.2
           (seeding_setup heap_NA matrix_NA result_2x1).2
           (Ptr 1 1) eq_refl).
  - intros iter Hiter. vm_compute in Hiter. injection Hiter as <-.
    unfold stays_in_arrays. repeat constructor.
  - vm_compute. lia.
  - vm_compute. lia.
  - intros m Hm. discriminate Hm.
Defined.

Lemma X14_witness :
  exists own,
    maskna (Array [2; 2] [16; 8] (Ptr 0 0) float64
              (Some (Mask NPY_BOOL (Ptr 4 0) [2; 1]))) = Some own /\
    forall idx, idx ∈ coords [2; 2] ->
      load (st_heap run_seed_NA.2) (mask_ptr own idx)
      = load heap_NA (mask_ptr (Mask NPY_BOOL (Ptr 1 0) [2; 1]) idx).
Proof.
  apply (X14_seeder_view_mask NpyIter_MultiNew_reference
           matrix_NA result_2x1 [false; true] (start heap_NA)
           (seeding_setup heap_NA matrix_NA result_2x1).1.1
           (seeding_setup heap_NA matrix_NA result_2x1).1.2
           (seeding_setup heap_NA matrix_NA result_2x1).2
           (Array [2; 2] [16; 8] (Ptr 0 0) float64
              (Some (Mask NPY_BOOL (Ptr 4 0) [2; 1]))) eq_refl).
  - intros iter Hiter. vm_compute in Hiter. injection Hiter as <-.
    unfold stays_in_arrays. repeat constructor.
  - vm_compute. lia.
  - intros m Hm. discriminate Hm.
  - vm_compute. reflexivity.
Defined.
